(** * python-documentcloud: [documentcloud/documents.py]

    A shallow embedding of the [Document] asset accessors and of the
    [DocumentClient] upload paths, with the properties of the
    specification proved (or refuted) against it.

    Python [str] values are modelled by [string], a character of the
    ASCII range by itself. Attribute names are ASCII. The name of a file
    may hold other characters, each modelled by the bytes of its UTF-8
    encoding: the code looks at such a name only for its separators and
    dots and through [str.lower] (see [str_lower]). Python [int] is
    modelled by [Z], Python [dict] by [gmap] (or by an association list
    where iteration order is observable), exceptions by a sum type. *)

From Stdlib Require Import ZArith List String Ascii Bool Lia DecimalString.
From stdpp Require Import base option list strings gmap.

Local Open Scope string_scope.
Local Open Scope Z_scope.

(** ** Python string primitives *)

Module Py.

(** [s.startswith(p)] *)
Fixpoint string_prefix (p s : string) {struct p} : bool :=
  match p with
  | EmptyString => true
  | String a p' =>
      match s with
      | EmptyString => false
      | String b s' => if Ascii.eqb a b then string_prefix p' s' else false
      end
  end.

Definition startswith (s p : string) : bool := string_prefix p s.

(** [s.endswith(p)], through the reversed character lists. *)
Fixpoint list_prefix (p s : list ascii) : bool :=
  match p, s with
  | [], _ => true
  | _ :: _, [] => false
  | a :: p', b :: s' => if Ascii.eqb a b then list_prefix p' s' else false
  end.

Definition endswith (s p : string) : bool :=
  list_prefix (rev (list_ascii_of_string p)) (rev (list_ascii_of_string s)).

(** [s[n:]] *)
Fixpoint drop_chars (n : nat) (s : string) : string :=
  match n, s with
  | O, _ => s
  | S n', String _ s' => drop_chars n' s'
  | S _, EmptyString => EmptyString
  end.

(** ASCII case folding of one character, as [str.lower] does on it. *)
Definition lower_ascii (c : ascii) : ascii :=
  let n := nat_of_ascii c in
  if (Nat.leb 65 n && Nat.leb n 90)%bool then ascii_of_nat (n + 32) else c.

(** [s.isascii()] *)
Fixpoint isascii (s : string) : bool :=
  match s with
  | EmptyString => true
  | String c s' => (Nat.ltb (nat_of_ascii c) 128 && isascii s')%bool
  end.

(** [s.lower()] for a string of ASCII characters. On other strings
    [str.lower] follows the Unicode case tables; see [str_lower]. *)
Fixpoint lower (s : string) : string :=
  match s with
  | EmptyString => EmptyString
  | String c s' => String (lower_ascii c) (lower s')
  end.

(** [s.lstrip(".")]: drop the leading run of the character. *)
Fixpoint lstrip (c : ascii) (s : string) : string :=
  match s with
  | String a s' => if Ascii.eqb a c then lstrip c s' else s
  | EmptyString => EmptyString
  end.

(** The part of [s] after the last occurrence of [c] ([None] when [c]
    does not occur), and the part before it. *)
Fixpoint after_last (c : ascii) (s : string) : option string :=
  match s with
  | EmptyString => None
  | String a s' =>
      match after_last c s' with
      | Some r => Some r
      | None => if Ascii.eqb a c then Some s' else None
      end
  end.

Fixpoint before_last (c : ascii) (s : string) : option string :=
  match s with
  | EmptyString => None
  | String a s' =>
      match before_last c s' with
      | Some r => Some (String a r)
      | None => if Ascii.eqb a c then Some EmptyString else None
      end
  end.

(** [c in s] for a one-character [c]. *)
Fixpoint contains (c : ascii) (s : string) : bool :=
  match s with
  | EmptyString => false
  | String a s' => if Ascii.eqb a c then true else contains c s'
  end.

(** [s.split(c)[-1]] *)
Definition split_last (c : ascii) (s : string) : string :=
  match after_last c s with Some r => r | None => s end.

(** [s.rsplit(c, 1)[0]] *)
Definition rsplit1_head (c : ascii) (s : string) : string :=
  match before_last c s with Some r => r | None => s end.

(** [str(n)] for an [int]. *)
Definition str_int (z : Z) : string := NilZero.string_of_int (Z.to_int z).

(** [template.format(a1, ..., an)] for templates whose only replacement
    fields are the automatic ones, written as an opening and a closing
    brace. A field without an argument is where Python raises
    [IndexError]: the result is [None] there. *)
Fixpoint format (t : string) (args : list string) : option string :=
  match t with
  | EmptyString => Some EmptyString
  | String c t' =>
      match t' with
      | String c' t'' =>
          if (Ascii.eqb c "{" && Ascii.eqb c' "}")%bool then
            match args with
            | a :: args' =>
                match format t'' args' with
                | Some r => Some (a ++ r)
                | None => None
                end
            | [] => None
            end
          else
            match format t' args with
            | Some r => Some (String c r)
            | None => None
            end
      | EmptyString => Some (String c EmptyString)
      end
  end.

(** [range(lo, hi)] *)
Definition range (lo hi : Z) : list Z :=
  map (fun k : nat => lo + Z.of_nat k) (seq 0 (Z.to_nat (hi - lo))).

(** [s.rfind(c)] for a one-character [c]: the index of its last
    occurrence, or -1. *)
Fixpoint rfind_from (c : ascii) (s : string) (i acc : Z) : Z :=
  match s with
  | EmptyString => acc
  | String a s' => rfind_from c s' (i + 1) (if Ascii.eqb a c then i else acc)
  end.

Definition rfind (c : ascii) (s : string) : Z := rfind_from c s 0 (-1).

(** The loop of [genericpath._splitext] that skips the leading dots of the
    file name: [true] when some character of [p] at an index in
    [i, i + n) is not a dot. *)
Fixpoint has_non_dot (p : string) (i : nat) (n : nat) : bool :=
  match n with
  | O => false
  | S n' =>
      match String.get i p with
      | Some a => if Ascii.eqb a "." then has_non_dot p (S i) n' else true
      | None => true
      end
  end.

(** [os.path.splitext(p)] (POSIX): the extension starts at the last dot of
    the last path component, leading dots of that component apart. *)
Definition splitext (p : string) : string * string :=
  let sepIndex := rfind "/" p in
  let dotIndex := rfind "." p in
  if (dotIndex >? sepIndex) && has_non_dot p (Z.to_nat (sepIndex + 1))
                                 (Z.to_nat (dotIndex - (sepIndex + 1)))
  then (String.substring 0 (Z.to_nat dotIndex) p, drop_chars (Z.to_nat dotIndex) p)
  else (p, EmptyString).

(** [os.path.join(a, b)] (POSIX). *)
Definition join (a b : string) : string :=
  if startswith b "/" then b
  else if (String.eqb a EmptyString || endswith a "/")%bool then a ++ b
  else a ++ "/" ++ b.

End Py.

(** ** Exceptions and results *)

(** What a request can raise: the classes of [documentcloud/exceptions.py],
    each with the status code and the body of the response, and
    [requests.exceptions.RequestException]. The classes of
    [exceptions.py] are siblings: none is a subclass of [APIError]. *)
Inductive remote_exn : Type :=
| APIError (status_code : Z) (error : string)
| RequestException (msg : string)
| DoesNotExistError (status_code : Z) (error : string)
| MultipleObjectsReturnedError (status_code : Z) (error : string)
| DuplicateObjectError (status_code : Z) (error : string)
| CredentialsFailedError (status_code : Z) (error : string).

(** [isinstance(exc, (APIError, RequestException))]: what the [except]
    clauses of [upload_directory] catch. *)
Definition caught (e : remote_exn) : bool :=
  match e with
  | APIError _ _ | RequestException _ => true
  | _ => false
  end.

Inductive exn : Type :=
| AttributeError (msg : string)
| ValueError (msg : string)
| TypeError (msg : string)
| IndexError
| UnicodeDecodeError
| JSONDecodeError
| RecursionError
| Remote (e : remote_exn)
| Other (cls : string).

(** A computation either raises or returns. *)
Definition result (A : Type) : Type := (exn + A)%type.

Definition Return {A : Type} (a : A) : result A := inr a.
Definition Raise {A : Type} (e : exn) : result A := inl e.

Definition rbind {A B : Type} (m : result A) (k : A -> result B) : result B :=
  match m with
  | inl e => inl e
  | inr a => k a
  end.

Notation "'let*' x ':=' m 'in' k" := (rbind m (fun x => k))
  (at level 10, x name, m at level 100, k at level 200).

(** [fmt.format(args)] as a computation: [IndexError] for a missing
    argument. *)
Definition format (t : string) (args : list string) : result string :=
  match Py.format t args with
  | Some s => Return s
  | None => Raise IndexError
  end.

(** ** Documents *)

Definition bytes : Type := list Byte.byte.

#[local] Set Warnings "-register-all".

Inductive json : Type :=
| JNull
| JBool (b : bool)
| JNum (z : Z)
| JStr (s : string)
| JArr (l : list json)
| JObj (l : list (string * json)).

(** A document, with the attributes that the accessors read. [highlights]
    is [None] when the attribute is absent, [Some None] when it is Python's
    [None], and otherwise the items of the mapping in iteration order. The
    other attributes that ordinary lookup finds (the remaining fields of
    the service's JSON, the members of the base classes) are not part of
    the record: see [inherited] below. *)
Record Document : Type := mkDocument {
  asset_url : string;
  id : Z;
  slug : string;
  page_count : Z;
  highlights : option (option (list (string * list string)))
}.

(** *** Resource URLs *)

Definition get_full_text_url (self : Document) : result string :=
  format "{}documents/{}/{}.txt"
    [asset_url self; Py.str_int (id self); slug self].

Definition get_page_text_url (self : Document) (page : Z) : result string :=
  format "{}documents/{}/pages/{}-p{}.txt"
    [asset_url self; Py.str_int (id self); slug self; Py.str_int page].

Definition get_page_position_json_url (self : Document) (page : Z) : result string :=
  format "{}documents/{}/pages/{}-p{}.position.json"
    [asset_url self; Py.str_int (id self); slug self; Py.str_int page].

Definition get_json_text_url (self : Document) : result string :=
  format "{}documents/{}/{}.txt.json"
    [asset_url self; Py.str_int (id self); slug self].

Definition get_pdf_url (self : Document) : result string :=
  format "{}documents/{}/{}.pdf"
    [asset_url self; Py.str_int (id self); slug self].

Definition get_image_url (self : Document) (page : Z) (size : string) : result string :=
  format "{}documents/{}/pages/{}-p{}-{}.gif"
    [asset_url self; Py.str_int (id self); slug self; Py.str_int page; size].

(** A list comprehension whose body may raise: the first exception ends
    it. *)
Fixpoint comprehension {A B : Type} (f : A -> result B) (l : list A) : result (list B) :=
  match l with
  | [] => Return []
  | a :: l' =>
      let* b := f a in
      let* bs := comprehension f l' in
      Return (b :: bs)
  end.

Definition get_image_url_list (self : Document) (size : string) : result (list string) :=
  comprehension (fun i => get_image_url self i size)
    (Py.range 1 (page_count self + 1)).

(** *** Attribute values *)

Inductive Fmt : Type := FmtText | FmtJson.

(** The bound methods of the class whose names start with [get_]. *)
Inductive url_method : Type :=
| GetFullTextUrl
| GetPageTextUrl
| GetPagePositionJsonUrl
| GetJsonTextUrl
| GetPdfUrl
| GetImageUrl
| GetImageUrlList.

(** What [__getattr__] and ordinary lookup hand out as callables: a bound
    method, the lambda of the second branch (it keeps the name of the URL
    attribute and the decode format), and the two [partial] objects. *)
Inductive callable : Type :=
| BoundMethod (m : url_method)
| FetchLambda (url_attr : string) (fmt : option Fmt)
| PartialImageUrl (size : string)
| PartialImageUrlList (size : string).

(** What calling, without arguments, an object defined outside this file
    does: it is not callable ([TypeError]), it returns a string or
    something else, it raises [AttributeError], or it raises an exception
    of another class. *)
Inductive called : Type :=
| NotCallable
| Returns (s : option string)
| AttributeErrors (msg : string)
| Raises (cls : string).

(** What ordinary lookup does with a name that this file does not settle:
    it finds an object, or it raises an exception other than
    [AttributeError]. *)
Inductive found : Type :=
| Gives (c : called)
| LookupRaises (cls : string).

Inductive value : Type :=
| VNone
| VInt (z : Z)
| VStr (s : string)
| VStrList (l : list string)
| VBytes (b : bytes)
| VJson (j : json)
| VHighlights (h : list (string * list string))
| VCallable (c : callable)
| VOpaque (name : string)
| VInherited (name : string) (c : called).

Definition url_method_of_name (name : string) : option url_method :=
  if String.eqb name "get_full_text_url" then Some GetFullTextUrl
  else if String.eqb name "get_page_text_url" then Some GetPageTextUrl
  else if String.eqb name "get_page_position_json_url" then Some GetPagePositionJsonUrl
  else if String.eqb name "get_json_text_url" then Some GetJsonTextUrl
  else if String.eqb name "get_pdf_url" then Some GetPdfUrl
  else if String.eqb name "get_image_url" then Some GetImageUrl
  else if String.eqb name "get_image_url_list" then Some GetImageUrlList
  else None.

(** The other names that the class body defines or that [__init__] sets,
    whose lookup cannot fail: the class attributes, the methods (the ones
    with double underscores included), the property [mentions], and the
    three clients. None of them is called during accessor resolution but
    [_get_url], which needs an argument. The properties [user],
    [organization], [contributor], [contributor_organization] and
    [contributor_organization_slug] are not in the list: their getters can
    raise, [AttributeError] included. *)
Definition other_attributes : list string :=
  ["__module__"; "__doc__"; "api_path"; "writable_fields"; "date_fields";
   "__init__"; "__str__"; "__getattr__"; "__dir__"; "mentions"; "_get_url";
   "process"; "sections"; "annotations"; "notes"].

Fixpoint mem_string (s : string) (l : list string) : bool :=
  match l with
  | [] => false
  | x :: l' => if String.eqb s x then true else mem_string s l'
  end.

(** Ordinary attribute lookup, the one Python tries before it falls back
    on [__getattr__]: [None] when it raises [AttributeError], and
    otherwise what it returns or raises.

    The methods and attributes of the class body and the fields of the
    record are settled here. Every other name is left to [inherited]: the
    remaining fields of the service's JSON ([title], [access],
    [canonical_url], ...), [_client], the members of the base classes
    ([base.py] is not part of the sources at hand), and the five
    properties that read a related object; [inherited name] is [None] when
    the lookup of [name] raises [AttributeError] (a property whose getter
    raises it included: Python then falls back on [__getattr__] as for a
    missing name). A field of the JSON named like a method of the class
    would hide it; the JSON of the service has no such field. *)
Definition normal_getattr (inherited : string -> option found) (self : Document)
    (name : string) : option (result value) :=
  match url_method_of_name name with
  | Some m => Some (Return (VCallable (BoundMethod m)))
  | None =>
      if String.eqb name "asset_url" then Some (Return (VStr (asset_url self)))
      else if String.eqb name "id" then Some (Return (VInt (id self)))
      else if String.eqb name "slug" then Some (Return (VStr (slug self)))
      else if String.eqb name "page_count" then Some (Return (VInt (page_count self)))
      else if String.eqb name "pages" then Some (Return (VInt (page_count self)))
      else if String.eqb name "highlights" then
        match highlights self with
        | None => None
        | Some None => Some (Return VNone)
        | Some (Some h) => Some (Return (VHighlights h))
        end
      else if mem_string name other_attributes then Some (Return (VOpaque name))
      else
        match inherited name with
        | None => None
        | Some (Gives c) => Some (Return (VInherited name c))
        | Some (LookupRaises cls) => Some (Raise (Other cls))
        end
  end.

(** A document without any attribute beyond those settled above. *)
Definition no_inherited (name : string) : option found := None.

(** What calling an object found through [inherited] gives. *)
Definition outcome (name : string) (c : called) : result value :=
  match c with
  | NotCallable => Raise (TypeError "object is not callable")
  | Returns (Some s) => Return (VStr s)
  | Returns None => Return (VOpaque (name ++ "()"))
  | AttributeErrors msg => Raise (AttributeError msg)
  | Raises cls => Raise (Other cls)
  end.

(** The pattern
    [^get_(?P<size>thumbnail|small|normal|large)_image_url(?P<list>_list)?$]:
    the size and whether the [list] group matched. [$] matches at the end
    of the name and also before a line break that ends it. *)
Definition image_sizes : list string := ["thumbnail"; "small"; "normal"; "large"].

Definition newline : string := String (Ascii.ascii_of_nat 10) EmptyString.

(** The name without the one line break that may end it. *)
Definition chomp (attr : string) : string :=
  if Py.endswith attr newline
  then String.substring 0 (String.length attr - 1)%nat attr
  else attr.

Fixpoint p_image_match_in (sizes : list string) (attr : string) : option (string * bool) :=
  match sizes with
  | [] => None
  | size :: sizes' =>
      if String.eqb attr ("get_" ++ size ++ "_image_url") then Some (size, false)
      else if String.eqb attr ("get_" ++ size ++ "_image_url_list") then Some (size, true)
      else p_image_match_in sizes' attr
  end.

Definition p_image_match (attr : string) : option (string * bool) :=
  p_image_match_in image_sizes (chomp attr).

(** *** Mentions *)

Record Mention : Type := mkMention { page : string; text : string }.

(** [Mention.__init__] *)
Definition Mention__init__ (page text : string) : Mention :=
  let page :=
    if Py.startswith page "page_no_"
    then Py.drop_chars (String.length "page_no_") page
    else page in
  mkMention page text.

Section Accessors.

(** What ordinary lookup finds beyond the class body and the record (see
    [normal_getattr]). *)
Variable inherited : string -> option found.

(** The HTTP side of [_get_url]: the client's base URI, [urlparse(u).netloc],
    the authenticated [client.get(url, full_url=True)], the anonymous
    retrying session's [get], and the two decoders. A fetch either raises
    or yields the response body. *)
Variable base_uri : string.
Variable netloc : string -> string.
Variable client_get : string -> remote_exn + bytes.
Variable session_get : string -> remote_exn + bytes.
Variable decode_utf8 : bytes -> option string.
Variable parse_json : bytes -> option json.

(** The request of [_get_url]: through the client when the URL is on the
    API's own host, through the anonymous session otherwise. *)
Definition _get_url_response (url : string) : remote_exn + bytes :=
  if String.eqb (netloc base_uri) (netloc url) then client_get url
  else session_get url.

Definition _get_url (url : string) (fmt : option Fmt) : result value :=
  match _get_url_response url with
  | inl e => Raise (Remote e)
  | inr content =>
      match fmt with
      | Some FmtText =>
          match decode_utf8 content with
          | Some s => Return (VStr s)
          | None => Raise UnicodeDecodeError
          end
      | Some FmtJson =>
          match parse_json content with
          | Some j => Return (VJson j)
          | None => Raise JSONDecodeError
          end
      | None => Return (VBytes content)
      end
  end.

(** Calling a bound method without arguments: [page] defaults to 1 and
    [size] to [normal]. *)
Definition call_url_method (self : Document) (m : url_method) : result value :=
  match m with
  | GetFullTextUrl => let* u := get_full_text_url self in Return (VStr u)
  | GetPageTextUrl => let* u := get_page_text_url self 1 in Return (VStr u)
  | GetPagePositionJsonUrl =>
      let* u := get_page_position_json_url self 1 in Return (VStr u)
  | GetJsonTextUrl => let* u := get_json_text_url self in Return (VStr u)
  | GetPdfUrl => let* u := get_pdf_url self in Return (VStr u)
  | GetImageUrl => let* u := get_image_url self 1 "normal" in Return (VStr u)
  | GetImageUrlList =>
      let* l := get_image_url_list self "normal" in Return (VStrList l)
  end.

(** [v()] for a value [v]; [ga] is [getattr(self, _)], which the lambda
    of the second branch calls again when it runs. *)
Fixpoint call_fuel (k : nat) (ga : string -> result value) (self : Document)
    (v : value) : result value :=
  match v with
  | VCallable (BoundMethod m) => call_url_method self m
  | VCallable (PartialImageUrl size) =>
      let* u := get_image_url self 1 size in Return (VStr u)
  | VCallable (PartialImageUrlList size) =>
      let* l := get_image_url_list self size in Return (VStrList l)
  | VInherited name c => outcome name c
  | VCallable (FetchLambda url_attr fmt) =>
      match k with
      | O => Raise RecursionError
      | S k' =>
          let* f := ga url_attr in
          let* u := call_fuel k' ga self f in
          match u with
          | VStr url => _get_url url fmt
          | _ => Raise (TypeError "url is not a string")
          end
      end
  | _ => Raise (TypeError "object is not callable")
  end.

(** [hasattr(self, name)]: [False] on [AttributeError], any other
    exception propagates. *)
Definition hasattr_with (ga : string -> result value) (name : string) : result bool :=
  match ga name with
  | inr _ => Return true
  | inl (AttributeError _) => Return false
  | inl e => Raise e
  end.

(** The body of [Document.__getattr__]; [ga] resolves the nested
    [hasattr] and [getattr] calls and [call] applies a value to no
    arguments. *)
Definition __getattr__body (ga : string -> result value)
    (call : value -> result value) (attr : string) : result value :=
  let get := Py.startswith attr "get_" in
  let url := Py.endswith attr "_url" in
  let text := Py.endswith attr "_text" in
  let json := (Py.endswith attr "_json" || Py.endswith attr "_json_text")%bool in
  let fmt := if json then Some FmtJson else if text then Some FmtText else None in
  let* b1 := (if negb get then hasattr_with ga ("get_" ++ attr) else Return false) in
  if b1 then
    let* f := ga ("get_" ++ attr) in call f
  else
    let* b2 := (if negb url then hasattr_with ga (attr ++ "_url") else Return false) in
    if b2 then Return (VCallable (FetchLambda (attr ++ "_url") fmt))
    else
      match p_image_match attr with
      | Some (size, true) => Return (VCallable (PartialImageUrlList size))
      | Some (size, false) => Return (VCallable (PartialImageUrl size))
      | None =>
          Raise (AttributeError
                   ("'Document' object has no attribute '" ++ attr ++ "'"))
      end.

(** [getattr(self, attr)]: ordinary lookup, then [__getattr__]. The
    recursion goes through [hasattr]; [n] bounds its depth. *)
Fixpoint getattr_fuel (n : nat) (self : Document) (attr : string) : result value :=
  match normal_getattr inherited self attr with
  | Some r => r
  | None =>
      match n with
      | O => Raise RecursionError
      | S n' =>
          __getattr__body (getattr_fuel n' self)
            (call_fuel n (getattr_fuel n' self) self) attr
      end
  end.

(** Three nested lookups are the deepest chain the body can start
    ([x], [get_x], [get_x_url]); see [getattr_fuel_stable]. *)
Definition getattr (self : Document) (attr : string) : result value :=
  getattr_fuel 3 self attr.

Definition hasattr (self : Document) (name : string) : result bool :=
  hasattr_with (getattr self) name.

(** [getattr(self, attr)()] *)
Definition call_attr (self : Document) (attr : string) : result value :=
  let* f := getattr self attr in
  call_fuel 3 (getattr self) self f.

(** The [mentions] property. *)
Definition mentions (self : Document) : result (list Mention) :=
  let* present := hasattr self "highlights" in
  if present then
    let* h := getattr self "highlights" in
    match h with
    | VNone => Return []
    | VHighlights items =>
        Return (flat_map (fun pt => map (Mention__init__ (fst pt)) (snd pt)) items)
    | _ => Raise (AttributeError "object has no attribute 'items'")
    end
  else Return [].

(** What the text accessors hand back for a URL: the fetched body decoded
    as UTF-8, or the exception of the fetch or of the decoding. *)
Definition fetched_text (url : string) : result value :=
  match _get_url_response url with
  | inl e => Raise (Remote e)
  | inr body =>
      match decode_utf8 body with
      | Some s => Return (VStr s)
      | None => Raise UnicodeDecodeError
      end
  end.

End Accessors.

(** *** Vocabulary of the accessor properties *)

(** Every value but the lambda of the second branch is called without
    another lookup. *)
Definition direct (v : value) : Prop :=
  match v with
  | VCallable (FetchLambda _ _) => False
  | _ => True
  end.

(** The page image URL as a plain string. *)
Definition image_url_string (d : Document) (pg : Z) (size : string) : string :=
  asset_url d ++ "documents/" ++ Py.str_int (id d) ++ "/pages/" ++ slug d
    ++ "-p" ++ Py.str_int pg ++ "-" ++ size ++ ".gif".

(** A name is unrecognized when neither it nor any of the names the
    fallback derives from it ([get_] prefixed, [_url] suffixed, both) is
    an attribute found by ordinary lookup or an image accessor name. *)
Definition derived_names (attr : string) : list string :=
  [attr; "get_" ++ attr; attr ++ "_url"; "get_" ++ attr ++ "_url"].

Definition unrecognized (inherited : string -> option found) (d : Document)
    (attr : string) : bool :=
  forallb (fun x => match normal_getattr inherited d x, p_image_match x with
                    | None, None => true
                    | _, _ => false
                    end) (derived_names attr).

Definition no_attribute (attr : string) : exn :=
  AttributeError ("'Document' object has no attribute '" ++ attr ++ "'").


(** ** Upload parameters *)

(** The Python values that travel in keyword arguments and request
    bodies. *)
Inductive pyval : Type :=
| PNone
| PBool (b : bool)
| PInt (z : Z)
| PStr (s : string)
| PList (l : list pyval).

(** [DocumentClient._get_title]; [os.sep] is the slash. *)
Definition _get_title (name : string) : string :=
  Py.rsplit1_head "." (Py.split_last "/" name).

Definition allowed_parameters : list string :=
  ["access"; "description"; "language"; "original_extension";
   "related_article"; "publish_at"; "published_url"; "source"; "title";
   "data"; "force_ocr"; "projects"; "delayed_index"].

(** [DocumentClient._format_upload_parameters]. The warning issued for the
    ignored parameter [secure] changes no value and is left out. *)
Definition _format_upload_parameters (name : string) (kwargs : gmap string pyval)
    : gmap string pyval :=
  let params : gmap string pyval := {[ "title" := PStr (_get_title name) ]} in
  let params :=
    match kwargs !! "project" with
    | Some v => <[ "projects" := PList [v] ]> params
    | None => params
    end in
  foldl (fun (params : gmap string pyval) param =>
           match kwargs !! param with
           | Some v => <[ param := v ]> params
           | None => params
           end) params allowed_parameters.

(** Modelled from the spec: [toolbox.merge_dicts] is not part of the
    sources at hand. The create call submits "per-item metadata (title
    derived from filename without extension; shared options from caller
    ...) plus each item's detected extension": the entries of the later
    dictionary are added to those of the earlier one and win on a shared
    key. *)
Definition merge_dicts (d1 d2 : gmap string pyval) : gmap string pyval := d2 ∪ d1.

(** Modelled from the spec: [toolbox.grouper] is not part of the sources at
    hand. It groups a sequence into chunks of [n] in order, and "will put
    None's on the end of the last group" (the comment at its call site). *)
Fixpoint grouper_fuel {A : Type} (fuel : nat) (l : list A) (n : nat)
    : list (list (option A)) :=
  match fuel with
  | O => []
  | S fuel' =>
      match l with
      | [] => []
      | _ :: _ =>
          let chunk := map Some (firstn n l) in
          (chunk ++ repeat None (n - length chunk))%list
            :: grouper_fuel fuel' (skipn n l) n
      end
  end.

Definition grouper {A : Type} (l : list A) (n : nat) : list (list (option A)) :=
  match n with
  | O => []
  | S _ => grouper_fuel (length l) l n
  end.

(** [[p for p in file_paths if p is not None]] *)
Fixpoint drop_none {A : Type} (l : list (option A)) : list A :=
  match l with
  | [] => []
  | Some a :: l' => a :: drop_none l'
  | None :: l' => drop_none l'
  end.

Definition supported_extensions : list string :=
  [".abw"; ".zabw"; ".md"; ".pm3"; ".pm4"; ".pm5"; ".pm6"; ".p65"; ".cwk";
   ".agd"; ".fhd"; ".kth"; ".key"; ".numbers"; ".pages"; ".bmp"; ".csv";
   ".txt"; ".cdr"; ".cmx"; ".cgm"; ".dif"; ".dbf"; ".xml"; ".eps"; ".emf";
   ".fb2"; ".gnm"; ".gnumeric"; ".gif"; ".hwp"; ".plt"; ".html"; ".htm";
   ".jtd"; ".jtt"; ".jpg"; ".jpeg"; ".wk1"; ".wks"; ".123"; ".wk3"; ".wk4";
   ".pct"; ".mml"; ".xls"; ".xlw"; ".xlt"; ".xlsx"; ".docx"; ".pptx";
   ".ppt"; ".pps"; ".pot"; ".pptx"; ".pub"; ".rtf"; ".xml"; ".doc"; ".dot";
   ".docx"; ".wps"; ".wks"; ".wdb"; ".wri"; ".vsd"; ".pgm"; ".pbm"; ".ppm";
   ".odt"; ".fodt"; ".ods"; ".fods"; ".odp"; ".fodp"; ".odg"; ".fodg";
   ".odf"; ".odb"; ".sxw"; ".stw"; ".sxc"; ".stc"; ".sxi"; ".sti"; ".sxd";
   ".std"; ".sxm"; ".pcx"; ".pcd"; ".psd"; ".pdf"].

(** ** The local machine and the service *)

(** The argument of [upload]: a string (a URL or a path), or an open file
    with its name, the size [os.fstat] reports (if it reports one) and its
    content. *)
Inductive pdf_arg : Type :=
| PdfString (s : string)
| PdfFile (name : string) (fstat_size : option Z) (content : bytes).

(** What the code asks of the operating system and of the libraries it
    calls: [os.walk] (the directory path and the file names of each
    directory visited, in order), [magic.from_file(_, mime=True)],
    [mimetypes.guess_extension], [os.path.getsize], the content read from a
    path, [toolbox.is_url] on strings, and [str.lower] on a string that
    holds characters outside ASCII (the Unicode case tables). *)
Record World : Type := mkWorld {
  os_walk : string -> list (string * list string);
  magic_from_file : string -> string;
  guess_extension : string -> option string;
  getsize : string -> Z;
  read_file : string -> bytes;
  is_url : string -> bool;
  unicode_lower : string -> string
}.

Definition with_getsize (g : string -> Z) (w : World) : World :=
  mkWorld (os_walk w) (magic_from_file w) (guess_extension w) g (read_file w) (is_url w)
    (unicode_lower w).

(** [s.lower()] on any string. *)
Definition str_lower (w : World) (s : string) : string :=
  if Py.isascii s then Py.lower s else unicode_lower w s.

(** An element of the JSON array the bulk create call answers with: the
    document and its one-time storage target. *)
Record created : Type := mkCreated {
  presigned_url : string;
  doc : Document
}.

Inductive request : Type :=
| PostDocuments (documents : list (gmap string pyval))
| PostDocument (params : gmap string pyval)
| PutStorage (url : string) (data : bytes)
| PostProcessIds (ids : list Z)
| PostProcess (doc_id : Z) (force_ocr : pyval).

Inductive response : Type :=
| RespCreatedList (l : list created)
| RespCreated (c : created)
| RespDone.

(** One request with what came back: the exception raised, or the
    response. *)
Record event : Type := mkEvent {
  ev_request : request;
  ev_outcome : remote_exn + response
}.

(** The service and the storage: each answer may depend on everything that
    was requested before. *)
Record Server : Type := mkServer {
  srv_create_bulk : list event -> list (gmap string pyval) -> remote_exn + list created;
  srv_create : list event -> gmap string pyval -> remote_exn + created;
  srv_put : list event -> string -> bytes -> option remote_exn;
  srv_process_bulk : list event -> list Z -> option remote_exn;
  srv_process : list event -> Z -> pyval -> option remote_exn
}.

(** ** Computations that talk to the service *)

(** The state is the list of requests made so far, oldest first. *)
Definition M (A : Type) : Type := list event -> list event * result A.

Definition mret {A : Type} (a : A) : M A := fun tr => (tr, Return a).

Definition mraise {A : Type} (e : exn) : M A := fun tr => (tr, Raise e).

Definition mbind {A B : Type} (m : M A) (k : A -> M B) : M B :=
  fun tr =>
    match m tr with
    | (tr', inr a) => k a tr'
    | (tr', inl e) => (tr', inl e)
    end.

Notation "'do' x <- m ; k" := (mbind m (fun x => k))
  (at level 10, x name, m at level 100, k at level 200).

(** [try: m except (APIError, RequestException) as exc: ...]: an
    exception of these two classes is caught, anything else propagates,
    the other classes of [exceptions.py] included. *)
Definition attempt {A : Type} (m : M A) : M (remote_exn + A) :=
  fun tr =>
    match m tr with
    | (tr', inr a) => (tr', Return (inr a))
    | (tr', inl (Remote e)) =>
        if caught e then (tr', Return (inl e)) else (tr', Raise (Remote e))
    | (tr', inl e) => (tr', Raise e)
    end.

(** A [for] loop whose body may raise. *)
Fixpoint for_each {A : Type} (body : A -> M unit) (l : list A) : M unit :=
  match l with
  | [] => mret tt
  | a :: l' => do _ <- body a; for_each body l'
  end.

(** ** The upload paths of [DocumentClient] *)

Section Client.

Variable w : World.
Variable srv : Server.

(** Modelled from the spec: [constants.BULK_LIMIT] is not part of the
    sources at hand; it is "a fixed constant", the most items one bulk
    call takes. *)
Variable BULK_LIMIT : nat.

(** *** Requests *)

(** [self.client.post("documents/", json=documents)] with a list body. *)
Definition post_documents (documents : list (gmap string pyval)) : M (list created) :=
  fun tr =>
    match srv_create_bulk srv tr documents with
    | inl e => ((tr ++ [mkEvent (PostDocuments documents) (inl e)])%list, Raise (Remote e))
    | inr l =>
        ((tr ++ [mkEvent (PostDocuments documents) (inr (RespCreatedList l))])%list,
         Return l)
    end.

(** [self.client.post("documents/", json=params)] with an object body. *)
Definition post_document (params : gmap string pyval) : M created :=
  fun tr =>
    match srv_create srv tr params with
    | inl e => ((tr ++ [mkEvent (PostDocument params) (inl e)])%list, Raise (Remote e))
    | inr c => ((tr ++ [mkEvent (PostDocument params) (inr (RespCreated c))])%list, Return c)
    end.

(** [requests_retry_session().put(url, data=data)] followed by
    [self.client.raise_for_status(response)]: a failed transfer raises,
    [RequestException] when the request itself failed and, when the status
    was not a success, the exception that the client makes of the response
    ([client.py] is not part of the sources at hand: [DoesNotExistError]
    for a 404 and [APIError] otherwise, going by the classes of
    [exceptions.py] and the tests). [srv_put] answers with that
    exception. *)
Definition put_storage (url : string) (data : bytes) : M unit :=
  fun tr =>
    match srv_put srv tr url data with
    | Some e => ((tr ++ [mkEvent (PutStorage url data) (inl e)])%list, Raise (Remote e))
    | None => ((tr ++ [mkEvent (PutStorage url data) (inr RespDone)])%list, Return tt)
    end.

(** The same request without the status check: only a failed request
    raises; a response with a failure status is recorded and not
    raised. *)
Definition put_storage_unchecked (url : string) (data : bytes) : M unit :=
  fun tr =>
    match srv_put srv tr url data with
    | Some (RequestException msg) =>
        ((tr ++ [mkEvent (PutStorage url data) (inl (RequestException msg))])%list,
         Raise (Remote (RequestException msg)))
    | Some e => ((tr ++ [mkEvent (PutStorage url data) (inl e)])%list, Return tt)
    | None => ((tr ++ [mkEvent (PutStorage url data) (inr RespDone)])%list, Return tt)
    end.

(** [self.client.post("documents/process/", json={"ids": doc_ids})] *)
Definition post_process_ids (ids : list Z) : M unit :=
  fun tr =>
    match srv_process_bulk srv tr ids with
    | Some e => ((tr ++ [mkEvent (PostProcessIds ids) (inl e)])%list, Raise (Remote e))
    | None => ((tr ++ [mkEvent (PostProcessIds ids) (inr RespDone)])%list, Return tt)
    end.

(** [self.client.post("documents/{}/process/".format(doc_id), json={"force_ocr": force_ocr})] *)
Definition post_process (doc_id : Z) (force_ocr : pyval) : M unit :=
  fun tr =>
    match srv_process srv tr doc_id force_ocr with
    | Some e => ((tr ++ [mkEvent (PostProcess doc_id force_ocr) (inl e)])%list, Raise (Remote e))
    | None => ((tr ++ [mkEvent (PostProcess doc_id force_ocr) (inr RespDone)])%list, Return tt)
    end.

(** [Document(self.client, d)] for an element of a create response. *)
Definition Document_ (d : created) : Document := doc d.

(** *** Single upload *)

(** [DocumentClient._upload_url] *)
Definition _upload_url (file_url : string) (kwargs : gmap string pyval) : M Document :=
  let params := _format_upload_parameters file_url kwargs in
  let params := <[ "file_url" := PStr file_url ]> params in
  do response <- post_document params;
  mret (Document_ response).

(** [DocumentClient._upload_file] on a file with the given name and
    content. *)
Definition _upload_file (name : string) (content : bytes) (kwargs : gmap string pyval)
    : M Document :=
  let force_ocr := default (PBool false) (kwargs !! "force_ocr") in
  let kwargs := delete "force_ocr" kwargs in
  let params := _format_upload_parameters name kwargs in
  do create_json <- post_document params;
  do _ <- put_storage_unchecked (presigned_url create_json) content;
  do _ <- post_process (id (doc create_json)) force_ocr;
  mret (Document_ create_json).

Definition size_limit : Z := 501 * 1024 * 1024.

Definition size_limit_error : exn :=
  ValueError
    "The pdf you have submitted is over the DocumentCloud API's 500MB file size limit. Split it into smaller pieces and try again.".

(** [DocumentClient.upload]. [toolbox.is_url] is asked about strings; an
    open file is not a URL. *)
Definition upload (pdf : pdf_arg) (kwargs : gmap string pyval) : M Document :=
  match pdf with
  | PdfString s =>
      if is_url w s then _upload_url s kwargs
      else
        let size := getsize w s in
        if size >=? size_limit then
          mraise size_limit_error
        else _upload_file s (read_file w s) kwargs
  | PdfFile name fstat_size content =>
      let size := default 0 fstat_size in
      if size >=? size_limit then
        mraise size_limit_error
      else _upload_file name content kwargs
  end.

(** *** Directory upload *)

(** [DocumentClient._collect_files] *)
Definition _collect_files (path : string) : list string :=
  flat_map (fun entry => map (Py.join (fst entry)) (snd entry)) (os_walk w path).

(** [DocumentClient._get_valid_extension]. The guessed extension is an
    entry of the tables of [mimetypes], which are ASCII. *)
Definition _get_valid_extension (filepath : string) (supported : list string) : string :=
  let content_type := magic_from_file w filepath in
  match guess_extension w content_type with
  | Some extension =>
      if negb (String.eqb extension EmptyString)
         && mem_string (Py.lower extension) supported
      then extension else EmptyString
  | None => EmptyString
  end.

(** The files of the tree that the pipeline keeps:
    [[file for file in self._collect_files(path)
      if os.path.splitext(file)[1].lower() in supported_extensions]]. *)
Definition path_list (path : string) : list string :=
  List.filter
    (fun file => mem_string (str_lower w (snd (Py.splitext file))) supported_extensions)
    (_collect_files path).

(** The body of one create call: one dictionary per file of the group. *)
Definition documents_of (params : gmap string pyval) (file_paths : list string)
    : list (gmap string pyval) :=
  map (fun p =>
         merge_dicts params
           (<[ "title" := PStr (_get_title p) ]>
              {[ "original_extension" :=
                   PStr (Py.lstrip "." (_get_valid_extension p supported_extensions)) ]}))
      file_paths.

(** The upload of one file of a group to its storage target. *)
Definition upload_one (handle_errors : bool) (item : string * string) : M unit :=
  do r <- attempt (put_storage (fst item) (read_file w (snd item)));
  match r with
  | inr _ => mret tt
  | inl exc => if handle_errors then mret tt else mraise (Remote exc)
  end.

(** One turn of the loop over the groups: [obj_list] comes in and goes
    out. *)
Definition upload_group (handle_errors : bool) (params : gmap string pyval)
    (obj_list : list created) (group : list (option string)) : M (list created) :=
  let file_paths := drop_none group in
  do r <- attempt (post_documents (documents_of params file_paths));
  match r with
  | inl exc => if handle_errors then mret obj_list else mraise (Remote exc)
  | inr create_json =>
      let obj_list := (obj_list ++ create_json)%list in
      let presigned_urls := map presigned_url create_json in
      do _ <- for_each (upload_one handle_errors) (combine presigned_urls file_paths);
      let doc_ids := map (fun j => id (doc j)) create_json in
      do r <- attempt (post_process_ids doc_ids);
      match r with
      | inr _ => mret obj_list
      | inl exc => if handle_errors then mret obj_list else mraise (Remote exc)
      end
  end.

Fixpoint upload_groups (handle_errors : bool) (params : gmap string pyval)
    (obj_list : list created) (groups : list (list (option string))) : M (list created) :=
  match groups with
  | [] => mret obj_list
  | group :: groups' =>
      do obj_list' <- upload_group handle_errors params obj_list group;
      upload_groups handle_errors params obj_list' groups'
  end.

(** [DocumentClient.upload_directory] *)
Definition upload_directory (path : string) (handle_errors : bool)
    (kwargs : gmap string pyval) : M (list Document) :=
  let kwargs := delete "title" kwargs in
  let path_list := path_list path in
  let params := _format_upload_parameters "" kwargs in
  do obj_list <- upload_groups handle_errors params [] (grouper path_list BULK_LIMIT);
  mret (map Document_ obj_list).

End Client.

(** ** Vocabulary of the upload properties *)

(** The files of the groups: the padding removed, as the loop does before
    it uses a group. *)
Definition file_groups {A : Type} (l : list A) (n : nat) : list (list A) :=
  map drop_none (grouper l n).

Definition ceil_div (a b : nat) : nat := ((a + b - 1) / b)%nat.

(** What a trace shows: the failed requests, the bodies of the bulk create
    calls, the records those calls created. *)
Definition ev_ok (ev : event) : bool :=
  match ev_outcome ev with
  | inl _ => false
  | inr _ => true
  end.

Definition clean (tr : list event) : Prop := Forall (fun ev => ev_ok ev = true) tr.

Definition create_body_of (ev : event) : list (list (gmap string pyval)) :=
  match ev_request ev with
  | PostDocuments documents => [documents]
  | _ => []
  end.

Definition create_bodies (tr : list event) : list (list (gmap string pyval)) :=
  flat_map create_body_of tr.

Definition created_of (ev : event) : list created :=
  match ev_request ev, ev_outcome ev with
  | PostDocuments _, inr (RespCreatedList l) => l
  | _, _ => []
  end.

Definition created_in (tr : list event) : list created := flat_map created_of tr.

(** A request after which the run goes on: it succeeded, or it failed
    with an exception that the run catches ([handle_errors] is set and the
    class is one of the two caught). *)
Definition tolerated (he : bool) (ev : event) : bool :=
  match ev_outcome ev with
  | inl e => he && caught e
  | inr _ => true
  end.

Definition passed (he : bool) (tr : list event) : Prop :=
  Forall (fun ev => tolerated he ev = true) tr.

(** An exception that ends the run. *)
Definition fatal (he : bool) (e : remote_exn) : bool := negb (he && caught e).

(** A segment that ends a run: the run went on after every request but
    the last, which failed with [e], and [e] ends the run. *)
Definition stopped (he : bool) (seg : list event) (e : remote_exn) : Prop :=
  exists pre ev,
    seg = (pre ++ [ev])%list /\ passed he pre /\ ev_outcome ev = inl e
    /\ fatal he e = true.

Definition upload_params (kwargs : gmap string pyval) : gmap string pyval :=
  _format_upload_parameters "" (delete "title" kwargs).

Section Runs.

Variable w : World.

Abbreviation documents_of := (documents_of w).

(** The storage request of one item of a group. *)
Definition put_request (item : string * string) : request :=
  PutStorage (fst item) (read_file w (snd item)).

(** The part of a trace that one group leaves when the run goes on after
    it, with the records it adds to the result: a failed create call alone,
    or a create call, one storage request per pair of a returned target and
    a file, and the process call. *)
Inductive group_run (params : gmap string pyval) (file_paths : list string)
    : list event -> list created -> Prop :=
| group_create_failed (e : remote_exn) :
    group_run params file_paths
      [mkEvent (PostDocuments (documents_of params file_paths)) (inl e)] []
| group_created (create_json : list created) (puts : list event)
      (processed : remote_exn + response) :
    map ev_request puts
    = map put_request (combine (map presigned_url create_json) file_paths) ->
    group_run params file_paths
      (mkEvent (PostDocuments (documents_of params file_paths))
               (inr (RespCreatedList create_json))
         :: puts ++ [mkEvent (PostProcessIds (map (fun j => id (doc j)) create_json))
                             processed])
      create_json.

(** The files of each group, and the body of its create call. *)
Definition group_documents (params : gmap string pyval) (g : list (option string))
    : list (gmap string pyval) :=
  documents_of params (drop_none g).

Definition runs_of (params : gmap string pyval) (groups : list (list (option string)))
    (runs : list (list event * list created)) : Prop :=
  Forall2 (fun g r => group_run params (drop_none g) (fst r) (snd r)) groups runs.

End Runs.



(** The property as the specification words it: a discovered file is
    uploaded exactly when sniffing its content gives a supported
    extension. *)
Definition sniffing_decides_inclusion (w : World) (path : string) : Prop :=
  forall p : string,
    In p (_collect_files w path) ->
    (In p (path_list w path)
     <-> _get_valid_extension w p supported_extensions <> EmptyString).

(** ** Concrete documents, trees and services for the examples *)

Definition sample_document : Document :=
  mkDocument "https://assets.example.org/" 20071460 "report" 3 None.

Definition sample_netloc (url : string) : string :=
  if Py.startswith url "https://api.example.org/" then "api.example.org"
  else "assets.example.org".

Definition sample_get (url : string) : remote_exn + bytes :=
  inr (list_byte_of_string ("body of " ++ url)).

(** The names of the trees below are ASCII, so that [unicode_lower] is
    never asked. *)

(** A directory [d] with [a.pdf], whose content is not a PDF, and [notes],
    a PDF without an extension in its name. *)
Definition mislabelled_world : World :=
  mkWorld
    (fun _ => [("d", ["a.pdf"; "notes"])])
    (fun p => if String.eqb p "d/a.pdf" then "application/octet-stream"
              else "application/pdf")
    (fun mime => if String.eqb mime "application/pdf" then Some ".pdf"
                 else if String.eqb mime "application/octet-stream" then Some ".bin"
                 else None)
    (fun _ => 1024)
    (fun p => list_byte_of_string p)
    (fun _ => false)
    (fun s => s).

(** A directory [d] with two PDF files, and a subdirectory with a third
    one and a file without extension. *)
Definition tree_world : World :=
  mkWorld
    (fun _ => [("d", ["a.pdf"; "b.pdf"]); ("d/sub", ["c.pdf"; "README"])])
    (fun _ => "application/pdf")
    (fun mime => if String.eqb mime "application/pdf" then Some ".pdf" else None)
    (fun _ => 1024)
    (fun p => list_byte_of_string p)
    (fun _ => false)
    (fun s => s).

(** The same tree where every file is reported as 502 MiB large. *)
Definition big_file_world : World :=
  with_getsize (fun _ => 502 * 1024 * 1024) tree_world.

(** The records a create call answers with: one per dictionary, numbered
    by the length of the trace so far. *)
Definition sample_created (tr : list event) (documents : list (gmap string pyval))
    : list created :=
  imap (fun i _ =>
          mkCreated "https://storage.example.org/target"
            (mkDocument "https://assets.example.org/" (Z.of_nat (length tr + i))
               "doc" 0 None))
       documents.

(** A service whose second bulk create call fails and which otherwise
    accepts everything. *)
Definition second_create_fails : Server :=
  mkServer
    (fun tr documents =>
       if (length (create_bodies tr) =? 1)%nat then inl (APIError 500 "boom")
       else inr (sample_created tr documents))
    (fun tr params =>
       inr (mkCreated "https://storage.example.org/target" sample_document))
    (fun _ _ _ => None)
    (fun _ _ => None)
    (fun _ _ _ => None).

(** A service where the first storage request fails, the second bulk
    create call fails, and the last process call fails. *)
Definition flaky_server : Server :=
  mkServer
    (fun tr documents =>
       if (length (create_bodies tr) =? 1)%nat then inl (APIError 500 "boom")
       else inr (sample_created tr documents))
    (fun tr params =>
       inr (mkCreated "https://storage.example.org/target" sample_document))
    (fun tr _ _ =>
       if (length tr =? 1)%nat then Some (RequestException "connection reset") else None)
    (fun tr _ =>
       if (length (create_bodies tr) =? 3)%nat then Some (APIError 503 "busy") else None)
    (fun _ _ _ => None).



(** What ordinary lookup finds on a document of the service beyond the
    record: fields of the JSON, which are not callable. *)
Definition sample_inherited (name : string) : option found :=
  if mem_string name ["title"; "access"; "canonical_url"; "published_url"; "_client"]
  then Some (Gives NotCallable)
  else None.

(** ** More of [Document], [Mention] and [DocumentClient] *)

From Stdlib Require Import Sorted.

(** Whether a lookup gave up for lack of depth. *)
Definition out_of_depth {A : Type} (r : result A) : bool :=
  match r with
  | inl RecursionError => true
  | _ => false
  end.

(** The double quote character. *)
Definition dquote : ascii := Ascii.ascii_of_nat 34.

(** [Mention.__str__]: the template is an opening and closing brace, a
    dash between spaces, and an opening and closing brace between double
    quotes. *)
Definition Mention__str__ (self : Mention) : result string :=
  format ("{} - " ++ String dquote ("{}" ++ String dquote EmptyString))
    [page self; text self].

(** [DocumentClient.search]: the path and the query parameters of the
    request it makes. The deprecation warning for [data] changes no value
    and is left out; a query is true when it is not empty. *)
Definition search (query : string) (params : gmap string pyval)
    : string * gmap string pyval :=
  let mentions := default PNone (params !! "mentions") in
  let params := delete "mentions" params in
  let params := <[ "hl" := mentions ]> params in
  let params := delete "data" params in
  let params :=
    if negb (String.eqb query EmptyString) then <[ "q" := PStr query ]> params
    else params in
  ("documents/search/", params).

(** *** Related objects *)

Inductive resource_kind : Type := UserResource | OrganizationResource.

(** The values of the instance dictionary: a plain value, a nested JSON
    object, or the object [User(client, value)] or
    [Organization(client, value)] made of one. *)
Inductive attr : Type :=
| APlain (v : pyval)
| ADict (value : gmap string pyval)
| AResource (resource : resource_kind) (value : gmap string pyval).

(** One turn of the loop of [Document.__init__] over the nested objects.
    A [bool] is an [int] for [isinstance]. *)
Definition nest (name : string) (resource : resource_kind) (dict_ : gmap string attr)
    : gmap string attr :=
  match dict_ !! name with
  | Some (ADict value) =>
      <[ name ++ "_id" := APlain (default PNone (value !! "id")) ]>
        (<[ "_" ++ name := AResource resource value ]> dict_)
  | Some (APlain (PInt z)) =>
      <[ name ++ "_id" := APlain (PInt z) ]> (<[ "_" ++ name := APlain PNone ]> dict_)
  | Some (APlain (PBool b)) =>
      <[ name ++ "_id" := APlain (PBool b) ]> (<[ "_" ++ name := APlain PNone ]> dict_)
  | _ => dict_
  end.

(** [Document.__init__]: the dictionary it hands to the base class. *)
Definition Document__init__ (dict_ : gmap string attr) : gmap string attr :=
  nest "organization" OrganizationResource (nest "user" UserResource dict_).

(** The state of a document object for its lazy properties: the instance
    dictionary and the objects asked of the service so far. *)
Definition object_state : Type := (gmap string attr * list (resource_kind * attr))%type.

(** A property whose getter raises [AttributeError] makes Python fall
    back on [__getattr__] with the name of the property, which raises the
    error of that name (no attribute of a document is called [get_user],
    [user_url] and the like). Other exceptions pass. *)
Definition property_fallback {A : Type} (name : string) (r : result A) : result A :=
  match r with
  | inl (AttributeError _) => Raise (no_attribute name)
  | _ => r
  end.

Section Related.

(** [self._client.users.get] and [self._client.organizations.get]: the
    JSON of the object, or the exception raised. *)
Variable fetch : resource_kind -> attr -> result (gmap string pyval).

(** The getter shared by the [user] and [organization] properties: a
    missing [_user] or [user_id] is an [AttributeError]. *)
Definition related (name : string) (resource : resource_kind) (st : object_state)
    : object_state * result attr :=
  let (self, asked) := st in
  match self !! ("_" ++ name) with
  | None => (st, Raise (AttributeError ("_" ++ name)))
  | Some (APlain PNone) =>
      match self !! (name ++ "_id") with
      | None => (st, Raise (AttributeError (name ++ "_id")))
      | Some ident =>
          match fetch resource ident with
          | inl e => ((self, asked ++ [(resource, ident)])%list, Raise e)
          | inr value =>
              ((<[ "_" ++ name := AResource resource value ]> self,
                (asked ++ [(resource, ident)])%list),
               Return (AResource resource value))
          end
      end
  | Some obj => (st, Return obj)
  end.

Definition user (st : object_state) : object_state * result attr :=
  let (st', r) := related "user" UserResource st in
  (st', property_fallback "user" r).

Definition organization (st : object_state) : object_state * result attr :=
  let (st', r) := related "organization" OrganizationResource st in
  (st', property_fallback "organization" r).

(** [obj.field] for a related object. *)
Definition resource_field (field : string) (obj : attr) : result pyval :=
  match obj with
  | AResource _ value =>
      match value !! field with
      | Some v => Return v
      | None => Raise (AttributeError field)
      end
  | _ => Raise (AttributeError field)
  end.

Definition contributor (st : object_state) : object_state * result pyval :=
  let (st', r) := user st in
  (st', property_fallback "contributor" (rbind r (resource_field "name"))).

Definition contributor_organization (st : object_state) : object_state * result pyval :=
  let (st', r) := organization st in
  (st', property_fallback "contributor_organization" (rbind r (resource_field "name"))).

Definition contributor_organization_slug (st : object_state)
    : object_state * result pyval :=
  let (st', r) := organization st in
  (st', property_fallback "contributor_organization_slug"
          (rbind r (resource_field "slug"))).

End Related.

(** *** [Document.__dir__] *)

(** [sorted(l)] for a list of strings. *)
Fixpoint insert_sorted (x : string) (l : list string) : list string :=
  match l with
  | [] => [x]
  | y :: l' => if String.leb x y then x :: l else y :: insert_sorted x l'
  end.

Definition sorted (l : list string) : list string := fold_right insert_sorted [] l.

(** The six names the loop over the sizes adds for one size. *)
Definition image_accessor_names (size : string) : list string :=
  ["get_" ++ size ++ "_image_url"; size ++ "_image_url";
   "get_" ++ size ++ "_image"; size ++ "_image";
   "get_" ++ size ++ "_image_url_list"; size ++ "_image_url_list"].

(** [a[:-4]] and [a[4:-4]] *)
Definition drop_url (a : string) : string :=
  String.substring 0 (String.length a - 4) a.

Definition drop_get_url (a : string) : string :=
  String.substring 4 (String.length a - 8) a.

(** [Document.__dir__] on [attrs], the names of the class and of the
    instance dictionary ([dir(type(self)) + list(self.__dict__.keys())]). *)
Definition __dir__ (attrs : list string) : list string :=
  let getters := List.filter (fun a => Py.startswith a "get_") attrs in
  let attrs := (attrs ++ map (Py.drop_chars 4) getters)%list in
  let attrs :=
    (attrs ++ map drop_url (List.filter (fun a => Py.endswith a "url") getters))%list in
  let attrs :=
    (attrs ++ map drop_get_url
                (List.filter (fun a => Py.endswith a "url") getters))%list in
  let attrs :=
    fold_left (fun attrs size => (attrs ++ image_accessor_names size)%list)
      image_sizes attrs in
  sorted attrs.

(** The methods of the class body whose names start with [get_]; they
    are among the names of [dir(type(self))]. *)
Definition url_method_names : list string :=
  ["get_full_text_url"; "get_page_text_url"; "get_page_position_json_url";
   "get_json_text_url"; "get_pdf_url"; "get_image_url"; "get_image_url_list"].

(** Whether a lookup raised [AttributeError]. *)
Definition attribute_error {A : Type} (r : result A) : bool :=
  match r with
  | inl (AttributeError _) => true
  | _ => false
  end.

(** ** Further concrete values for the examples *)

(** Keywords of a caller: one that is not allowed, the single project and
    an allowed one. *)
Definition sample_kwargs : gmap string pyval :=
  <[ "secure" := PBool true ]>
    (<[ "project" := PInt 7 ]> (<[ "access" := PStr "public" ]> ∅)).

(** A machine without files, where a string is a URL when it starts with
    [https://]. *)
Definition url_world : World :=
  mkWorld (fun _ => []) (fun _ => "application/octet-stream") (fun _ => None)
    (fun _ => 0) (fun _ => []) (fun s => Py.startswith s "https://") (fun s => s).

(** A directory whose file names carry no extension. *)
Definition plain_world : World :=
  mkWorld (fun _ => [("d", ["README"; "Makefile"])]) (fun _ => "text/plain")
    (fun mime => if String.eqb mime "text/plain" then Some ".txt" else None)
    (fun _ => 1024) (fun p => list_byte_of_string p) (fun _ => false) (fun s => s).

(** A service that accepts everything except that its storage answers
    every upload with status 403. *)
Definition rejecting_storage : Server :=
  mkServer
    (fun tr documents => inr (sample_created tr documents))
    (fun tr params =>
       inr (mkCreated "https://storage.example.org/target" sample_document))
    (fun _ _ _ => Some (APIError 403 "Forbidden"))
    (fun _ _ => None)
    (fun _ _ _ => None).

Definition empty_document : Document :=
  mkDocument "https://assets.example.org/" 20071461 "cover" 0 None.

(** The accessors of a document against the sample service. *)
Definition sample_getattr : Document -> string -> result value :=
  getattr no_inherited "https://api.example.org/api/" sample_netloc sample_get
    sample_get (fun b => Some (string_of_list_byte b)) (fun _ => None).

Definition sample_user : gmap string pyval :=
  <[ "id" := PInt 1020 ]> (<[ "name" := PStr "Ada" ]> ∅).

Definition sample_organization : gmap string pyval :=
  <[ "id" := PInt 7 ]> (<[ "name" := PStr "The Gazette" ]> (<[ "slug" := PStr "gazette" ]> ∅)).

(** A service that knows user 1020 and organization 7. *)
Definition sample_fetch (r : resource_kind) (ident : attr) : result (gmap string pyval) :=
  match r, ident with
  | UserResource, APlain (PInt z) =>
      if z =? 1020 then Return sample_user
      else Raise (Remote (APIError 404 "Not found"))
  | OrganizationResource, APlain (PInt z) =>
      if z =? 7 then Return sample_organization
      else Raise (Remote (APIError 404 "Not found"))
  | _, _ => Raise (Remote (APIError 404 "Not found"))
  end.

(** The JSON of a document with its user embedded, and with the bare ids
    of its user and organization. *)
Definition embedded_json : gmap string attr :=
  <[ "user" := ADict sample_user ]> (<[ "title" := APlain (PStr "Report") ]> ∅).

Definition bare_json : gmap string attr :=
  <[ "user" := APlain (PInt 1020) ]>
    (<[ "organization" := APlain (PInt 7) ]> (<[ "title" := APlain (PStr "Report") ]> ∅)).

(** ** What else a trace shows *)

(** The id lists of the bulk process calls, the record lists that the bulk
    create calls were answered with, and the target and content of the
    storage requests, each in the order of the requests. *)
Definition process_ids_of (ev : event) : list (list Z) :=
  match ev_request ev with
  | PostProcessIds ids => [ids]
  | _ => []
  end.

Definition process_calls (tr : list event) : list (list Z) := flat_map process_ids_of tr.

Definition created_list_of (ev : event) : list (list created) :=
  match ev_request ev, ev_outcome ev with
  | PostDocuments _, inr (RespCreatedList l) => [l]
  | _, _ => []
  end.

Definition created_lists (tr : list event) : list (list created) :=
  flat_map created_list_of tr.

Definition storage_of (ev : event) : list (string * bytes) :=
  match ev_request ev with
  | PutStorage url data => [(url, data)]
  | _ => []
  end.

Definition storage_requests (tr : list event) : list (string * bytes) :=
  flat_map storage_of tr.

(** The requests of the bulk interface and of the storage. *)
Definition bulk_request (r : request) : bool :=
  match r with
  | PostDocuments _ | PutStorage _ _ | PostProcessIds _ => true
  | PostDocument _ | PostProcess _ _ => false
  end.

Definition ids_of (l : list created) : list Z := map (fun j => id (doc j)) l.

(** What the storage request of one pair of a target and a file sends. *)
Definition stored (w : World) (item : string * string) : string * bytes :=
  (fst item, read_file w (snd item)).
(** ** Properties of the accessors *)

Ltac unfold_urls :=
  unfold get_full_text_url, get_page_text_url, get_page_position_json_url,
    get_json_text_url, get_pdf_url, get_image_url, format.

(** C7: every synthesized URL is the fixed path template of its asset
    kind, filled with the asset base, the id, the slug and, for the
    per-page kinds, the page and the size. *)
Theorem url_templates (d : Document) (pg : Z) (size : string) :
  get_full_text_url d
    = Return (asset_url d ++ "documents/" ++ Py.str_int (id d) ++ "/" ++ slug d ++ ".txt")
  /\ get_page_text_url d pg
    = Return (asset_url d ++ "documents/" ++ Py.str_int (id d) ++ "/pages/" ++ slug d
              ++ "-p" ++ Py.str_int pg ++ ".txt")
  /\ get_json_text_url d
    = Return (asset_url d ++ "documents/" ++ Py.str_int (id d) ++ "/" ++ slug d ++ ".txt.json")
  /\ get_pdf_url d
    = Return (asset_url d ++ "documents/" ++ Py.str_int (id d) ++ "/" ++ slug d ++ ".pdf")
  /\ get_image_url d pg size
    = Return (asset_url d ++ "documents/" ++ Py.str_int (id d) ++ "/pages/" ++ slug d
              ++ "-p" ++ Py.str_int pg ++ "-" ++ size ++ ".gif")
  /\ get_page_position_json_url d pg
    = Return (asset_url d ++ "documents/" ++ Py.str_int (id d) ++ "/pages/" ++ slug d
              ++ "-p" ++ Py.str_int pg ++ ".position.json").
Proof.
  repeat split; unfold_urls; cbn; reflexivity.
Qed.

Lemma get_image_url_total (d : Document) (pg : Z) (size : string) :
  get_image_url d pg size = Return (image_url_string d pg size).
Proof. reflexivity. Qed.

Lemma comprehension_total {A B : Type} (f : A -> result B) (g : A -> B) (l : list A) :
  (forall a, f a = Return (g a)) -> comprehension f l = Return (map g l).
Proof.
  intros Hf. induction l as [|a l IH]; cbn; [reflexivity|].
  rewrite Hf, IH. reflexivity.
Qed.

Lemma get_image_url_list_total (d : Document) (size : string) :
  get_image_url_list d size
  = Return (map (fun i => image_url_string d i size) (Py.range 1 (page_count d + 1))).
Proof.
  unfold get_image_url_list. apply comprehension_total.
  intros i. apply get_image_url_total.
Qed.

Lemma range_length (lo hi : Z) : length (Py.range lo hi) = Z.to_nat (hi - lo).
Proof. unfold Py.range. rewrite length_map, length_seq. reflexivity. Qed.

Lemma range_lookup (lo hi : Z) (k : nat) :
  (k < Z.to_nat (hi - lo))%nat -> Py.range lo hi !! k = Some (lo + Z.of_nat k).
Proof.
  intros Hk. unfold Py.range.
  rewrite list_lookup_fmap, lookup_seq_lt by exact Hk. reflexivity.
Qed.

(** *** Strings *)

Lemma list_ascii_of_string_app (a b : string) :
  list_ascii_of_string (a ++ b) = (list_ascii_of_string a ++ list_ascii_of_string b)%list.
Proof.
  induction a as [|c a IH]; [reflexivity|].
  change (list_ascii_of_string (String c a ++ b))
    with (c :: list_ascii_of_string (a ++ b)).
  rewrite IH. reflexivity.
Qed.

Lemma list_prefix_app (p s t : list ascii) :
  Py.list_prefix p s = true -> Py.list_prefix p (s ++ t) = true.
Proof.
  revert s. induction p as [|c p IH]; intros [|b s]; cbn; try easy.
  destruct (Ascii.eqb c b); [apply IH|easy].
Qed.

Lemma list_prefix_refl (p : list ascii) : Py.list_prefix p p = true.
Proof. induction p as [|c p IH]; cbn; [reflexivity|]. now rewrite Ascii.eqb_refl. Qed.

Lemma endswith_app (a suffix : string) : Py.endswith (a ++ suffix) suffix = true.
Proof.
  unfold Py.endswith. rewrite list_ascii_of_string_app, rev_app_distr.
  apply list_prefix_app, list_prefix_refl.
Qed.

Lemma endswith_prepend (p a suffix : string) :
  Py.endswith a suffix = true -> Py.endswith (p ++ a) suffix = true.
Proof.
  unfold Py.endswith. intros H.
  rewrite list_ascii_of_string_app, rev_app_distr. now apply list_prefix_app.
Qed.

Lemma startswith_app (a b p : string) :
  Py.startswith a p = true -> Py.startswith (a ++ b) p = true.
Proof.
  unfold Py.startswith. revert a.
  induction p as [|c p IH]; intros [|x a]; cbn; try easy.
  change (String x a ++ b) with (String x (a ++ b)). cbn.
  destruct (Ascii.eqb c x); [apply IH|easy].
Qed.

(** *** Lookups: enough depth, and what they depend on *)

Section Lookup.

Variable base_uri : string.
Variable netloc : string -> string.
Variable client_get session_get : string -> remote_exn + bytes.
Variable decode_utf8 : bytes -> option string.
Variable parse_json : bytes -> option json.

Abbreviation getattr_fuel inh :=
  (getattr_fuel inh base_uri netloc client_get session_get decode_utf8 parse_json).
Abbreviation getattr inh :=
  (getattr inh base_uri netloc client_get session_get decode_utf8 parse_json).
Abbreviation call_fuel :=
  (call_fuel base_uri netloc client_get session_get decode_utf8 parse_json).
Abbreviation _get_url := (_get_url base_uri netloc client_get session_get decode_utf8 parse_json).

Implicit Types inh : string -> option found.

Lemma getattr_fuel_S inh (n : nat) (d : Document) (x : string) :
  getattr_fuel inh (S n) d x
  = match normal_getattr inh d x with
    | Some r => r
    | None =>
        __getattr__body (getattr_fuel inh n d)
          (call_fuel (S n) (getattr_fuel inh n d) d) x
    end.
Proof. reflexivity. Qed.

Lemma getattr_unfold inh (d : Document) (x : string) :
  getattr inh d x = getattr_fuel inh 3 d x.
Proof. reflexivity. Qed.

Lemma call_fuel_direct (k k' : nat) (ga ga' : string -> result value)
    (d : Document) (v : value) :
  direct v -> call_fuel k ga d v = call_fuel k' ga' d v.
Proof.
  intros Hd.
  destruct v as [| | | | | | |[m|t f|size|size]| |]; try contradiction;
    destruct k, k'; reflexivity.
Qed.

Lemma call_fuel_lambda (k : nat) (ga : string -> result value) (d : Document)
    (t : string) (f : option Fmt) :
  call_fuel (S k) ga d (VCallable (FetchLambda t f))
  = let* g := ga t in
    let* u := call_fuel k ga d g in
    match u with
    | VStr url => _get_url url f
    | _ => Raise (TypeError "url is not a string")
    end.
Proof. reflexivity. Qed.

(** Ordinary lookup never hands out the lambda of the second branch. *)
Lemma normal_getattr_direct inh (d : Document) (x : string) (v : value) :
  normal_getattr inh d x = Some (Return v) -> direct v.
Proof.
  unfold normal_getattr.
  destruct (url_method_of_name x); [intros [= <-]; exact I|].
  repeat match goal with
         | |- context [if ?b then _ else _] => destruct b
         | |- context [match highlights d with _ => _ end] =>
             destruct (highlights d) as [[?|]|]
         | |- context [match inh x with _ => _ end] =>
             destruct (inh x) as [[?|?]|]
         end;
    intros [= <-] || discriminate; exact I.
Qed.

(** With both markers the body consults neither [hasattr] nor a call. *)
Lemma getattr_fuel_both inh inh' (d : Document) (x : string) (n m : nat) :
  Py.startswith x "get_" = true ->
  Py.endswith x "_url" = true ->
  normal_getattr inh d x = normal_getattr inh' d x ->
  getattr_fuel inh (S n) d x = getattr_fuel inh' (S m) d x
  /\ forall v, getattr_fuel inh (S n) d x = Return v -> direct v.
Proof.
  intros Hg Hu Hx. rewrite !getattr_fuel_S, <- Hx.
  destruct (normal_getattr inh d x) as [r|] eqn:Hn.
  - split; [reflexivity|]. intros v ->. now apply (normal_getattr_direct inh d x).
  - unfold __getattr__body. rewrite Hg, Hu. cbn [negb rbind Return].
    split; [reflexivity|].
    destruct (p_image_match x) as [[size [|]]|]; intros v [= <-] || discriminate;
      exact I.
Qed.

Lemma hasattr_with_ext (ga ga' : string -> result value) (x : string) :
  ga x = ga' x -> hasattr_with ga x = hasattr_with ga' x.
Proof. unfold hasattr_with. now intros ->. Qed.

Lemma hasattr_with_true (ga : string -> result value) (x : string) :
  hasattr_with ga x = Return true -> exists v, ga x = Return v.
Proof.
  unfold hasattr_with. destruct (ga x) as [[]|v]; try discriminate.
  intros _. now exists v.
Qed.

(** With the [get_] marker one nested lookup is enough, and a lambda that
    comes out is the one for the name with [_url] appended. *)
Lemma getattr_fuel_get inh inh' (d : Document) (x : string) (n m : nat) :
  Py.startswith x "get_" = true ->
  normal_getattr inh d x = normal_getattr inh' d x ->
  normal_getattr inh d (x ++ "_url") = normal_getattr inh' d (x ++ "_url") ->
  getattr_fuel inh (S (S n)) d x = getattr_fuel inh' (S (S m)) d x
  /\ forall t f, getattr_fuel inh (S (S n)) d x = Return (VCallable (FetchLambda t f)) ->
                 t = x ++ "_url".
Proof.
  intros Hg Hx Hxu. destruct (Py.endswith x "_url") eqn:Hu.
  { destruct (getattr_fuel_both inh inh' d x (S n) (S m) Hg Hu Hx) as [Heq Hdir].
    split; [exact Heq|]. intros t f H. now apply Hdir in H. }
  rewrite !getattr_fuel_S, <- Hx.
  destruct (normal_getattr inh d x) as [r|] eqn:Hn.
  { split; [reflexivity|]. intros t f ->.
    now apply (normal_getattr_direct inh d x) in Hn. }
  unfold __getattr__body. rewrite Hg, Hu. cbn [negb rbind Return].
  destruct (getattr_fuel_both inh inh' d (x ++ "_url") n m
              (startswith_app _ _ _ Hg) (endswith_app _ _) Hxu) as [Heq _].
  rewrite (hasattr_with_ext _ _ _ Heq).
  split; [reflexivity|].
  destruct (hasattr_with (getattr_fuel inh' (S m) d) (x ++ "_url")) as [e|[|]];
    cbn [rbind Return]; [discriminate|now intros t f [= <- _]|].
  destruct (p_image_match x) as [[size [|]]|]; discriminate.
Qed.

(** With the [_url] marker one nested lookup is enough. *)
Lemma getattr_fuel_url inh inh' (d : Document) (x : string) (n m : nat) :
  Py.endswith x "_url" = true ->
  normal_getattr inh d x = normal_getattr inh' d x ->
  normal_getattr inh d ("get_" ++ x) = normal_getattr inh' d ("get_" ++ x) ->
  getattr_fuel inh (S (S n)) d x = getattr_fuel inh' (S (S m)) d x.
Proof.
  intros Hu Hx Hgx. destruct (Py.startswith x "get_") eqn:Hg.
  { now apply getattr_fuel_both. }
  rewrite !getattr_fuel_S, <- Hx.
  destruct (normal_getattr inh d x) as [r|] eqn:Hn; [reflexivity|].
  unfold __getattr__body. rewrite Hg, Hu. cbn [negb rbind Return].
  destruct (getattr_fuel_both inh inh' d ("get_" ++ x) n m eq_refl
              (endswith_prepend "get_" _ _ Hu) Hgx) as [Heq Hdir].
  rewrite (hasattr_with_ext _ _ _ Heq).
  destruct (hasattr_with (getattr_fuel inh' (S m) d) ("get_" ++ x)) as [e|[|]] eqn:Hh;
    cbn [rbind Return]; try reflexivity.
  rewrite Heq.
  destruct (getattr_fuel inh' (S m) d ("get_" ++ x)) as [e|v] eqn:Hv;
    cbn [rbind]; [reflexivity|].
  apply call_fuel_direct. apply Hdir. now rewrite Heq.
Qed.

(** Two documents' worth of other attributes give the same lookup of a
    name when ordinary lookup agrees on the four names derived from it;
    and three nested lookups are enough. *)
Lemma getattr_fuel_agree inh inh' (d : Document) (x : string) (n : nat) :
  (forall y, In y (derived_names x) ->
             normal_getattr inh d y = normal_getattr inh' d y) ->
  getattr_fuel inh (S (S (S n))) d x = getattr_fuel inh' 3 d x.
Proof.
  intros Hagree.
  assert (Hx : normal_getattr inh d x = normal_getattr inh' d x)
    by (apply Hagree; cbn; tauto).
  assert (Hgx : normal_getattr inh d ("get_" ++ x) = normal_getattr inh' d ("get_" ++ x))
    by (apply Hagree; cbn; tauto).
  assert (Hxu : normal_getattr inh d (x ++ "_url") = normal_getattr inh' d (x ++ "_url"))
    by (apply Hagree; cbn; tauto).
  assert (Hgxu : normal_getattr inh d ("get_" ++ x ++ "_url")
                 = normal_getattr inh' d ("get_" ++ x ++ "_url"))
    by (apply Hagree; cbn; tauto).
  clear Hagree.
  destruct (Py.startswith x "get_") eqn:Hg.
  { now apply (getattr_fuel_get inh inh' d x (S n) 1). }
  destruct (Py.endswith x "_url") eqn:Hu.
  { now apply (getattr_fuel_url inh inh' d x (S n) 1). }
  rewrite !getattr_fuel_S, <- Hx.
  destruct (normal_getattr inh d x) as [r|] eqn:Hnorm; [reflexivity|].
  unfold __getattr__body. rewrite Hg, Hu. cbn [negb rbind Return].
  destruct (getattr_fuel_get inh inh' d ("get_" ++ x) n 0 eq_refl Hgx Hgxu)
    as [Heq Hlam].
  rewrite (hasattr_with_ext _ _ _ Heq).
  rewrite (hasattr_with_ext _ _ _
             (getattr_fuel_url inh inh' d (x ++ "_url") n 0 (endswith_app _ _) Hxu Hgxu)).
  destruct (hasattr_with (getattr_fuel inh' 2 d) ("get_" ++ x)) as [e|[|]] eqn:Hh;
    cbn [rbind Return]; try reflexivity.
  rewrite Heq.
  destruct (getattr_fuel inh' 2 d ("get_" ++ x)) as [e|v] eqn:Hv; cbn [rbind];
    [reflexivity|].
  destruct v as [| | | | | | |[m|t f|size|size]| |]; try reflexivity.
  assert (Ht : t = ("get_" ++ x) ++ "_url") by (apply (Hlam t f); now rewrite Heq).
  subst t. rewrite !call_fuel_lambda.
  destruct (getattr_fuel_both inh inh' d (("get_" ++ x) ++ "_url") (S n) 1 eq_refl
              (endswith_app _ _) Hgxu) as [Heq2 Hdir].
  rewrite Heq2.
  destruct (getattr_fuel inh' 2 d (("get_" ++ x) ++ "_url")) as [e|v] eqn:Hv2;
    cbn [rbind]; [reflexivity|].
  rewrite (call_fuel_direct (S (S n)) 2 (getattr_fuel inh (S (S n)) d)
             (getattr_fuel inh' 2 d) d v);
    [reflexivity|].
  apply Hdir. now rewrite Heq2.
Qed.

(** Three nested lookups are enough for every name: more fuel changes
    nothing. *)
Lemma getattr_fuel_stable inh (d : Document) (x : string) (n : nat) :
  (3 <= n)%nat -> getattr_fuel inh n d x = getattr inh d x.
Proof.
  intros Hn. destruct n as [|[|[|n]]]; try lia.
  rewrite getattr_unfold. now apply getattr_fuel_agree.
Qed.

(** The lookup of a name asks ordinary lookup about the four names derived
    from it and about no other. *)
Lemma getattr_local inh inh' (d : Document) (x : string) :
  (forall y, In y (derived_names x) ->
             normal_getattr inh d y = normal_getattr inh' d y) ->
  getattr inh d x = getattr inh' d x.
Proof. intros H. rewrite !getattr_unfold. now apply (getattr_fuel_agree inh inh' d x 0). Qed.

(** A name with both markers: only the image pattern is left to try. *)
Lemma getattr_get_url_unknown inh (n : nat) (d : Document) (x : string) :
  normal_getattr inh d x = None ->
  Py.startswith x "get_" = true ->
  Py.endswith x "_url" = true ->
  p_image_match x = None ->
  getattr_fuel inh (S n) d x = Raise (no_attribute x).
Proof.
  intros Hn Hg Hu Hp. rewrite getattr_fuel_S, Hn.
  unfold __getattr__body. rewrite Hg, Hu. cbn [negb rbind Return].
  rewrite Hp. reflexivity.
Qed.

Lemma getattr_get_unknown inh (n : nat) (d : Document) (x : string) :
  normal_getattr inh d x = None ->
  Py.startswith x "get_" = true ->
  normal_getattr inh d (x ++ "_url") = None ->
  p_image_match x = None ->
  p_image_match (x ++ "_url") = None ->
  getattr_fuel inh (S (S n)) d x = Raise (no_attribute x).
Proof.
  intros Hn Hg Hnu Hp Hpu.
  destruct (Py.endswith x "_url") eqn:Hu.
  { now apply getattr_get_url_unknown. }
  rewrite getattr_fuel_S, Hn.
  unfold __getattr__body. rewrite Hg, Hu. cbn [negb rbind Return].
  unfold hasattr_with.
  rewrite (getattr_get_url_unknown inh n d (x ++ "_url") Hnu
             (startswith_app _ _ _ Hg) (endswith_app _ _) Hpu).
  cbn [negb rbind Return Raise]. rewrite Hp. reflexivity.
Qed.

Lemma getattr_url_unknown inh (n : nat) (d : Document) (x : string) :
  normal_getattr inh d x = None ->
  Py.endswith x "_url" = true ->
  normal_getattr inh d ("get_" ++ x) = None ->
  p_image_match x = None ->
  p_image_match ("get_" ++ x) = None ->
  getattr_fuel inh (S (S n)) d x = Raise (no_attribute x).
Proof.
  intros Hn Hu Hng Hp Hpg.
  destruct (Py.startswith x "get_") eqn:Hg.
  { now apply getattr_get_url_unknown. }
  rewrite getattr_fuel_S, Hn.
  unfold __getattr__body. rewrite Hg, Hu. cbn [negb rbind Return].
  unfold hasattr_with.
  rewrite (getattr_get_url_unknown inh n d ("get_" ++ x) Hng
             eq_refl (endswith_prepend "get_" _ _ Hu) Hpg).
  cbn [negb rbind Return Raise]. rewrite Hp. reflexivity.
Qed.

Lemma unrecognized_raises inh (d : Document) (attr : string) :
  unrecognized inh d attr = true -> getattr inh d attr = Raise (no_attribute attr).
Proof.
  unfold unrecognized, derived_names. cbn [forallb].
  destruct (normal_getattr inh d attr) eqn:Hn; [easy|].
  destruct (p_image_match attr) eqn:Hp; [easy|].
  destruct (normal_getattr inh d ("get_" ++ attr)) eqn:Hng; [easy|].
  destruct (p_image_match ("get_" ++ attr)) eqn:Hpg; [easy|].
  destruct (normal_getattr inh d (attr ++ "_url")) eqn:Hnu; [easy|].
  destruct (p_image_match (attr ++ "_url")) eqn:Hpu; [easy|].
  destruct (normal_getattr inh d ("get_" ++ attr ++ "_url")) eqn:Hngu; [easy|].
  destruct (p_image_match ("get_" ++ attr ++ "_url")) eqn:Hpgu; [easy|].
  intros _. rewrite getattr_unfold.
  destruct (Py.startswith attr "get_") eqn:Hg.
  { now apply getattr_get_unknown. }
  destruct (Py.endswith attr "_url") eqn:Hu.
  { now apply getattr_url_unknown. }
  rewrite getattr_fuel_S, Hn.
  unfold __getattr__body. rewrite Hg, Hu. cbn [negb rbind Return].
  unfold hasattr_with.
  rewrite (getattr_get_unknown inh 0 d ("get_" ++ attr) Hng eq_refl Hngu Hpg Hpgu).
  cbn [rbind Return Raise].
  rewrite (getattr_url_unknown inh 0 d (attr ++ "_url") Hnu (endswith_app _ _) Hngu Hpu Hpgu).
  cbn [negb rbind Return Raise]. rewrite Hp. reflexivity.
Qed.

(** Ordinary lookup of a name that [inherited] does not know is that of a
    document without other attributes. *)
Lemma normal_getattr_none inh (d : Document) (x : string) :
  inh x = None -> normal_getattr inh d x = normal_getattr no_inherited d x.
Proof. unfold normal_getattr, no_inherited. now intros ->. Qed.

Lemma getattr_closed inh (d : Document) (x : string) :
  (forall y, In y (derived_names x) -> inh y = None) ->
  getattr inh d x = getattr no_inherited d x.
Proof.
  intros H. apply getattr_local. intros y Hy. now apply normal_getattr_none, H.
Qed.

(** The spellings of the full-text accessor on a document none of whose
    other attributes bears one of their names. *)
Lemma full_text_spellings inh (d : Document) :
  inh "full_text" = None -> inh "get_full_text" = None -> inh "full_text_url" = None ->
  getattr inh d "full_text_url" = getattr no_inherited d "full_text_url"
  /\ getattr inh d "get_full_text" = getattr no_inherited d "get_full_text"
  /\ getattr inh d "full_text" = getattr no_inherited d "full_text".
Proof.
  intros H1 H2 H3.
  pose proof (normal_getattr_none inh d _ H1) as N1.
  pose proof (normal_getattr_none inh d _ H2) as N2.
  pose proof (normal_getattr_none inh d _ H3) as N3.
  split; [|split]; rewrite !getattr_unfold.
  - now apply (getattr_fuel_url inh no_inherited d "full_text_url" 1 1).
  - now apply (getattr_fuel_get inh no_inherited d "get_full_text" 1 1).
  - apply (getattr_fuel_agree inh no_inherited d "full_text" 0).
    intros y [<-|[<-|[<-|[<-|[]]]]]; try assumption. reflexivity.
Qed.

End Lookup.

(** *** Documents without other attributes *)

Section AccessorProperties.

Variable base_uri : string.
Variable netloc : string -> string.
Variable client_get session_get : string -> remote_exn + bytes.
Variable decode_utf8 : bytes -> option string.
Variable parse_json : bytes -> option json.

Abbreviation getattr :=
  (getattr no_inherited base_uri netloc client_get session_get decode_utf8 parse_json).
Abbreviation mentions :=
  (mentions no_inherited base_uri netloc client_get session_get decode_utf8 parse_json).

Lemma image_url_list_resolves (d : Document) (size : string) :
  In size image_sizes ->
  getattr d (size ++ "_image_url_list")
  = let* l := get_image_url_list d size in Return (VStrList l).
Proof.
  unfold image_sizes. cbn [In].
  intros [<-|[<-|[<-|[<-|[]]]]]; reflexivity.
Qed.

(** C6: for each of the four sizes the [{size}_image_url_list] accessor
    returns exactly [page_count] URLs, the one at position [k] (from 0)
    being the image URL of page [k + 1]. *)
Theorem image_url_list_accessor (d : Document) (size : string) :
  In size image_sizes ->
  0 <= page_count d ->
  exists urls : list string,
    getattr d (size ++ "_image_url_list") = Return (VStrList urls)
    /\ Z.of_nat (length urls) = page_count d
    /\ (forall k : nat, (k < length urls)%nat ->
          urls !! k = Some (image_url_string d (Z.of_nat k + 1) size))
    /\ (forall k : nat, (k < length urls)%nat ->
          get_image_url d (Z.of_nat k + 1) size
          = Return (image_url_string d (Z.of_nat k + 1) size)).
Proof.
  intros Hsize Hpc.
  exists (map (fun i => image_url_string d i size) (Py.range 1 (page_count d + 1))).
  assert (Hlen : length (map (fun i => image_url_string d i size)
                           (Py.range 1 (page_count d + 1)))
                 = Z.to_nat (page_count d)).
  { rewrite length_map, range_length. f_equal. lia. }
  split; [|split; [|split]].
  - rewrite image_url_list_resolves by exact Hsize.
    rewrite get_image_url_list_total. reflexivity.
  - rewrite Hlen. lia.
  - intros k Hk. rewrite Hlen in Hk.
    rewrite list_lookup_fmap, range_lookup by lia.
    cbn. do 2 f_equal. lia.
  - intros k _. apply get_image_url_total.
Qed.

(** *** Mentions *)

(** C9: the mentions of a document are the snippets of its highlights
    mapping, in the mapping's iteration order, each with the [page_no_]
    prefix of its page label removed; a document without highlights
    (attribute absent, or [None]) has no mentions. *)
Theorem mentions_derivation (a : string) (i : Z) (s : string) (pc : Z) :
  mentions (mkDocument a i s pc (Some (Some [("page_no_3", ["<em>x</em> y"])])))
  = Return [mkMention "3" "<em>x</em> y"]
  /\ mentions (mkDocument a i s pc None) = Return []
  /\ mentions (mkDocument a i s pc (Some None)) = Return []
  /\ (forall items : list (string * list string),
        mentions (mkDocument a i s pc (Some (Some items)))
        = Return (flat_map (fun pt => map (Mention__init__ (fst pt)) (snd pt)) items))
  /\ (forall label t : string, Mention__init__ ("page_no_" ++ label) t = mkMention label t)
  /\ mentions (mkDocument a i s pc
                 (Some (Some [("page_no_2", ["b"]); ("page_no_1", ["a"; "c"])])))
     = Return [mkMention "2" "b"; mkMention "1" "a"; mkMention "1" "c"].
Proof.
  repeat split; intros; reflexivity.
Qed.

End AccessorProperties.

(** *** Resolution of accessor names *)

Section AccessorResolution.

Variable inherited : string -> option found.
Variable base_uri : string.
Variable netloc : string -> string.
Variable client_get session_get : string -> remote_exn + bytes.
Variable decode_utf8 : bytes -> option string.
Variable parse_json : bytes -> option json.

Abbreviation getattr :=
  (getattr inherited base_uri netloc client_get session_get decode_utf8 parse_json).
Abbreviation call_attr :=
  (call_attr inherited base_uri netloc client_get session_get decode_utf8 parse_json).
Abbreviation fetched_text :=
  (fetched_text base_uri netloc client_get session_get decode_utf8).

(** C4: the four spellings of the full-text accessor resolve and agree:
    the two URL spellings give the full-text URL (as a value, or as a
    method returning it), the two content spellings give the body fetched
    at that URL decoded as text (as a value, or as a callable returning
    it), on every document none of whose other attributes bears one of
    these names. What ordinary lookup finds comes first, the methods with
    double underscores included. A name is not recognized when ordinary
    lookup finds neither it nor a name derived from it and none of these
    is an image accessor, as [bogus_field] on a document without such
    attributes: it raises [AttributeError]. *)
Theorem accessor_resolution (d : Document) :
  let url := asset_url d ++ "documents/" ++ Py.str_int (id d) ++ "/" ++ slug d ++ ".txt" in
  get_full_text_url d = Return url
  /\ (forall (attr : string) (r : result value),
        normal_getattr inherited d attr = Some r -> getattr d attr = r)
  /\ getattr d "get_full_text_url" = Return (VCallable (BoundMethod GetFullTextUrl))
  /\ call_attr d "get_full_text_url" = Return (VStr url)
  /\ getattr d "__str__" = Return (VOpaque "__str__")
  /\ (inherited "full_text" = None ->
      inherited "get_full_text" = None ->
      inherited "full_text_url" = None ->
      getattr d "full_text_url" = Return (VStr url)
      /\ getattr d "get_full_text"
         = Return (VCallable (FetchLambda "get_full_text_url" (Some FmtText)))
      /\ call_attr d "get_full_text" = fetched_text url
      /\ getattr d "full_text" = fetched_text url)
  /\ ((forall y : string, In y (derived_names "bogus_field") -> inherited y = None) ->
      getattr d "bogus_field"
      = Raise (AttributeError "'Document' object has no attribute 'bogus_field'"))
  /\ (forall attr : string,
        unrecognized inherited d attr = true ->
        getattr d attr
        = Raise (AttributeError ("'Document' object has no attribute '" ++ attr ++ "'"))).
Proof.
  cbv zeta. split; [reflexivity|]. split.
  { intros attr r Hr. rewrite getattr_unfold, getattr_fuel_S, Hr. reflexivity. }
  split; [reflexivity|]. split; [reflexivity|]. split; [reflexivity|]. split.
  { intros H1 H2 H3.
    destruct (full_text_spellings base_uri netloc client_get session_get decode_utf8
                parse_json inherited d H1 H2 H3) as (E1 & E2 & E3).
    split; [rewrite E1; reflexivity|]. split; [rewrite E2; reflexivity|].
    split; [|rewrite E3; reflexivity].
    unfold call_attr. rewrite E2. reflexivity. }
  split.
  { intros H. rewrite (getattr_closed base_uri netloc client_get session_get decode_utf8
                         parse_json inherited d "bogus_field" H).
    reflexivity. }
  apply unrecognized_raises.
Qed.

End AccessorResolution.

(** ** Properties of the grouping step *)

Lemma drop_none_pad {A : Type} (xs : list A) (k : nat) :
  drop_none (map Some xs ++ repeat None k) = xs.
Proof.
  induction xs as [|x xs IH]; cbn.
  - induction k as [|k IHk]; cbn; [reflexivity|exact IHk].
  - now rewrite IH.
Qed.

Lemma grouper_fuel_cons {A : Type} (fuel : nat) (x : A) (l : list A) (n : nat) :
  map drop_none (grouper_fuel (S fuel) (x :: l) n)
  = firstn n (x :: l) :: map drop_none (grouper_fuel fuel (skipn n (x :: l)) n).
Proof. cbn [grouper_fuel map]. now rewrite drop_none_pad. Qed.

Lemma grouper_fuel_nil {A : Type} (fuel n : nat) :
  grouper_fuel fuel (@nil A) n = [].
Proof. destruct fuel; reflexivity. Qed.

(** The groups, concatenated, are the list: every item is in one group and
    the order is kept. *)
Lemma grouper_fuel_concat {A : Type} (n : nat) (fuel : nat) :
  forall l : list A,
    (0 < n)%nat -> (length l <= fuel)%nat ->
    concat (map drop_none (grouper_fuel fuel l n)) = l.
Proof.
  induction fuel as [|fuel IH]; intros l Hn Hl.
  - destruct l; [reflexivity|cbn in Hl; lia].
  - destruct l as [|x l]; [reflexivity|].
    rewrite grouper_fuel_cons. cbn [concat].
    rewrite IH; [apply firstn_skipn|exact Hn|].
    rewrite length_skipn. cbn in Hl |- *. lia.
Qed.

Lemma ceil_div_step (m n : nat) :
  (0 < n)%nat -> (0 < m)%nat -> ceil_div m n = S (ceil_div (m - n) n).
Proof.
  intros Hn Hm. unfold ceil_div.
  destruct (Nat.le_gt_cases m n) as [Hle|Hgt].
  - replace (m - n)%nat with 0%nat by lia.
    rewrite (Nat.div_small (0 + n - 1) n) by lia.
    replace (m + n - 1)%nat with (1 * n + (m - 1))%nat by lia.
    rewrite Nat.div_add_l by lia. rewrite Nat.div_small by lia. reflexivity.
  - replace (m + n - 1)%nat with (1 * n + (m - n + n - 1))%nat by lia.
    rewrite Nat.div_add_l by lia. reflexivity.
Qed.

Lemma ceil_div_bounds (m n : nat) :
  (0 < n)%nat -> (m <= ceil_div m n * n /\ ceil_div m n * n < m + n)%nat.
Proof.
  intros Hn. unfold ceil_div.
  pose proof (Nat.div_mod (m + n - 1) n ltac:(lia)) as Hd.
  pose proof (Nat.mod_upper_bound (m + n - 1) n ltac:(lia)) as Hm.
  nia.
Qed.

Lemma grouper_fuel_length {A : Type} (n : nat) (fuel : nat) :
  forall l : list A,
    (0 < n)%nat -> (length l <= fuel)%nat ->
    length (grouper_fuel fuel l n) = ceil_div (length l) n.
Proof.
  induction fuel as [|fuel IH]; intros l Hn Hl.
  - destruct l; [|cbn in Hl; lia]. cbn. unfold ceil_div.
    symmetry. apply Nat.div_small. lia.
  - destruct l as [|x l].
    + cbn. unfold ceil_div. symmetry. apply Nat.div_small. lia.
    + cbn [grouper_fuel length].
      rewrite IH; [|exact Hn|rewrite length_skipn; cbn in Hl |- *; lia].
      rewrite length_skipn.
      rewrite (ceil_div_step (S (length l)) n) by lia. reflexivity.
Qed.

(** Group [i] holds the items at positions [i * n] to [i * n + n - 1]. *)
Lemma grouper_fuel_lookup {A : Type} (n : nat) (fuel : nat) :
  forall (l : list A) (i : nat) (g : list A),
    (0 < n)%nat -> (length l <= fuel)%nat ->
    map drop_none (grouper_fuel fuel l n) !! i = Some g ->
    g = firstn n (skipn (i * n) l) /\ (i * n < length l)%nat.
Proof.
  induction fuel as [|fuel IH]; intros l i g Hn Hl Hg.
  - destruct l; [|cbn in Hl; lia]. cbn in Hg. discriminate.
  - destruct l as [|x l]; [cbn in Hg; discriminate|].
    rewrite grouper_fuel_cons in Hg. destruct i as [|i].
    + cbn in Hg. injection Hg as <-. split; [reflexivity|cbn; lia].
    + cbn [lookup list_lookup] in Hg.
      apply IH in Hg; [|exact Hn|rewrite length_skipn; cbn in Hl |- *; lia].
      destruct Hg as [-> Hi]. rewrite length_skipn in Hi.
      split; [|lia].
      rewrite skipn_skipn. do 2 f_equal. lia.
Qed.

Lemma file_groups_concat {A : Type} (l : list A) (n : nat) :
  (0 < n)%nat -> concat (file_groups l n) = l.
Proof.
  intros Hn. unfold file_groups, grouper. destruct n; [lia|].
  now apply grouper_fuel_concat.
Qed.

Lemma file_groups_length {A : Type} (l : list A) (n : nat) :
  (0 < n)%nat -> length (file_groups l n) = ceil_div (length l) n.
Proof.
  intros Hn. unfold file_groups, grouper. destruct n; [lia|].
  rewrite length_map. now apply grouper_fuel_length.
Qed.

Lemma file_groups_lookup {A : Type} (l : list A) (n i : nat) (g : list A) :
  (0 < n)%nat -> file_groups l n !! i = Some g ->
  g = firstn n (skipn (i * n) l) /\ (i * n < length l)%nat.
Proof.
  intros Hn. unfold file_groups, grouper. destruct n; [lia|].
  now apply grouper_fuel_lookup.
Qed.

(** Every group but the last is full; the last is not empty. *)
Lemma file_groups_sizes {A : Type} (l : list A) (n i : nat) (g : list A) :
  (0 < n)%nat -> file_groups l n !! i = Some g ->
  (0 < length g <= n)%nat
  /\ (S i < length (file_groups l n) -> length g = n)%nat.
Proof.
  intros Hn Hg. pose proof (file_groups_lookup l n i g Hn Hg) as [-> Hi].
  rewrite length_firstn, length_skipn. split; [lia|].
  rewrite file_groups_length by exact Hn. intros Hlast.
  pose proof (ceil_div_bounds (length l) n Hn) as [_ Hub]. nia.
Qed.

(** ** Properties of the directory upload *)

Lemma create_bodies_app (t1 t2 : list event) :
  create_bodies (t1 ++ t2) = (create_bodies t1 ++ create_bodies t2)%list.
Proof. apply flat_map_app. Qed.

Lemma created_in_app (t1 t2 : list event) :
  created_in (t1 ++ t2) = (created_in t1 ++ created_in t2)%list.
Proof. apply flat_map_app. Qed.

Lemma clean_app (t1 t2 : list event) : clean (t1 ++ t2) <-> clean t1 /\ clean t2.
Proof. apply Forall_app. Qed.

Lemma passed_app (he : bool) (t1 t2 : list event) :
  passed he (t1 ++ t2) <-> passed he t1 /\ passed he t2.
Proof. apply Forall_app. Qed.

(** Without [handle_errors] the run goes on after successes only. *)
Lemma tolerated_false (ev : event) : tolerated false ev = ev_ok ev.
Proof. unfold tolerated, ev_ok. now destruct (ev_outcome ev). Qed.

Lemma passed_clean (tr : list event) : passed false tr <-> clean tr.
Proof.
  unfold passed, clean. rewrite !List.Forall_forall.
  split; intros H ev Hev; specialize (H ev Hev);
    now rewrite tolerated_false in *.
Qed.

Lemma ok_tolerated (he : bool) (ev : event) : ev_ok ev = true -> tolerated he ev = true.
Proof. unfold tolerated, ev_ok. now destruct (ev_outcome ev). Qed.

Section ClientProperties.

Variable w : World.
Variable srv : Server.
Variable BULK_LIMIT : nat.

Abbreviation upload_one := (upload_one w srv).
Abbreviation upload_group := (upload_group w srv).
Abbreviation upload_groups := (upload_groups w srv).
Abbreviation upload_directory := (upload_directory w srv BULK_LIMIT).
Abbreviation documents_of := (documents_of w).
Abbreviation path_list := (path_list w).
Abbreviation put_request := (put_request w).
Abbreviation group_run := (group_run w).
Abbreviation group_documents := (group_documents w).
Abbreviation runs_of := (runs_of w).

Lemma puts_no_create (puts : list event) (reqs : list (string * string)) :
  map ev_request puts = map put_request reqs ->
  create_bodies puts = [] /\ created_in puts = [].
Proof.
  revert reqs. induction puts as [|ev puts IH]; intros [|r reqs] H; try discriminate.
  - split; reflexivity.
  - cbn in H. injection H as Hev Hrest. destruct (IH _ Hrest) as [IH1 IH2].
    unfold create_bodies, created_in in *. cbn [flat_map].
    rewrite IH1, IH2. unfold create_body_of, created_of. rewrite Hev.
    split; reflexivity.
Qed.

Lemma group_run_bodies (params : gmap string pyval) (fps : list string)
    (seg : list event) (recs : list created) :
  group_run params fps seg recs ->
  create_bodies seg = [documents_of params fps] /\ created_in seg = recs.
Proof.
  intros [e|js puts pr Hputs].
  - split; reflexivity.
  - destruct (puts_no_create _ _ Hputs) as [Hb Hc].
    change (?x :: ?l ++ ?r)%list with ([x] ++ l ++ r)%list.
    rewrite !create_bodies_app, !created_in_app, Hb, Hc. cbn.
    split; [reflexivity|now rewrite ?app_nil_r].
Qed.

(** *** The loop over the items of a group *)

Lemma upload_one_run (he : bool) (item : string * string) (tr : list event) :
  exists ev, ev_request ev = put_request item
    /\ (tolerated he ev = true
        /\ upload_one he item tr = ((tr ++ [ev])%list, Return tt)
        \/ exists e, ev_outcome ev = inl e /\ fatal he e = true
             /\ upload_one he item tr = ((tr ++ [ev])%list, Raise (Remote e))).
Proof.
  unfold upload_one, mbind, attempt, put_storage, tolerated, fatal.
  destruct (srv_put srv tr (fst item) (read_file w (snd item))) as [e|] eqn:Hput.
  - exists (mkEvent (put_request item) (inl e)). split; [reflexivity|].
    cbn [Return Raise ev_outcome]. destruct (caught e) eqn:Hc; cbn [Return Raise].
    + destruct he.
      * left. split; reflexivity.
      * right. exists e. split; [reflexivity|]. split; reflexivity.
    + right. exists e. split; [reflexivity|].
      split; [rewrite Hc; now destruct he|reflexivity].
  - exists (mkEvent (put_request item) (inr RespDone)). split; [reflexivity|].
    left. split; reflexivity.
Qed.

Lemma for_each_cons {A : Type} (body : A -> M unit) (a : A) (l : list A)
    (tr : list event) :
  for_each body (a :: l) tr
  = match body a tr with
    | (tr', inr _) => for_each body l tr'
    | (tr', inl e) => (tr', inl e)
    end.
Proof. reflexivity. Qed.

Lemma stopped_prepend (he : bool) (s1 s2 : list event) (e : remote_exn) :
  passed he s1 -> stopped he s2 e -> stopped he (s1 ++ s2) e.
Proof.
  intros H1 (pre & ev & -> & Hpre & Hev & Hf).
  exists (s1 ++ pre)%list, ev. rewrite app_assoc. repeat split; try assumption.
  apply passed_app. now split.
Qed.

Lemma for_each_upload_run (he : bool) (items : list (string * string)) :
  forall tr : list event,
    (exists puts,
        map ev_request puts = map put_request items
        /\ passed he puts
        /\ for_each (upload_one he) items tr = ((tr ++ puts)%list, Return tt))
    \/ (exists seg e,
           stopped he seg e /\ create_bodies seg = [] /\ created_in seg = []
           /\ for_each (upload_one he) items tr = ((tr ++ seg)%list, Raise (Remote e))).
Proof.
  induction items as [|item items IH]; intros tr.
  - left. exists []. rewrite app_nil_r. repeat split. constructor.
  - rewrite for_each_cons.
    destruct (upload_one_run he item tr)
      as (ev & Hreq & [[Hok Hrun]|(e & Hout & Hf & Hrun)]);
      rewrite Hrun; cbn [Return Raise].
    + assert (Hnone : create_body_of ev = [] /\ created_of ev = []).
      { unfold create_body_of, created_of. rewrite Hreq. split; reflexivity. }
      destruct Hnone as [Hn1 Hn2].
      destruct (IH (tr ++ [ev])%list) as [(puts & Hputs & Hpass & Hloop)
                                         |(seg & e & Hst & Hb & Hc & Hloop)];
        rewrite Hloop, <- app_assoc; cbn [app].
      * left. exists (ev :: puts). cbn [map].
        rewrite Hreq, Hputs. repeat split. now constructor.
      * right. exists (ev :: seg), e. repeat split.
        -- apply (stopped_prepend he [ev] seg); [|exact Hst]. now constructor.
        -- unfold create_bodies in *. cbn [flat_map]. now rewrite Hn1, Hb.
        -- unfold created_in in *. cbn [flat_map]. now rewrite Hn2, Hc.
    + right. exists [ev], e. repeat split.
      * exists [], ev. repeat split; [constructor|exact Hout|exact Hf].
      * unfold create_bodies, create_body_of. cbn. now rewrite Hreq.
      * unfold created_in, created_of. cbn. now rewrite Hreq.
Qed.

(** *** One group *)

Lemma upload_group_unfold (he : bool) (params : gmap string pyval)
    (obj : list created) (g : list (option string)) (tr : list event) :
  upload_group he params obj g tr
  = match post_documents srv (documents_of params (drop_none g)) tr with
    | (tr1, inr create_json) =>
        match for_each (upload_one he)
                (combine (map presigned_url create_json) (drop_none g)) tr1 with
        | (tr2, inr _) =>
            match post_process_ids srv (map (fun j => id (doc j)) create_json) tr2 with
            | (tr3, inr _) => (tr3, Return (obj ++ create_json)%list)
            | (tr3, inl (Remote exc)) =>
                if (he && caught exc)%bool then (tr3, Return (obj ++ create_json)%list)
                else (tr3, Raise (Remote exc))
            | (tr3, inl e) => (tr3, Raise e)
            end
        | (tr2, inl e) => (tr2, inl e)
        end
    | (tr1, inl (Remote exc)) =>
        if (he && caught exc)%bool then (tr1, Return obj) else (tr1, Raise (Remote exc))
    | (tr1, inl e) => (tr1, Raise e)
    end.
Proof.
  unfold upload_group, mbind, attempt.
  destruct (post_documents srv _ tr) as [tr1 [[]|create_json]];
    cbn [Return Raise mret mraise]; try reflexivity.
  - destruct (caught e), he; reflexivity.
  - destruct (for_each _ _ tr1) as [tr2 [e|[]]]; [reflexivity|].
    destruct (post_process_ids srv _ tr2) as [tr3 [[]|[]]];
      cbn [Return Raise mret mraise]; try reflexivity.
    destruct (caught e), he; reflexivity.
Qed.

Lemma upload_group_run (he : bool) (params : gmap string pyval)
    (obj : list created) (g : list (option string)) (tr : list event) :
  (exists seg recs,
      group_run params (drop_none g) seg recs
      /\ passed he seg
      /\ upload_group he params obj g tr = ((tr ++ seg)%list, Return (obj ++ recs)%list))
  \/ (exists seg e,
         stopped he seg e
         /\ create_bodies seg = [documents_of params (drop_none g)]
         /\ upload_group he params obj g tr = ((tr ++ seg)%list, Raise (Remote e))).
Proof.
  rewrite upload_group_unfold.
  set (fps := drop_none g). set (docs := documents_of params fps).
  unfold post_documents.
  destruct (srv_create_bulk srv tr docs) as [e|js]; cbn [Return Raise].
  { destruct (he && caught e)%bool eqn:Hc.
    - left. exists [mkEvent (PostDocuments docs) (inl e)], [].
      rewrite app_nil_r. repeat split; [constructor|].
      constructor; [exact Hc|constructor].
    - right. exists [mkEvent (PostDocuments docs) (inl e)], e. repeat split.
      exists [], (mkEvent (PostDocuments docs) (inl e)).
      repeat split; [constructor|]. unfold fatal. now rewrite Hc. }
  set (ev0 := mkEvent (PostDocuments docs) (inr (RespCreatedList js))).
  assert (Hev0 : passed he [ev0]) by (repeat constructor).
  destruct (for_each_upload_run he (combine (map presigned_url js) fps) (tr ++ [ev0])%list)
    as [(puts & Hputs & Hpass & Hloop)|(seg & e & Hst & Hb & Hc & Hloop)];
    rewrite Hloop; cbn [Return Raise].
  2:{ right. exists (ev0 :: seg), e.
      rewrite <- app_assoc. repeat split.
      - now apply (stopped_prepend he [ev0] seg).
      - change (ev0 :: seg) with ([ev0] ++ seg)%list.
        rewrite create_bodies_app, Hb. reflexivity. }
  unfold post_process_ids.
  set (ids := map (fun j => id (doc j)) js).
  destruct (srv_process_bulk srv ((tr ++ [ev0]) ++ puts) ids) as [e|]; cbn [Return Raise].
  - destruct (he && caught e)%bool eqn:Hc.
    + left. exists (ev0 :: puts ++ [mkEvent (PostProcessIds ids) (inl e)])%list, js.
      rewrite <- !app_assoc. repeat split; [now constructor|].
      constructor; [reflexivity|]. apply passed_app. split; [exact Hpass|].
      constructor; [exact Hc|constructor].
    + right.
      exists (ev0 :: puts ++ [mkEvent (PostProcessIds ids) (inl e)])%list, e.
      rewrite <- !app_assoc. repeat split.
      * exists (ev0 :: puts), (mkEvent (PostProcessIds ids) (inl e)).
        repeat split; [now constructor|]. unfold fatal. now rewrite Hc.
      * change (ev0 :: puts ++ ?l)%list with ([ev0] ++ puts ++ l)%list.
        rewrite !create_bodies_app.
        destruct (puts_no_create _ _ Hputs) as [-> _]. reflexivity.
  - left. exists (ev0 :: puts ++ [mkEvent (PostProcessIds ids) (inr RespDone)])%list, js.
    rewrite <- !app_assoc. repeat split.
    + now constructor.
    + constructor; [reflexivity|].
      apply passed_app. split; [exact Hpass|repeat constructor].
Qed.

(** *** The loop over the groups *)

Lemma runs_of_trace (params : gmap string pyval) (groups : list (list (option string)))
    (runs : list (list event * list created)) :
  runs_of params groups runs ->
  create_bodies (concat (map fst runs)) = map (group_documents params) groups
  /\ created_in (concat (map fst runs)) = concat (map snd runs).
Proof.
  induction 1 as [|g r groups runs Hg _ [IH1 IH2]]; [split; reflexivity|].
  cbn [map concat]. rewrite create_bodies_app, created_in_app, IH1, IH2.
  destruct (group_run_bodies _ _ _ _ Hg) as [-> ->]. split; reflexivity.
Qed.

Lemma upload_groups_cons (he : bool) (params : gmap string pyval)
    (obj : list created) (g : list (option string))
    (groups : list (list (option string))) (tr : list event) :
  upload_groups he params obj (g :: groups) tr
  = match upload_group he params obj g tr with
    | (tr', inr obj') => upload_groups he params obj' groups tr'
    | (tr', inl e) => (tr', inl e)
    end.
Proof. reflexivity. Qed.

Lemma upload_groups_run (he : bool) (params : gmap string pyval)
    (groups : list (list (option string))) :
  forall (obj : list created) (tr : list event),
    (exists runs,
        runs_of params groups runs
        /\ passed he (concat (map fst runs))
        /\ upload_groups he params obj groups tr
           = ((tr ++ concat (map fst runs))%list,
              Return (obj ++ concat (map snd runs))%list))
    \/ (exists seg e k,
           stopped he seg e
           /\ (k < length groups)%nat
           /\ create_bodies seg = map (group_documents params) (firstn (S k) groups)
           /\ upload_groups he params obj groups tr
              = ((tr ++ seg)%list, Raise (Remote e))).
Proof.
  induction groups as [|g groups IH]; intros obj tr.
  - left. exists []. cbn. rewrite !app_nil_r. repeat split; constructor.
  - rewrite upload_groups_cons.
    destruct (upload_group_run he params obj g tr)
      as [(seg & recs & Hrun & Hpass & Hg)|(seg & e & Hst & Hb & Hg)];
      rewrite Hg; cbn [Return Raise].
    + destruct (IH (obj ++ recs)%list (tr ++ seg)%list)
        as [(runs & Hruns & Hps & Hgs)|(seg' & e & k & Hst & Hk & Hb & Hgs)];
        rewrite Hgs, <- !app_assoc.
      * left. exists ((seg, recs) :: runs). cbn [map concat fst snd].
        repeat split.
        -- now constructor.
        -- apply passed_app. now split.
      * right. exists (seg ++ seg')%list, e, (S k).
        repeat split.
        -- now apply stopped_prepend.
        -- cbn [length]. lia.
        -- rewrite create_bodies_app, Hb.
           destruct (group_run_bodies _ _ _ _ Hrun) as [-> _]. reflexivity.
    + right. exists seg, e, 0%nat. repeat split.
      * exact Hst.
      * cbn [length]. lia.
      * rewrite Hb. reflexivity.
Qed.

(** *** The whole run *)

Lemma upload_directory_unfold (path : string) (he : bool) (kwargs : gmap string pyval)
    (tr : list event) :
  upload_directory path he kwargs tr
  = match upload_groups he (upload_params kwargs) []
            (grouper (path_list path) BULK_LIMIT) tr with
    | (tr', inr obj_list) => (tr', Return (map Document_ obj_list))
    | (tr', inl e) => (tr', inl e)
    end.
Proof. reflexivity. Qed.

(** A run either goes through every group, or stops at the first request
    whose failure it does not catch. *)
Lemma upload_directory_run (path : string) (he : bool) (kwargs : gmap string pyval) :
  let params := upload_params kwargs in
  let groups := grouper (path_list path) BULK_LIMIT in
  (exists runs,
      runs_of params groups runs
      /\ passed he (concat (map fst runs))
      /\ upload_directory path he kwargs []
         = (concat (map fst runs), Return (map Document_ (concat (map snd runs)))))
  \/ (exists seg e k,
         stopped he seg e
         /\ (k < length groups)%nat
         /\ create_bodies seg = map (group_documents params) (firstn (S k) groups)
         /\ upload_directory path he kwargs [] = (seg, Raise (Remote e))).
Proof.
  intros params groups. rewrite upload_directory_unfold.
  fold params. fold groups.
  destruct (upload_groups_run he params groups [] [])
    as [(runs & Hruns & Hps & Hrun)|(seg & e & k & Hst & Hk & Hb & Hrun)];
    rewrite Hrun; cbn [app Return Raise].
  - left. exists runs. repeat split; assumption.
  - right. exists seg, e, k. repeat split; assumption.
Qed.




(** *** The bodies of the create calls *)

Lemma documents_of_titles (params : gmap string pyval) (fps : list string) :
  map (fun d : gmap string pyval => d !! "title") (documents_of params fps)
  = map (fun p => Some (PStr (_get_title p))) fps.
Proof.
  unfold documents_of. rewrite map_map. apply map_ext. intros p.
  unfold merge_dicts. apply lookup_union_Some_l, lookup_insert_eq.
Qed.

Lemma group_documents_file_groups (params : gmap string pyval) (files : list string)
    (k : nat) :
  map (group_documents params) (firstn k (grouper files BULK_LIMIT))
  = map (documents_of params) (firstn k (file_groups files BULK_LIMIT)).
Proof.
  unfold file_groups, group_documents. rewrite firstn_map, map_map. reflexivity.
Qed.

(** The create calls of any run are those of the first groups, and of
    all the groups when the run returns. *)
Lemma run_create_bodies (path : string) (he : bool) (kwargs : gmap string pyval) :
  let groups := file_groups (path_list path) BULK_LIMIT in
  let run := upload_directory path he kwargs [] in
  exists k : nat,
    (k <= length groups)%nat
    /\ create_bodies (fst run) = map (documents_of (upload_params kwargs)) (firstn k groups)
    /\ ((exists docs, snd run = Return docs) -> k = length groups).
Proof.
  intros groups run. unfold run.
  assert (Hgl : length (grouper (path_list path) BULK_LIMIT) = length groups)
    by (unfold groups, file_groups; now rewrite length_map).
  destruct (upload_directory_run path he kwargs)
    as [(runs & Hruns & _ & Hrun)|(seg & e & k & _ & Hk & Hb & Hrun)];
    rewrite Hrun; cbn [fst snd].
  - exists (length groups). split; [lia|]. split; [|reflexivity].
    destruct (runs_of_trace _ _ _ Hruns) as [-> _].
    subst groups.
    rewrite <- (group_documents_file_groups (upload_params kwargs) (path_list path)).
    now rewrite <- Hgl, firstn_all.
  - exists (S k). split; [lia|]. split.
    + rewrite Hb. apply group_documents_file_groups.
    + intros [docs Hdocs]. discriminate Hdocs.
Qed.

(** The files of the first groups are the first files. *)
Lemma first_groups_prefix {A : Type} (l : list A) (n k : nat) :
  exists rest : list A,
    l = (concat (firstn k (file_groups l n)) ++ rest)%list
    /\ ((0 < n)%nat -> k = length (file_groups l n) -> rest = []).
Proof.
  destruct n as [|n].
  - exists l. unfold file_groups, grouper. cbn. rewrite firstn_nil. split; [reflexivity|lia].
  - exists (concat (skipn k (file_groups l (S n)))). split.
    + rewrite <- concat_app, firstn_skipn. symmetry. apply file_groups_concat. lia.
    + intros _ ->. now rewrite skipn_all.
Qed.

Lemma documents_of_concat (params : gmap string pyval) (gs : list (list string)) :
  concat (map (documents_of params) gs) = documents_of params (concat gs).
Proof. unfold documents_of. symmetry. apply concat_map. Qed.

(** C3: the surviving files are cut, in discovery order, into
    [ceil(N / BULK_LIMIT)] groups, each full except possibly the last,
    which is not empty; the body of a create call is built from the files
    of its group alone, one dictionary per file, so that no padding of the
    grouping step reaches a request; a run makes the create calls of the
    groups in order: those of the first groups in any run, and all of
    them in a run that returns. *)
Theorem bulk_create_calls (path : string) (he : bool) (kwargs : gmap string pyval) :
  (0 < BULK_LIMIT)%nat ->
  let files := path_list path in
  let groups := file_groups files BULK_LIMIT in
  let params := upload_params kwargs in
  let run := upload_directory path he kwargs [] in
  length groups = ceil_div (length files) BULK_LIMIT
  /\ (length files <= length groups * BULK_LIMIT < length files + BULK_LIMIT)%nat
  /\ concat groups = files
  /\ (forall (i : nat) (g : list string),
        groups !! i = Some g ->
        g = firstn BULK_LIMIT (skipn (i * BULK_LIMIT) files)
        /\ (0 < length g <= BULK_LIMIT)%nat
        /\ ((S i < length groups)%nat -> length g = BULK_LIMIT)
        /\ map (fun d : gmap string pyval => d !! "title") (documents_of params g)
           = map (fun p => Some (PStr (_get_title p))) g)
  /\ (exists k : nat,
        (k <= length groups)%nat
        /\ create_bodies (fst run) = map (documents_of params) (firstn k groups))
  /\ ((exists docs, snd run = Return docs) ->
      create_bodies (fst run) = map (documents_of params) groups
      /\ length (create_bodies (fst run)) = ceil_div (length files) BULK_LIMIT).
Proof.
  intros Hpos files groups params run.
  assert (Hlen : length groups = ceil_div (length files) BULK_LIMIT)
    by now apply file_groups_length.
  assert (Hall : forall runs,
             runs_of params (grouper files BULK_LIMIT) runs ->
             create_bodies (concat (map fst runs)) = map (documents_of params) groups).
  { intros runs Hruns. destruct (runs_of_trace _ _ _ Hruns) as [-> _].
    pose proof (group_documents_file_groups params files
                  (length (grouper files BULK_LIMIT))) as H.
    rewrite firstn_all in H. rewrite H. unfold groups, file_groups.
    rewrite <- (length_map drop_none), firstn_all. reflexivity. }
  split; [exact Hlen|]. split.
  { rewrite Hlen. apply ceil_div_bounds. exact Hpos. }
  split; [now apply file_groups_concat|]. split.
  { intros i g Hg. split; [now apply (file_groups_lookup files BULK_LIMIT i g)|].
    pose proof (file_groups_sizes files BULK_LIMIT i g Hpos Hg) as [Hsz Hfull].
    split; [exact Hsz|]. split; [exact Hfull|]. apply documents_of_titles. }
  unfold run.
  destruct (upload_directory_run path he kwargs)
    as [(runs & Hruns & _ & Hrun)|(seg & e & k & _ & Hk & Hb & Hrun)];
    rewrite Hrun; cbn [fst snd].
  - split.
    + exists (length groups). split; [lia|]. rewrite firstn_all. now apply Hall.
    + intros _. rewrite (Hall runs Hruns). split; [reflexivity|].
      now rewrite length_map.
  - assert (Hgl : length (grouper files BULK_LIMIT) = length groups)
      by (unfold groups, file_groups; now rewrite length_map).
    split.
    + exists (S k). split; [fold files in Hk; lia|].
      rewrite Hb. apply group_documents_file_groups.
    + intros [docs Hdocs]. discriminate.
Qed.

End ClientProperties.

(** ** Titles *)

Lemma last_absent (c : ascii) (s : string) :
  Py.contains c s = false -> Py.after_last c s = None /\ Py.before_last c s = None.
Proof.
  induction s as [|a s IH]; cbn; [split; reflexivity|].
  destruct (Ascii.eqb a c); [discriminate|].
  intros H. destruct (IH H) as [-> ->]. split; reflexivity.
Qed.

Lemma after_last_app (c : ascii) (a b : string) :
  Py.contains c b = false -> Py.after_last c (a ++ String c b) = Some b.
Proof.
  intros Hb. destruct (last_absent c b Hb) as [Hal _].
  induction a as [|x a IH].
  - change (EmptyString ++ String c b) with (String c b).
    cbn. rewrite Hal, Ascii.eqb_refl. reflexivity.
  - change (String x a ++ String c b) with (String x (a ++ String c b)).
    cbn. rewrite IH. reflexivity.
Qed.

Lemma before_last_app (c : ascii) (a b : string) :
  Py.contains c b = false -> Py.before_last c (a ++ String c b) = Some a.
Proof.
  intros Hb. destruct (last_absent c b Hb) as [_ Hbl].
  induction a as [|x a IH].
  - change (EmptyString ++ String c b) with (String c b).
    cbn. rewrite Hbl, Ascii.eqb_refl. reflexivity.
  - change (String x a ++ String c b) with (String x (a ++ String c b)).
    cbn. rewrite IH. reflexivity.
Qed.

(** The title of a path is the last component without its last dotted
    segment. *)
Lemma _get_title_extension (dir stem ext : string) :
  Py.contains "/" (stem ++ "." ++ ext) = false ->
  Py.contains "." ext = false ->
  _get_title (dir ++ "/" ++ stem ++ "." ++ ext) = stem.
Proof.
  intros Hsep Hdot. unfold _get_title, Py.split_last, Py.rsplit1_head.
  change (dir ++ "/" ++ stem ++ "." ++ ext)
    with (dir ++ String "/" (stem ++ "." ++ ext)).
  rewrite after_last_app by exact Hsep.
  change (stem ++ "." ++ ext) with (stem ++ String "." ext).
  rewrite before_last_app by exact Hdot. reflexivity.
Qed.

Lemma _get_title_dotless (dir name : string) :
  Py.contains "/" name = false ->
  Py.contains "." name = false ->
  _get_title (dir ++ "/" ++ name) = name.
Proof.
  intros Hsep Hdot. unfold _get_title, Py.split_last, Py.rsplit1_head.
  change (dir ++ "/" ++ name) with (dir ++ String "/" name).
  rewrite after_last_app by exact Hsep.
  destruct (last_absent "." name Hdot) as [_ ->]. reflexivity.
Qed.

(** C10: a [title] among the keyword arguments has no effect on the run,
    which is the run of the same arguments without that key. In the bodies
    of the create calls that the run posts, the title of each dictionary
    is the title of its own file, whatever title the caller gave: the
    titles posted are those of the files of the first groups, and of all
    the files when the run returns. The title of a file is its last path
    component with the final dotted segment removed, or unchanged when it
    has no dot. *)
Theorem title_option_discarded (w : World) (srv : Server) (BULK_LIMIT : nat)
    (path : string) (handle_errors : bool) (kwargs : gmap string pyval)
    (tr : list event) :
  upload_directory w srv BULK_LIMIT path handle_errors kwargs tr
  = upload_directory w srv BULK_LIMIT path handle_errors (delete "title" kwargs) tr
  /\ (forall t : pyval,
        upload_directory w srv BULK_LIMIT path handle_errors (<[ "title" := t ]> kwargs) tr
        = upload_directory w srv BULK_LIMIT path handle_errors (delete "title" kwargs) tr)
  /\ (forall t : pyval,
        let run :=
          upload_directory w srv BULK_LIMIT path handle_errors
            (<[ "title" := t ]> kwargs) [] in
        let groups := file_groups (path_list w path) BULK_LIMIT in
        exists k : nat,
          (k <= length groups)%nat
          /\ map (map (fun d : gmap string pyval => d !! "title")) (create_bodies (fst run))
             = map (map (fun p => Some (PStr (_get_title p)))) (firstn k groups)
          /\ ((exists docs, snd run = Return docs) -> k = length groups))
  /\ (forall dir stem ext : string,
        Py.contains "/" (stem ++ "." ++ ext) = false ->
        Py.contains "." ext = false ->
        _get_title (dir ++ "/" ++ stem ++ "." ++ ext) = stem)
  /\ (forall dir name : string,
        Py.contains "/" name = false ->
        Py.contains "." name = false ->
        _get_title (dir ++ "/" ++ name) = name).
Proof.
  split; [|split; [|split; [|split]]].
  - unfold upload_directory. now rewrite delete_delete_eq.
  - intros t. unfold upload_directory.
    now rewrite delete_insert_eq, delete_delete_eq.
  - intros t run groups.
    destruct (run_create_bodies w srv BULK_LIMIT path handle_errors
                (<[ "title" := t ]> kwargs)) as (k & Hk & Hb & Hall).
    exists k. split; [exact Hk|]. split; [|exact Hall].
    unfold run. rewrite Hb, map_map. apply map_ext. intros g.
    apply documents_of_titles.
  - apply _get_title_extension.
  - apply _get_title_dotless.
Qed.

(** ** Which files are uploaded *)

Lemma mem_string_In (s : string) (l : list string) :
  mem_string s l = true <-> In s l.
Proof.
  induction l as [|x l IH]; cbn; [split; [discriminate|tauto]|].
  destruct (String.eqb s x) eqn:E.
  - apply String.eqb_eq in E. subst. tauto.
  - apply String.eqb_neq in E. rewrite IH. split; [tauto|].
    intros [H|H]; [congruence|exact H].
Qed.

Lemma documents_of_extensions (w : World) (params : gmap string pyval)
    (file_paths : list string) :
  map (fun d : gmap string pyval => d !! "original_extension")
      (documents_of w params file_paths)
  = map (fun p => Some (PStr (Py.lstrip "."
                                (_get_valid_extension w p supported_extensions))))
        file_paths.
Proof.
  unfold documents_of. rewrite map_map. apply map_ext. intros p.
  unfold merge_dicts. apply lookup_union_Some_l.
  rewrite lookup_insert_ne by discriminate. apply lookup_insert_eq.
Qed.

(** C1, as the code has it: a discovered file is selected for upload
    exactly when the extension of its name, lowercased, is in the
    allow-list; the others are dropped without an error. The entries of
    the create calls of a run are, in discovery order, those of the first
    selected files, one entry for each, and of all the selected files when
    the run returns. The extension sniffed from the content is what an
    entry carries as [original_extension] (without its dot, empty when the
    sniffed type is not supported); it has no say in whether the file is
    uploaded. *)
Theorem directory_filter_by_filename (w : World) (srv : Server) (BULK_LIMIT : nat)
    (path : string) (he : bool) (kwargs : gmap string pyval) :
  let run := upload_directory w srv BULK_LIMIT path he kwargs [] in
  let entries := concat (create_bodies (fst run)) in
  (forall p : string,
      In p (path_list w path)
      <-> In p (_collect_files w path)
          /\ In (str_lower w (snd (Py.splitext p))) supported_extensions)
  /\ (exists sent rest : list string,
        path_list w path = (sent ++ rest)%list
        /\ entries = documents_of w (upload_params kwargs) sent
        /\ map (fun d : gmap string pyval => d !! "title") entries
           = map (fun p => Some (PStr (_get_title p))) sent
        /\ map (fun d : gmap string pyval => d !! "original_extension") entries
           = map (fun p => Some (PStr (Py.lstrip "."
                                         (_get_valid_extension w p supported_extensions))))
                 sent
        /\ ((0 < BULK_LIMIT)%nat -> (exists docs, snd run = Return docs) -> rest = []))
  /\ (forall p ext : string,
        guess_extension w (magic_from_file w p) = Some ext ->
        ext <> EmptyString ->
        In (Py.lower ext) supported_extensions ->
        _get_valid_extension w p supported_extensions = ext)
  /\ (forall p : string,
        (forall ext, guess_extension w (magic_from_file w p) = Some ext ->
                     ~ In (Py.lower ext) supported_extensions) ->
        _get_valid_extension w p supported_extensions = EmptyString).
Proof.
  intros run entries. split; [|split; [|split]].
  - intros p. unfold path_list. rewrite filter_In, mem_string_In. reflexivity.
  - destruct (run_create_bodies w srv BULK_LIMIT path he kwargs) as (k & _ & Hb & Hall).
    destruct (first_groups_prefix (path_list w path) BULK_LIMIT k) as (rest & Hsplit & Hrest).
    exists (concat (firstn k (file_groups (path_list w path) BULK_LIMIT))), rest.
    assert (He : entries
                 = documents_of w (upload_params kwargs)
                     (concat (firstn k (file_groups (path_list w path) BULK_LIMIT)))).
    { unfold entries, run. rewrite Hb. apply documents_of_concat. }
    split; [exact Hsplit|]. split; [exact He|].
    split; [rewrite He; apply documents_of_titles|].
    split; [rewrite He; apply documents_of_extensions|].
    intros Hpos Hret. apply Hrest; [exact Hpos|]. now apply Hall.
  - intros p ext Hg Hne Hin. unfold _get_valid_extension. rewrite Hg.
    apply mem_string_In in Hin. rewrite Hin.
    destruct (String.eqb ext EmptyString) eqn:E; [|reflexivity].
    apply String.eqb_eq in E. contradiction.
  - intros p Hno. unfold _get_valid_extension.
    destruct (guess_extension w (magic_from_file w p)) as [ext|] eqn:Hg; [|reflexivity].
    destruct (mem_string (Py.lower ext) supported_extensions) eqn:Hm.
    + apply mem_string_In in Hm. now apply Hno in Hm.
    + now rewrite andb_false_r.
Qed.

(** ** The size limit *)

Lemma upload_directory_no_value_error (w : World) (srv : Server) (BULK_LIMIT : nat)
    (path : string) (he : bool) (kwargs : gmap string pyval) :
  (exists docs, snd (upload_directory w srv BULK_LIMIT path he kwargs []) = Return docs)
  \/ (exists e, snd (upload_directory w srv BULK_LIMIT path he kwargs [])
                = Raise (Remote e)).
Proof.
  destruct (upload_directory_run w srv BULK_LIMIT path he kwargs)
    as [(runs & _ & _ & Hrun)|(seg & e & k & _ & _ & _ & Hrun)]; rewrite Hrun.
  - left. eexists. reflexivity.
  - right. exists e. reflexivity.
Qed.

(** C8: [upload] of a local file whose size is at least 501 MiB raises
    [ValueError] and makes no request; below that size it goes on to the
    upload. [upload_directory] never asks for a file's size: its run is the
    same whatever sizes the system reports, it never raises [ValueError],
    and a file of any size whose name has a supported extension is among
    the files it uploads. *)
Theorem size_limit_single_upload_only (w : World) (srv : Server) (BULK_LIMIT : nat) :
  size_limit = 525336576
  /\ (forall (path : string) (kwargs : gmap string pyval) (tr : list event),
        is_url w path = false ->
        size_limit <= getsize w path ->
        upload w srv (PdfString path) kwargs tr = (tr, Raise size_limit_error))
  /\ (forall (name : string) (size : Z) (content : bytes) (kwargs : gmap string pyval)
             (tr : list event),
        size_limit <= size ->
        upload w srv (PdfFile name (Some size) content) kwargs tr
        = (tr, Raise size_limit_error))
  /\ (forall (path : string) (kwargs : gmap string pyval) (tr : list event),
        is_url w path = false ->
        getsize w path < size_limit ->
        upload w srv (PdfString path) kwargs tr
        = _upload_file srv path (read_file w path) kwargs tr)
  /\ (forall (sizes : string -> Z) (path : string) (he : bool)
             (kwargs : gmap string pyval) (tr : list event),
        upload_directory (with_getsize sizes w) srv BULK_LIMIT path he kwargs tr
        = upload_directory w srv BULK_LIMIT path he kwargs tr)
  /\ (forall (sizes : string -> Z) (path p : string),
        In p (path_list (with_getsize sizes w) path) <-> In p (path_list w path))
  /\ (forall (path : string) (he : bool) (kwargs : gmap string pyval),
        (exists docs,
            snd (upload_directory w srv BULK_LIMIT path he kwargs []) = Return docs)
        \/ (exists e,
               snd (upload_directory w srv BULK_LIMIT path he kwargs [])
               = Raise (Remote e))).
Proof.
  split; [reflexivity|]. split; [|split; [|split; [|split; [|split]]]].
  - intros path kwargs tr Hurl Hsize. unfold upload. rewrite Hurl.
    destruct (getsize w path >=? size_limit) eqn:E; [reflexivity|lia].
  - intros name size content kwargs tr Hsize. unfold upload.
    change (default 0 (Some size)) with size.
    destruct (size >=? size_limit) eqn:E; [reflexivity|lia].
  - intros path kwargs tr Hurl Hsize. unfold upload. rewrite Hurl.
    destruct (getsize w path >=? size_limit) eqn:E; [lia|reflexivity].
  - reflexivity.
  - reflexivity.
  - apply upload_directory_no_value_error.
Qed.

(** ** The properties at concrete inputs *)

Example splitext_examples :
  map Py.splitext ["d/a.pdf"; "d/notes"; "d/b.TXT"; "d/c.tar.gz"; "d/.pdf"; "x.d/e"]
  = [("d/a", ".pdf"); ("d/notes", ""); ("d/b", ".TXT"); ("d/c.tar", ".gz");
     ("d/.pdf", ""); ("x.d/e", "")].
Proof. reflexivity. Qed.

Example _get_title_examples :
  map _get_title ["tests/test.pdf"; "d/c.tar.gz"; "d/README"; "plain.doc"]
  = ["test"; "c.tar"; "README"; "plain"].
Proof. reflexivity. Qed.

Example grouper_example :
  grouper ["a"; "b"; "c"; "d"; "e"] 2
  = [[Some "a"; Some "b"]; [Some "c"; Some "d"]; [Some "e"; None]].
Proof. reflexivity. Qed.

Example image_urls_example :
  get_image_url_list sample_document "small"
  = Return ["https://assets.example.org/documents/20071460/pages/report-p1-small.gif";
            "https://assets.example.org/documents/20071460/pages/report-p2-small.gif";
            "https://assets.example.org/documents/20071460/pages/report-p3-small.gif"].
Proof. reflexivity. Qed.

(** On a document of the service: [bogus_field] is not recognized, the
    JSON field [title] is found by ordinary lookup, and the full text is
    fetched. *)
Lemma accessor_resolution_witness :
  unrecognized sample_inherited sample_document "bogus_field" = true
  /\ getattr sample_inherited "https://api.example.org/api/" sample_netloc sample_get
       sample_get (fun b => Some (string_of_list_byte b)) (fun _ => None)
       sample_document "bogus_field"
     = Raise (AttributeError "'Document' object has no attribute 'bogus_field'")
  /\ getattr sample_inherited "https://api.example.org/api/" sample_netloc sample_get
       sample_get (fun b => Some (string_of_list_byte b)) (fun _ => None)
       sample_document "title"
     = Return (VInherited "title" NotCallable)
  /\ getattr sample_inherited "https://api.example.org/api/" sample_netloc sample_get
       sample_get (fun b => Some (string_of_list_byte b)) (fun _ => None)
       sample_document "full_text"
     = Return (VStr "body of https://assets.example.org/documents/20071460/report.txt").
Proof.
  pose proof (accessor_resolution sample_inherited "https://api.example.org/api/"
                sample_netloc sample_get sample_get
                (fun b => Some (string_of_list_byte b)) (fun _ => None) sample_document)
    as (_ & Hfound & _ & _ & _ & Hfull & _ & Hnot).
  split; [reflexivity|]. split; [|split].
  - apply Hnot. reflexivity.
  - apply Hfound. reflexivity.
  - destruct (Hfull eq_refl eq_refl eq_refl) as (_ & _ & _ & H).
    etransitivity; [exact H|reflexivity].
Defined.

Lemma image_url_list_accessor_witness :
  exists urls : list string,
    getattr no_inherited "https://api.example.org/api/" sample_netloc sample_get
      sample_get (fun b => Some (string_of_list_byte b)) (fun _ => None)
      sample_document "small_image_url_list" = Return (VStrList urls)
    /\ Z.of_nat (length urls) = 3
    /\ (forall k : nat, (k < length urls)%nat ->
          urls !! k = Some (image_url_string sample_document (Z.of_nat k + 1) "small"))
    /\ (forall k : nat, (k < length urls)%nat ->
          get_image_url sample_document (Z.of_nat k + 1) "small"
          = Return (image_url_string sample_document (Z.of_nat k + 1) "small")).
Proof.
  apply (image_url_list_accessor "https://api.example.org/api/" sample_netloc
           sample_get sample_get (fun b => Some (string_of_list_byte b))
           (fun _ => None) sample_document "small").
  - cbn. tauto.
  - cbn. lia.
Defined.



(** Three files in groups of two: two create calls, although the second
    one fails; the second group holds the third file alone. *)
Lemma bulk_create_calls_witness :
  (create_bodies (fst (upload_directory tree_world second_create_fails 2 "d" true ∅ []))
   = map (documents_of tree_world (upload_params ∅))
         (file_groups (path_list tree_world "d") 2)
   /\ length (create_bodies
                (fst (upload_directory tree_world second_create_fails 2 "d" true ∅ [])))
      = ceil_div (length (path_list tree_world "d")) 2)
  /\ ceil_div (length (path_list tree_world "d")) 2 = 2%nat
  /\ (["d/sub/c.pdf"] = firstn 2 (skipn (1 * 2) (path_list tree_world "d"))
      /\ (0 < length ["d/sub/c.pdf"] <= 2)%nat
      /\ ((2 < length (file_groups (path_list tree_world "d") 2))%nat ->
          length ["d/sub/c.pdf"] = 2%nat)
      /\ map (fun d : gmap string pyval => d !! "title")
             (documents_of tree_world (upload_params ∅) ["d/sub/c.pdf"])
         = map (fun p => Some (PStr (_get_title p))) ["d/sub/c.pdf"]).
Proof.
  pose proof (bulk_create_calls tree_world second_create_fails 2 "d" true ∅)
    as Hcalls.
  destruct Hcalls as (_ & _ & _ & Hgroup & _ & Hall); [lia|].
  split; [|split].
  - apply Hall. eexists. vm_compute. reflexivity.
  - reflexivity.
  - apply (Hgroup 1%nat). reflexivity.
Defined.



(** The caller's title is not posted: the titles of the two create calls
    are those of the files. *)
Lemma title_option_discarded_witness :
  map (map (fun d : gmap string pyval => d !! "title"))
      (create_bodies
         (fst (upload_directory tree_world flaky_server 2 "d" true
                 (<[ "title" := PStr "Mine" ]> ∅) [])))
  = [[Some (PStr "a"); Some (PStr "b")]; [Some (PStr "c")]]
  /\ _get_title ("d/sub" ++ "/" ++ "report.final" ++ "." ++ "pdf") = "report.final"
  /\ _get_title ("d/sub" ++ "/" ++ "README") = "README".
Proof.
  pose proof (title_option_discarded tree_world flaky_server 2 "d" true ∅ [])
    as (_ & _ & Htitles & Hext & Hplain).
  split; [|split].
  - destruct (Htitles (PStr "Mine")) as (k & _ & Ht & Hall).
    rewrite Ht, Hall; [reflexivity|]. eexists. vm_compute. reflexivity.
  - apply Hext; reflexivity.
  - apply Hplain; reflexivity.
Defined.

Lemma size_limit_single_upload_only_witness :
  upload big_file_world flaky_server (PdfString "tests/test.pdf") ∅ []
  = ([], Raise size_limit_error)
  /\ upload tree_world flaky_server
       (PdfFile "tests/test.pdf" (Some (502 * 1024 * 1024)) []) ∅ []
     = ([], Raise size_limit_error)
  /\ upload tree_world flaky_server (PdfString "tests/test.pdf") ∅ []
     = _upload_file flaky_server "tests/test.pdf"
         (read_file tree_world "tests/test.pdf") ∅ [].
Proof.
  pose proof (size_limit_single_upload_only big_file_world flaky_server 1)
    as (_ & Hbig & _).
  pose proof (size_limit_single_upload_only tree_world flaky_server 1)
    as (_ & _ & Hfile & Hsmall & _).
  split; [|split].
  - apply Hbig; [reflexivity|vm_compute; discriminate].
  - apply Hfile. vm_compute. discriminate.
  - apply Hsmall; [reflexivity|reflexivity].
Defined.

(** [d/a.pdf] is selected and [d/notes] is not; the run posts one entry,
    for [d/a.pdf], with an empty [original_extension]. *)
Lemma directory_filter_by_filename_witness :
  In "d/a.pdf" (path_list mislabelled_world "d")
  /\ ~ In "d/notes" (path_list mislabelled_world "d")
  /\ map (fun d : gmap string pyval => d !! "title")
         (concat (create_bodies
                    (fst (upload_directory mislabelled_world second_create_fails 5 "d"
                            false ∅ []))))
     = [Some (PStr "a")]
  /\ map (fun d : gmap string pyval => d !! "original_extension")
         (concat (create_bodies
                    (fst (upload_directory mislabelled_world second_create_fails 5 "d"
                            false ∅ []))))
     = [Some (PStr "")]
  /\ _get_valid_extension mislabelled_world "d/notes" supported_extensions = ".pdf".
Proof.
  pose proof (directory_filter_by_filename mislabelled_world second_create_fails 5 "d"
                false ∅)
    as (Hin & (sent & rest & Hsplit & _ & Ht & He & Hall) & Hsome & _).
  assert (Hrest : rest = []) by (apply Hall; [lia|]; eexists; vm_compute; reflexivity).
  subst rest. rewrite app_nil_r in Hsplit.
  assert (Hsent : sent = ["d/a.pdf"]) by (rewrite <- Hsplit; reflexivity).
  subst sent.
  split; [|split; [|split; [|split]]].
  - apply Hin. split; [cbn; tauto|]. apply mem_string_In. reflexivity.
  - intros H. apply Hin in H. destruct H as [_ H]. apply mem_string_In in H.
    discriminate H.
  - rewrite Ht. reflexivity.
  - rewrite He. reflexivity.
  - apply Hsome; [reflexivity|discriminate|]. apply mem_string_In. reflexivity.
Defined.

(** Counterexample to C1 as the specification words it: [d/a.pdf] is
    uploaded (the one create call of the run is for it) although its
    content is of no supported type, and [d/notes] is left out although its
    content is a PDF. *)
Lemma sniffing_does_not_decide_inclusion :
  ~ sniffing_decides_inclusion mislabelled_world "d"
  /\ path_list mislabelled_world "d" = ["d/a.pdf"]
  /\ _get_valid_extension mislabelled_world "d/a.pdf" supported_extensions = ""
  /\ _get_valid_extension mislabelled_world "d/notes" supported_extensions = ".pdf"
  /\ create_bodies (fst (upload_directory mislabelled_world flaky_server 25 "d" true ∅ []))
     = [documents_of mislabelled_world (upload_params ∅) ["d/a.pdf"]].
Proof.
  split; [|repeat split; vm_compute; reflexivity].
  intros H. destruct (H "d/a.pdf") as [Hup _]; [vm_compute; left; reflexivity|].
  apply Hup; [vm_compute; left; reflexivity|reflexivity].
Qed.

(** ** Upload parameters *)

Lemma allowed_fold_lookup (kwargs : gmap string pyval) (l : list string) :
  forall (params : gmap string pyval) (k : string),
    foldl (fun (params : gmap string pyval) param =>
             match kwargs !! param with
             | Some v => <[ param := v ]> params
             | None => params
             end) params l !! k
    = if mem_string k l
      then match kwargs !! k with
           | Some v => Some v
           | None => params !! k
           end
      else params !! k.
Proof.
  induction l as [|a l IH]; intros params k; cbn [foldl mem_string]; [reflexivity|].
  rewrite IH. destruct (String.eqb k a) eqn:E.
  - apply String.eqb_eq in E. subst a.
    destruct (kwargs !! k) as [v|] eqn:Hk.
    + rewrite ?Hk, lookup_insert_eq. now destruct (mem_string k l).
    + rewrite ?Hk. now destruct (mem_string k l).
  - apply String.eqb_neq in E.
    destruct (kwargs !! a) as [v|]; [|reflexivity].
    rewrite lookup_insert_ne by congruence. reflexivity.
Qed.

Lemma _format_upload_parameters_lookup (name : string) (kwargs : gmap string pyval)
    (k : string) :
  _format_upload_parameters name kwargs !! k
  = if mem_string k allowed_parameters
    then match kwargs !! k with
         | Some v => Some v
         | None =>
             if String.eqb k "title" then Some (PStr (_get_title name))
             else if String.eqb k "projects"
                  then option_map (fun v => PList [v]) (kwargs !! "project")
                  else None
         end
    else None.
Proof.
  unfold _format_upload_parameters. rewrite allowed_fold_lookup.
  assert (Hbase :
    (match kwargs !! "project" with
     | Some v => <[ "projects" := PList [v] ]> ({[ "title" := PStr (_get_title name) ]})
     | None => {[ "title" := PStr (_get_title name) ]}
     end : gmap string pyval) !! k
    = if String.eqb k "title" then Some (PStr (_get_title name))
      else if String.eqb k "projects"
           then option_map (fun v => PList [v]) (kwargs !! "project")
           else None).
  { destruct (String.eqb k "title") eqn:Et.
    - apply String.eqb_eq in Et. subst k.
      destruct (kwargs !! "project");
        [rewrite lookup_insert_ne by discriminate|]; apply lookup_singleton_eq.
    - apply String.eqb_neq in Et.
      destruct (String.eqb k "projects") eqn:Ep.
      + apply String.eqb_eq in Ep. subst k.
        destruct (kwargs !! "project"); cbn; [apply lookup_insert_eq|].
        now rewrite lookup_singleton_ne.
      + apply String.eqb_neq in Ep.
        destruct (kwargs !! "project"); cbn.
        * rewrite lookup_insert_ne by congruence.
          rewrite lookup_singleton_ne by congruence. reflexivity.
        * rewrite lookup_singleton_ne by congruence. reflexivity. }
  rewrite Hbase.
  destruct (mem_string k allowed_parameters) eqn:Hm; [reflexivity|].
  destruct (String.eqb k "title") eqn:Et.
  { apply String.eqb_eq in Et. subst k. discriminate Hm. }
  destruct (String.eqb k "projects") eqn:Ep; [|reflexivity].
  apply String.eqb_eq in Ep. subst k. discriminate Hm.
Qed.

(** X1: the dictionary of upload parameters holds a title and otherwise
    only allowed parameters: a keyword that is not on the allow-list
    ([secure], [project] itself, anything unknown) never reaches a
    request. *)
Theorem upload_parameters_only_allowed (name : string) (kwargs : gmap string pyval) :
  (exists t, _format_upload_parameters name kwargs !! "title" = Some t)
  /\ (forall (k : string) (v : pyval),
        _format_upload_parameters name kwargs !! k = Some v ->
        In k allowed_parameters)
  /\ (forall k : string,
        ~ In k allowed_parameters ->
        _format_upload_parameters name kwargs !! k = None).
Proof.
  split; [|split].
  - rewrite _format_upload_parameters_lookup. cbn.
    destruct (kwargs !! "title") as [t|]; eexists; reflexivity.
  - intros k v. rewrite _format_upload_parameters_lookup.
    destruct (mem_string k allowed_parameters) eqn:Hm; [|discriminate].
    intros _. now apply mem_string_In.
  - intros k Hk. rewrite _format_upload_parameters_lookup.
    destruct (mem_string k allowed_parameters) eqn:Hm; [|reflexivity].
    apply mem_string_In in Hm. contradiction.
Qed.

(** X2: the value of each upload parameter: the caller's title, or by
    default the title of the name; the caller's [projects], or by default
    the one-element list of the caller's [project]; every other allowed
    parameter as the caller gave it. *)
Theorem upload_parameters_values (name : string) (kwargs : gmap string pyval) :
  _format_upload_parameters name kwargs !! "title"
  = Some (default (PStr (_get_title name)) (kwargs !! "title"))
  /\ _format_upload_parameters name kwargs !! "projects"
     = match kwargs !! "projects" with
       | Some v => Some v
       | None => option_map (fun v => PList [v]) (kwargs !! "project")
       end
  /\ (forall k : string,
        In k allowed_parameters -> k <> "title" -> k <> "projects" ->
        _format_upload_parameters name kwargs !! k = kwargs !! k).
Proof.
  split; [|split].
  - rewrite _format_upload_parameters_lookup. cbn.
    now destruct (kwargs !! "title").
  - rewrite _format_upload_parameters_lookup. cbn.
    now destruct (kwargs !! "projects").
  - intros k Hin Ht Hp. rewrite _format_upload_parameters_lookup.
    apply mem_string_In in Hin. rewrite Hin.
    apply String.eqb_neq in Ht, Hp. rewrite Ht, Hp.
    now destruct (kwargs !! k).
Qed.

(** ** Titles, again *)

Lemma after_last_none (c : ascii) (s : string) :
  Py.after_last c s = None -> Py.contains c s = false.
Proof.
  induction s as [|a s IH]; cbn; [reflexivity|].
  destruct (Py.after_last c s); [discriminate|].
  destruct (Ascii.eqb a c); [discriminate|]. intros _. now apply IH.
Qed.

Lemma after_last_some (c : ascii) (s r : string) :
  Py.after_last c s = Some r -> Py.contains c r = false.
Proof.
  induction s as [|a s IH]; cbn; [discriminate|].
  destruct (Py.after_last c s) as [r'|] eqn:E.
  - intros [= <-]. now apply IH.
  - destruct (Ascii.eqb a c); [|discriminate].
    intros [= <-]. now apply after_last_none.
Qed.

Lemma before_last_keeps_absent (c x : ascii) (s h : string) :
  Py.before_last c s = Some h -> Py.contains x s = false -> Py.contains x h = false.
Proof.
  revert h. induction s as [|a s IH]; intros h Hb Hx; cbn in Hb, Hx; [discriminate|].
  destruct (Ascii.eqb a x) eqn:Ea; [discriminate|].
  destruct (Py.before_last c s) as [h'|] eqn:E.
  - injection Hb as <-. cbn. rewrite Ea. now apply IH.
  - destruct (Ascii.eqb a c); [|discriminate]. now injection Hb as <-.
Qed.

(** X3: a title never holds a path separator; a name that ends with the
    separator, and a last component whose only dot is its first character,
    give the empty title. *)
Theorem title_edge_cases :
  (forall name : string, Py.contains "/" (_get_title name) = false)
  /\ (forall s : string, _get_title (s ++ "/") = EmptyString)
  /\ (forall dir ext : string,
        Py.contains "/" ext = false ->
        Py.contains "." ext = false ->
        _get_title (dir ++ "/." ++ ext) = EmptyString).
Proof.
  split; [|split].
  - intros name. unfold _get_title, Py.split_last, Py.rsplit1_head.
    assert (Hlast : Py.contains "/"
                      (match Py.after_last "/" name with
                       | Some r => r
                       | None => name
                       end) = false).
    { destruct (Py.after_last "/" name) as [r|] eqn:E;
        [now apply (after_last_some "/" name)|now apply after_last_none]. }
    destruct (Py.before_last "." _) as [h|] eqn:Eh; [|exact Hlast].
    now apply (before_last_keeps_absent "." "/" _ h Eh).
  - intros s. unfold _get_title, Py.split_last, Py.rsplit1_head.
    change (s ++ "/") with (s ++ String "/" EmptyString).
    rewrite after_last_app by reflexivity. reflexivity.
  - intros dir ext Hsep Hdot.
    apply (_get_title_extension dir EmptyString ext); [|exact Hdot].
    cbn. exact Hsep.
Qed.

(** ** Single uploads *)

(** X4: the upload of a URL makes one request and no other: the create
    call, whose body is the upload parameters of the URL together with the
    URL itself as [file_url]; its answer is the document returned, its
    failure the exception raised. No size is asked for. *)
Theorem upload_url_single_request (w : World) (srv : Server) (url : string)
    (kwargs : gmap string pyval) (tr : list event) :
  is_url w url = true ->
  let body := <[ "file_url" := PStr url ]> (_format_upload_parameters url kwargs) in
  upload w srv (PdfString url) kwargs tr
  = match srv_create srv tr body with
    | inl e => ((tr ++ [mkEvent (PostDocument body) (inl e)])%list, Raise (Remote e))
    | inr c =>
        ((tr ++ [mkEvent (PostDocument body) (inr (RespCreated c))])%list,
         Return (doc c))
    end
  /\ body !! "file_url" = Some (PStr url)
  /\ body !! "title" = Some (default (PStr (_get_title url)) (kwargs !! "title"))
  /\ (forall sizes : string -> Z,
        upload (with_getsize sizes w) srv (PdfString url) kwargs tr
        = upload w srv (PdfString url) kwargs tr).
Proof.
  intros Hurl body. split; [|split; [|split]].
  - unfold upload. rewrite Hurl. unfold _upload_url, mbind, post_document.
    fold body. destruct (srv_create srv tr body); reflexivity.
  - apply lookup_insert_eq.
  - unfold body. rewrite lookup_insert_ne by discriminate.
    rewrite _format_upload_parameters_lookup. cbn.
    now destruct (kwargs !! "title").
  - intros sizes. unfold upload. cbn [is_url with_getsize]. now rewrite Hurl.
Qed.

(** X5: the upload of a file makes its requests in the order create,
    storage, process. [force_ocr] is taken out of the create call and sent
    with the process call ([False] by default). A failed create call, or a
    storage request that raises, ends the upload there; a storage request
    that comes back with a failure status does not: the process call is
    made all the same, and the document is returned when it succeeds. *)
Theorem upload_file_sequence (srv : Server) (name : string) (content : bytes)
    (kwargs : gmap string pyval) (tr : list event) :
  let force_ocr := default (PBool false) (kwargs !! "force_ocr") in
  let params := _format_upload_parameters name (delete "force_ocr" kwargs) in
  params !! "force_ocr" = None
  /\ (forall e : remote_exn,
        srv_create srv tr params = inl e ->
        _upload_file srv name content kwargs tr
        = ((tr ++ [mkEvent (PostDocument params) (inl e)])%list, Raise (Remote e)))
  /\ (forall c : created,
        srv_create srv tr params = inr c ->
        let tr1 := (tr ++ [mkEvent (PostDocument params) (inr (RespCreated c))])%list in
        let put := PutStorage (presigned_url c) content in
        let process := PostProcess (id (doc c)) force_ocr in
        (forall msg : string,
            srv_put srv tr1 (presigned_url c) content = Some (RequestException msg) ->
            _upload_file srv name content kwargs tr
            = ((tr1 ++ [mkEvent put (inl (RequestException msg))])%list,
               Raise (Remote (RequestException msg))))
        /\ (forall (status : Z) (error : string),
              srv_put srv tr1 (presigned_url c) content = Some (APIError status error) ->
              let tr2 := (tr1 ++ [mkEvent put (inl (APIError status error))])%list in
              _upload_file srv name content kwargs tr
              = match srv_process srv tr2 (id (doc c)) force_ocr with
                | Some e => ((tr2 ++ [mkEvent process (inl e)])%list, Raise (Remote e))
                | None => ((tr2 ++ [mkEvent process (inr RespDone)])%list, Return (doc c))
                end)
        /\ (srv_put srv tr1 (presigned_url c) content = None ->
            let tr2 := (tr1 ++ [mkEvent put (inr RespDone)])%list in
            _upload_file srv name content kwargs tr
            = match srv_process srv tr2 (id (doc c)) force_ocr with
              | Some e => ((tr2 ++ [mkEvent process (inl e)])%list, Raise (Remote e))
              | None => ((tr2 ++ [mkEvent process (inr RespDone)])%list, Return (doc c))
              end)).
Proof.
  intros force_ocr params. split; [|split].
  - unfold params. rewrite _format_upload_parameters_lookup. cbn.
    now rewrite lookup_delete_eq.
  - intros e He. unfold _upload_file, mbind, post_document.
    fold params. now rewrite He.
  - intros c Hc tr1 put process.
    assert (Hrun : _upload_file srv name content kwargs tr
                   = match put_storage_unchecked srv (presigned_url c) content tr1 with
                     | (tr2, inr _) =>
                         match post_process srv (id (doc c)) force_ocr tr2 with
                         | (tr3, inr _) => (tr3, Return (doc c))
                         | (tr3, inl e) => (tr3, inl e)
                         end
                     | (tr2, inl e) => (tr2, inl e)
                     end).
    { unfold _upload_file, mbind, post_document. fold params. rewrite Hc.
      cbn [Return Raise]. fold tr1. fold force_ocr.
      destruct (put_storage_unchecked srv (presigned_url c) content tr1) as [tr2 [e|[]]];
        [reflexivity|].
      destruct (post_process srv (id (doc c)) force_ocr tr2) as [tr3 [e|[]]];
        reflexivity. }
    rewrite Hrun. unfold put_storage_unchecked, post_process.
    split; [|split].
    + intros msg Hput. now rewrite Hput.
    + intros status error Hput. rewrite Hput.
      now destruct (srv_process srv _ (id (doc c)) force_ocr).
    + intros Hput. rewrite Hput.
      now destruct (srv_process srv _ (id (doc c)) force_ocr).
Qed.

(** ** The sniffed extension *)

Lemma lower_ascii_dot (c : ascii) :
  Ascii.eqb (Py.lower_ascii c) "." = Ascii.eqb c ".".
Proof. destruct c as [[] [] [] [] [] [] [] []]; reflexivity. Qed.

Lemma supported_extensions_dotted :
  forallb (fun s => match s with
                    | String c (String c' _) => Ascii.eqb c "." && negb (Ascii.eqb c' ".")
                    | _ => false
                    end) supported_extensions = true.
Proof. reflexivity. Qed.

Lemma lstrip_cons (c a : ascii) (s : string) :
  Py.lstrip c (String a s) = if Ascii.eqb a c then Py.lstrip c s else String a s.
Proof. reflexivity. Qed.

(** X6: the sniffed extension is either empty or an extension that the
    library guessed and whose lowercase form is on the allow-list; in the
    second case it is a dot followed by what the create call sends as
    [original_extension], which then is not empty and does not start with a
    dot. *)
Theorem valid_extension_shape (w : World) (p : string) :
  let ext := _get_valid_extension w p supported_extensions in
  let original := Py.lstrip "." ext in
  (ext = EmptyString /\ original = EmptyString)
  \/ (guess_extension w (magic_from_file w p) = Some ext
      /\ In (Py.lower ext) supported_extensions
      /\ ext = String "." original
      /\ original <> EmptyString
      /\ Py.startswith original "." = false).
Proof.
  cbv zeta. unfold _get_valid_extension.
  destruct (guess_extension w (magic_from_file w p)) as [ext|]; [|now left].
  destruct (String.eqb ext EmptyString) eqn:Ee; [now left|].
  destruct (mem_string (Py.lower ext) supported_extensions) eqn:Hm; [|now left].
  right. cbn [negb andb]. apply mem_string_In in Hm.
  split; [reflexivity|]. split; [exact Hm|].
  pose proof supported_extensions_dotted as Hd.
  rewrite forallb_forall in Hd. specialize (Hd _ Hm).
  destruct ext as [|c [|c' r]]; try discriminate Hd.
  cbn [Py.lower] in Hd. rewrite !lower_ascii_dot in Hd.
  apply andb_prop in Hd. destruct Hd as [Hc Hc'].
  apply Ascii.eqb_eq in Hc. subst c.
  apply negb_true_iff in Hc'.
  rewrite !lstrip_cons, Ascii.eqb_refl, Hc'.
  split; [reflexivity|]. split; [discriminate|].
  unfold Py.startswith. cbn [Py.string_prefix].
  rewrite Ascii.eqb_sym, Hc'. reflexivity.
Qed.

(** ** Directory uploads, again *)

Lemma rfind_from_absent (c : ascii) (s : string) :
  forall i acc : Z, Py.contains c s = false -> Py.rfind_from c s i acc = acc.
Proof.
  induction s as [|a s IH]; intros i acc; cbn; [reflexivity|].
  destruct (Ascii.eqb a c); [discriminate|]. apply IH.
Qed.

Lemma rfind_from_lower_bound (c : ascii) (s : string) :
  forall i acc : Z, acc <= i -> acc <= Py.rfind_from c s i acc.
Proof.
  induction s as [|a s IH]; intros i acc Hi; cbn; [lia|].
  destruct (Ascii.eqb a c).
  - etransitivity; [exact Hi|]. apply IH. lia.
  - apply IH. lia.
Qed.

Lemma splitext_no_dot (p : string) :
  Py.contains "." p = false -> Py.splitext p = (p, EmptyString).
Proof.
  intros Hdot. unfold Py.splitext, Py.rfind.
  rewrite (rfind_from_absent "." p 0 (-1) Hdot).
  pose proof (rfind_from_lower_bound "/" p 0 (-1) ltac:(lia)) as Hsep.
  destruct (-1 >? Py.rfind_from "/" p 0 (-1)) eqn:E; [lia|reflexivity].
Qed.

(** X7: a path without any dot has no extension, and a file with such a
    path is never uploaded. *)
Theorem dotless_paths_skipped (w : World) (path p : string) :
  Py.contains "." p = false ->
  Py.splitext p = (p, EmptyString) /\ ~ In p (path_list w path).
Proof.
  intros Hdot. pose proof (splitext_no_dot p Hdot) as Hs.
  split; [exact Hs|]. unfold path_list. rewrite filter_In, Hs.
  intros [_ H]. discriminate H.
Qed.

(** X8: when no file of the tree has a supported extension, the empty
    tree included, no request is made and the empty list is returned,
    whatever the failure policy and the size of the groups. *)
Theorem upload_directory_nothing_to_upload (w : World) (srv : Server)
    (BULK_LIMIT : nat) (path : string) (he : bool) (kwargs : gmap string pyval)
    (tr : list event) :
  path_list w path = [] ->
  upload_directory w srv BULK_LIMIT path he kwargs tr = (tr, Return [])
  /\ (os_walk w path = [] -> path_list w path = []).
Proof.
  intros Hnone. split.
  - unfold upload_directory. rewrite Hnone. unfold grouper.
    destruct BULK_LIMIT; reflexivity.
  - intros Hwalk. unfold path_list, _collect_files. now rewrite Hwalk.
Qed.

(** X9: in either mode, a run that returns hands back exactly the records
    of its create responses, in the order of the calls, and has made the
    create call of every group; in fail-fast mode no request of such a run
    has failed. *)
Theorem returned_records (w : World) (srv : Server) (BULK_LIMIT : nat)
    (path : string) (he : bool) (kwargs : gmap string pyval)
    (returned : list Document) :
  snd (upload_directory w srv BULK_LIMIT path he kwargs []) = Return returned ->
  let tr := fst (upload_directory w srv BULK_LIMIT path he kwargs []) in
  returned = map Document_ (created_in tr)
  /\ create_bodies tr
     = map (group_documents w (upload_params kwargs))
           (grouper (path_list w path) BULK_LIMIT)
  /\ (he = false -> clean tr).
Proof.
  destruct (upload_directory_run w srv BULK_LIMIT path he kwargs)
    as [(runs & Hruns & Hps & Hrun)|(seg & e & k & _ & _ & _ & Hrun)];
    rewrite Hrun; cbn [fst snd]; [|discriminate].
  intros [= <-]. destruct (runs_of_trace w _ _ _ Hruns) as [Hb Hc].
  rewrite Hb, Hc. repeat split. intros ->. now apply passed_clean.
Qed.

(** X10: every dictionary of a create call carries the shared parameters
    unchanged, save the two set per file: for a key other than [title] and
    [original_extension] its value is that of the parameters, and the
    [original_extension] is the sniffed one even when the caller gave
    another. Through the upload parameters, an allowed keyword of the
    caller (other than those two and [projects]) reaches every document as
    given. *)
Theorem shared_parameters (w : World) (params kwargs : gmap string pyval)
    (file_paths : list string) :
  (forall k : string,
      k <> "title" -> k <> "original_extension" ->
      map (fun d : gmap string pyval => d !! k) (documents_of w params file_paths)
      = map (fun _ => params !! k) file_paths)
  /\ (forall k : string,
        In k allowed_parameters ->
        k <> "title" -> k <> "original_extension" -> k <> "projects" ->
        map (fun d : gmap string pyval => d !! k)
            (documents_of w (upload_params kwargs) file_paths)
        = map (fun _ => kwargs !! k) file_paths)
  /\ (forall v : pyval,
        map (fun d : gmap string pyval => d !! "original_extension")
            (documents_of w (upload_params (<[ "original_extension" := v ]> kwargs))
               file_paths)
        = map (fun p => Some (PStr (Py.lstrip "."
                                      (_get_valid_extension w p supported_extensions))))
              file_paths).
Proof.
  assert (Hshared : forall (ps : gmap string pyval) (k : string),
             k <> "title" -> k <> "original_extension" ->
             map (fun d : gmap string pyval => d !! k) (documents_of w ps file_paths)
             = map (fun _ => ps !! k) file_paths).
  { intros ps k Ht Ho. unfold documents_of. rewrite map_map. apply map_ext.
    intros p. unfold merge_dicts. apply lookup_union_r.
    rewrite lookup_insert_ne by congruence. now rewrite lookup_singleton_ne. }
  split; [exact (Hshared params)|]. split.
  - intros k Hin Ht Ho Hp. rewrite Hshared by assumption.
    apply map_ext. intros _. unfold upload_params.
    rewrite _format_upload_parameters_lookup.
    apply mem_string_In in Hin. rewrite Hin.
    rewrite lookup_delete_ne by congruence.
    apply String.eqb_neq in Ht, Hp. rewrite Ht, Hp.
    now destruct (kwargs !! k).
  - intros v. apply documents_of_extensions.
Qed.
(** ** Laws of the accessor names *)

Section AccessorLaws.

Variable inherited : string -> option found.
Variable base_uri : string.
Variable netloc : string -> string.
Variable client_get session_get : string -> remote_exn + bytes.
Variable decode_utf8 : bytes -> option string.
Variable parse_json : bytes -> option json.

Abbreviation getattr :=
  (getattr inherited base_uri netloc client_get session_get decode_utf8 parse_json).
Abbreviation getattr_fuel :=
  (getattr_fuel inherited base_uri netloc client_get session_get decode_utf8 parse_json).
Abbreviation call_fuel :=
  (call_fuel base_uri netloc client_get session_get decode_utf8 parse_json).
Abbreviation call_attr :=
  (call_attr inherited base_uri netloc client_get session_get decode_utf8 parse_json).
Abbreviation _get_url := (_get_url base_uri netloc client_get session_get decode_utf8 parse_json).
Abbreviation normal_getattr := (normal_getattr inherited).

(** Calling a value resolved at depth two or three gives the same. *)
Lemma call_fuel_levels (d : Document) (x : string) (v : value) :
  Py.startswith x "get_" = true ->
  getattr_fuel 2 d x = Return v ->
  call_fuel 3 (getattr_fuel 2 d) d v = call_fuel 3 (getattr_fuel 3 d) d v.
Proof.
  intros Hg Hv.
  destruct v as [| | | | | | |[m|t f|size|size]| |];
    try (apply call_fuel_direct; exact I).
  destruct (getattr_fuel_get base_uri netloc client_get session_get decode_utf8
              parse_json inherited inherited d x 0 1 Hg eq_refl eq_refl) as [_ Hlam].
  rewrite (Hlam t f Hv). rewrite !call_fuel_lambda.
  destruct (getattr_fuel_both base_uri netloc client_get session_get decode_utf8
              parse_json inherited inherited d (x ++ "_url") 1 2
              (startswith_app _ _ _ Hg) (endswith_app _ _) eq_refl) as [Heq Hdir].
  rewrite <- Heq.
  destruct (getattr_fuel 2 d (x ++ "_url")) as [e|v] eqn:Hv2; [reflexivity|].
  cbn [rbind].
  rewrite (call_fuel_direct base_uri netloc client_get session_get decode_utf8
             parse_json 2 2 (getattr_fuel 2 d) (getattr_fuel 3 d) d v);
    [reflexivity|].
  now apply Hdir.
Qed.

(** X11: dropping [get_] makes a property of a method: for a name that is
    no attribute of its own and does not start with [get_], when the name
    with [get_] in front resolves, reading the name is calling that
    without arguments. *)
Theorem property_is_method_call (d : Document) (x : string) (v : value) :
  normal_getattr d x = None ->
  Py.startswith x "get_" = false ->
  getattr d ("get_" ++ x) = Return v ->
  getattr d x = call_attr d ("get_" ++ x).
Proof.
  intros Hn Hg Hv. unfold call_attr. rewrite Hv. cbn [rbind].
  rewrite getattr_unfold in *. rewrite getattr_fuel_S, Hn.
  unfold __getattr__body. rewrite Hg. cbn [negb].
  destruct (getattr_fuel_get base_uri netloc client_get session_get decode_utf8
              parse_json inherited inherited d ("get_" ++ x) 0 1 eq_refl eq_refl eq_refl)
    as [Heq _].
  unfold hasattr_with. rewrite Heq, Hv. cbn [rbind Return].
  rewrite <- Heq in Hv. now apply (call_fuel_levels d ("get_" ++ x)).
Qed.

(** *** Lookups end *)

Lemma outcome_settles (name : string) (c : called) :
  out_of_depth (outcome name c) = false.
Proof. now destruct c as [|[s|]| |]. Qed.

Lemma normal_getattr_settles (d : Document) (x : string) (r : result value) :
  normal_getattr d x = Some r -> out_of_depth r = false.
Proof.
  unfold normal_getattr.
  destruct (url_method_of_name x); [intros [= <-]; reflexivity|].
  repeat match goal with
         | |- context [if ?b then _ else _] => destruct b
         | |- context [match highlights d with _ => _ end] =>
             destruct (highlights d) as [[?|]|]
         | |- context [match inherited x with _ => _ end] =>
             destruct (inherited x) as [[?|?]|]
         end;
    intros [= <-] || discriminate; reflexivity.
Qed.

Lemma call_fuel_settles (k : nat) (ga : string -> result value) (d : Document)
    (v : value) :
  direct v -> out_of_depth (call_fuel k ga d v) = false.
Proof.
  intros Hd.
  destruct v as [| | | | | | |[m|t f|size|size]| |name c]; try contradiction;
    destruct k; try reflexivity.
  all: try apply outcome_settles.
  all: try (destruct m; try reflexivity; cbn [call_fuel call_url_method];
            rewrite get_image_url_list_total; reflexivity).
  all: cbn [call_fuel]; rewrite get_image_url_list_total; reflexivity.
Qed.

Lemma _get_url_settles (url : string) (fmt : option Fmt) :
  out_of_depth (_get_url url fmt) = false.
Proof.
  unfold _get_url.
  destruct (_get_url_response base_uri netloc client_get session_get url) as [e|body];
    [reflexivity|].
  destruct fmt as [[|]|]; [| |reflexivity].
  - now destruct (decode_utf8 body).
  - now destruct (parse_json body).
Qed.

Lemma hasattr_with_settles (ga : string -> result value) (y : string) :
  out_of_depth (ga y) = false -> out_of_depth (hasattr_with ga y) = false.
Proof. unfold hasattr_with. now destruct (ga y) as [[]|]. Qed.

Lemma getattr_both_settles (d : Document) (x : string) (n : nat) :
  Py.startswith x "get_" = true ->
  Py.endswith x "_url" = true ->
  out_of_depth (getattr_fuel (S n) d x) = false.
Proof.
  intros Hg Hu. rewrite getattr_fuel_S.
  destruct (normal_getattr d x) eqn:Hn; [now apply (normal_getattr_settles d x)|].
  unfold __getattr__body. rewrite Hg, Hu. cbn [negb rbind Return].
  now destruct (p_image_match x) as [[size [|]]|].
Qed.

Lemma getattr_get_settles (d : Document) (x : string) (n : nat) :
  Py.startswith x "get_" = true ->
  out_of_depth (getattr_fuel (S (S n)) d x) = false.
Proof.
  intros Hg. destruct (Py.endswith x "_url") eqn:Hu.
  { now apply getattr_both_settles. }
  rewrite getattr_fuel_S.
  destruct (normal_getattr d x) eqn:Hn; [now apply (normal_getattr_settles d x)|].
  unfold __getattr__body. rewrite Hg, Hu. cbn [negb rbind Return].
  pose proof (hasattr_with_settles (getattr_fuel (S n) d) (x ++ "_url")
                (getattr_both_settles d (x ++ "_url") n
                   (startswith_app _ _ _ Hg) (endswith_app _ _))) as Hh.
  destruct (hasattr_with (getattr_fuel (S n) d) (x ++ "_url")) as [e|[|]];
    cbn [rbind Return]; [exact Hh|reflexivity|].
  now destruct (p_image_match x) as [[size [|]]|].
Qed.

Lemma getattr_url_settles (d : Document) (x : string) (n : nat) :
  Py.endswith x "_url" = true ->
  out_of_depth (getattr_fuel (S (S n)) d x) = false.
Proof.
  intros Hu. destruct (Py.startswith x "get_") eqn:Hg.
  { now apply getattr_both_settles. }
  rewrite getattr_fuel_S.
  destruct (normal_getattr d x) eqn:Hn; [now apply (normal_getattr_settles d x)|].
  unfold __getattr__body. rewrite Hg, Hu. cbn [negb rbind Return].
  pose proof (getattr_both_settles d ("get_" ++ x) n eq_refl
                (endswith_prepend "get_" _ _ Hu)) as Hb.
  pose proof (hasattr_with_settles (getattr_fuel (S n) d) ("get_" ++ x) Hb) as Hh.
  destruct (getattr_fuel_both base_uri netloc client_get session_get decode_utf8
              parse_json inherited inherited d ("get_" ++ x) n n eq_refl
              (endswith_prepend "get_" _ _ Hu) eq_refl) as [_ Hdir].
  destruct (hasattr_with (getattr_fuel (S n) d) ("get_" ++ x)) as [e|[|]];
    cbn [rbind Return]; [exact Hh| |].
  - destruct (getattr_fuel (S n) d ("get_" ++ x)) as [e|v]; cbn [rbind]; [exact Hb|].
    apply call_fuel_settles. now apply Hdir.
  - now destruct (p_image_match x) as [[size [|]]|].
Qed.

(** X15: the lookup of any name ends: three nested lookups are the most
    it takes, so that a deeper bound gives the same answer and the answer
    is never that the depth ran out. *)
Theorem attribute_lookup_terminates (d : Document) (x : string) :
  (forall n : nat, (3 <= n)%nat -> getattr_fuel n d x = getattr d x)
  /\ out_of_depth (getattr d x) = false.
Proof.
  split; [intros n Hn; now apply getattr_fuel_stable|].
  rewrite getattr_unfold.
  destruct (Py.startswith x "get_") eqn:Hg.
  { now apply getattr_get_settles. }
  destruct (Py.endswith x "_url") eqn:Hu.
  { now apply getattr_url_settles. }
  rewrite getattr_fuel_S.
  destruct (normal_getattr d x) eqn:Hn; [now apply (normal_getattr_settles d x)|].
  unfold __getattr__body. rewrite Hg, Hu. cbn [negb rbind Return].
  pose proof (getattr_get_settles d ("get_" ++ x) 0 eq_refl) as Hgs.
  pose proof (hasattr_with_settles (getattr_fuel 2 d) ("get_" ++ x) Hgs) as Hh1.
  pose proof (hasattr_with_settles (getattr_fuel 2 d) (x ++ "_url")
                (getattr_url_settles d (x ++ "_url") 0 (endswith_app _ _))) as Hh2.
  destruct (hasattr_with (getattr_fuel 2 d) ("get_" ++ x)) as [e|[|]];
    cbn [rbind Return]; [exact Hh1| |].
  - destruct (getattr_fuel 2 d ("get_" ++ x)) as [e|v] eqn:Hv; cbn [rbind];
      [exact Hgs|].
    destruct v as [| | | | | | |[m|t f|size|size]| |];
      try (apply call_fuel_settles; exact I).
    destruct (getattr_fuel_get base_uri netloc client_get session_get decode_utf8
                parse_json inherited inherited d ("get_" ++ x) 0 0 eq_refl eq_refl eq_refl)
      as [_ Hlam].
    rewrite (Hlam t f Hv), call_fuel_lambda.
    pose proof (getattr_both_settles d (("get_" ++ x) ++ "_url") 1 eq_refl
                  (endswith_app _ _)) as Hb.
    destruct (getattr_fuel_both base_uri netloc client_get session_get decode_utf8
                parse_json inherited inherited d (("get_" ++ x) ++ "_url") 1 1 eq_refl
                (endswith_app _ _) eq_refl) as [_ Hdir].
    destruct (getattr_fuel 2 d (("get_" ++ x) ++ "_url")) as [e|v]; cbn [rbind];
      [exact Hb|].
    pose proof (call_fuel_settles 2 (getattr_fuel 2 d) d v (Hdir v eq_refl)) as Hc.
    destruct (call_fuel 2 (getattr_fuel 2 d) d v) as [e|u]; cbn [rbind]; [exact Hc|].
    destruct u; try reflexivity. apply _get_url_settles.
  - destruct (hasattr_with (getattr_fuel 2 d) (x ++ "_url")) as [e|[|]];
      cbn [rbind Return]; [exact Hh2|reflexivity|].
    now destruct (p_image_match x) as [[size [|]]|].
Qed.

End AccessorLaws.

(** *** The accessors of a document without other attributes *)

Section ClosedAccessors.

Variable base_uri : string.
Variable netloc : string -> string.
Variable client_get session_get : string -> remote_exn + bytes.
Variable decode_utf8 : bytes -> option string.
Variable parse_json : bytes -> option json.

Abbreviation getattr :=
  (getattr no_inherited base_uri netloc client_get session_get decode_utf8 parse_json).
Abbreviation call_attr :=
  (call_attr no_inherited base_uri netloc client_get session_get decode_utf8 parse_json).
Abbreviation _get_url := (_get_url base_uri netloc client_get session_get decode_utf8 parse_json).

(** X12: what each content accessor fetches and how it decodes it, read
    as a property or called as a method: the full text and the text of
    page 1 as text, the JSON text and the position metadata of page 1 as
    JSON, the PDF as raw bytes. *)
Theorem content_accessors (d : Document) :
  (getattr d "full_text"
   = _get_url (asset_url d ++ "documents/" ++ Py.str_int (id d) ++ "/" ++ slug d ++ ".txt")
       (Some FmtText)
   /\ call_attr d "get_full_text" = getattr d "full_text")
  /\ (getattr d "page_text"
      = _get_url (asset_url d ++ "documents/" ++ Py.str_int (id d) ++ "/pages/" ++ slug d
                  ++ "-p" ++ Py.str_int 1 ++ ".txt") (Some FmtText)
      /\ call_attr d "get_page_text" = getattr d "page_text")
  /\ (getattr d "json_text"
      = _get_url (asset_url d ++ "documents/" ++ Py.str_int (id d) ++ "/" ++ slug d
                  ++ ".txt.json") (Some FmtJson)
      /\ call_attr d "get_json_text" = getattr d "json_text")
  /\ (getattr d "page_position_json"
      = _get_url (asset_url d ++ "documents/" ++ Py.str_int (id d) ++ "/pages/" ++ slug d
                  ++ "-p" ++ Py.str_int 1 ++ ".position.json") (Some FmtJson)
      /\ call_attr d "get_page_position_json" = getattr d "page_position_json")
  /\ (getattr d "pdf"
      = _get_url (asset_url d ++ "documents/" ++ Py.str_int (id d) ++ "/" ++ slug d ++ ".pdf")
          None
      /\ call_attr d "get_pdf" = getattr d "pdf").
Proof. repeat split; reflexivity. Qed.

(** X13: the image accessors of each size: the URL accessor gives the image
    URL of page 1, as a property or through the method; the content
    accessor fetches that URL as raw bytes; without a size the accessors
    are those of size [normal]. *)
Theorem image_accessors (d : Document) (size : string) :
  In size image_sizes ->
  getattr d (size ++ "_image_url") = Return (VStr (image_url_string d 1 size))
  /\ getattr d ("get_" ++ size ++ "_image_url") = Return (VCallable (PartialImageUrl size))
  /\ call_attr d ("get_" ++ size ++ "_image_url")
     = Return (VStr (image_url_string d 1 size))
  /\ getattr d (size ++ "_image") = _get_url (image_url_string d 1 size) None
  /\ call_attr d ("get_" ++ size ++ "_image") = getattr d (size ++ "_image")
  /\ getattr d "image_url" = getattr d "normal_image_url"
  /\ getattr d "image" = getattr d "normal_image"
  /\ getattr d "image_url_list" = getattr d "normal_image_url_list".
Proof.
  unfold image_sizes. cbn [In].
  intros [<-|[<-|[<-|[<-|[]]]]]; repeat split; reflexivity.
Qed.

(** X14: a document without pages has no image URLs: for a page count of
    zero (or below) the list of image URLs is empty, through the method and
    through the accessor of each size. *)
Theorem no_pages_no_images (d : Document) (size : string) :
  page_count d <= 0 ->
  get_image_url_list d size = Return []
  /\ (In size image_sizes ->
      getattr d (size ++ "_image_url_list") = Return (VStrList [])).
Proof.
  intros Hpc.
  assert (Hlist : get_image_url_list d size = Return []).
  { rewrite get_image_url_list_total. unfold Py.range.
    replace (Z.to_nat (page_count d + 1 - 1)) with 0%nat by lia. reflexivity. }
  split; [exact Hlist|]. intros Hsize.
  rewrite (image_url_list_resolves base_uri netloc client_get session_get
             decode_utf8 parse_json d size Hsize).
  now rewrite Hlist.
Qed.

End ClosedAccessors.

(** *** What a lookup depends on *)

(** X25: the lookup of a name depends on the other attributes of the
    document only through the name itself and the three names derived from
    it: two documents that differ in their other attributes, but not at
    these four names, look the name up alike. In particular a document
    whose other attributes bear none of the four names looks it up as a
    document without other attributes does. *)
Theorem lookup_is_local (inh inh' : string -> option found) (base_uri : string)
    (netloc : string -> string) (client_get session_get : string -> remote_exn + bytes)
    (decode_utf8 : bytes -> option string) (parse_json : bytes -> option json)
    (d : Document) (x : string) :
  (forall y : string, In y (derived_names x) -> inh y = inh' y) ->
  getattr inh base_uri netloc client_get session_get decode_utf8 parse_json d x
  = getattr inh' base_uri netloc client_get session_get decode_utf8 parse_json d x.
Proof.
  intros H. apply getattr_local. intros y Hy.
  unfold normal_getattr. now rewrite (H y Hy).
Qed.

(** ** Mentions and searches *)

(** X16: the mentions of a document carry the snippets of its highlights
    unchanged and in order, one mention per snippet (a page without
    snippets gives none); a page label that does not start with [page_no_]
    is kept as it is, and the prefix is removed once only. *)
Theorem mentions_snippets (inherited : string -> option found)
    (base_uri : string) (netloc : string -> string)
    (client_get session_get : string -> remote_exn + bytes)
    (decode_utf8 : bytes -> option string) (parse_json : bytes -> option json)
    (a : string) (i : Z) (s : string) (pc : Z) (items : list (string * list string)) :
  (exists ms : list Mention,
      mentions inherited base_uri netloc client_get session_get decode_utf8 parse_json
        (mkDocument a i s pc (Some (Some items))) = Return ms
      /\ map text ms = concat (map snd items)
      /\ length ms = length (concat (map snd items)))
  /\ (forall label t : string,
        Py.startswith label "page_no_" = false ->
        Mention__init__ label t = mkMention label t)
  /\ (forall label t : string,
        Mention__init__ ("page_no_page_no_" ++ label) t
        = mkMention ("page_no_" ++ label) t).
Proof.
  split; [|split].
  - exists (flat_map (fun pt => map (Mention__init__ (fst pt)) (snd pt)) items).
    split; [reflexivity|].
    assert (Htext : map text (flat_map (fun pt => map (Mention__init__ (fst pt)) (snd pt))
                                  items)
                    = concat (map snd items)).
    { induction items as [|[label ts] items IH]; [reflexivity|].
      cbn [flat_map map concat fst snd]. rewrite map_app, IH, map_map.
      f_equal. now rewrite map_id. }
    split; [exact Htext|]. now rewrite <- Htext, length_map.
  - intros label t H. unfold Mention__init__. now rewrite H.
  - intros label t. reflexivity.
Qed.

(** X17: the text of a mention built from a label with the [page_no_]
    prefix is the page number, a dash between spaces, and the snippet in
    double quotes. *)
Theorem mention_text (label t : string) (m : Mention) :
  Mention__str__ (Mention__init__ ("page_no_" ++ label) t)
  = Return (label ++ " - " ++ String dquote (t ++ String dquote EmptyString))
  /\ Mention__str__ m
     = Return (page m ++ " - " ++ String dquote (text m ++ String dquote EmptyString)).
Proof. split; reflexivity. Qed.

(** X18: the parameters a search sends: [mentions] travels as [hl] ([None]
    when it was not given, and in place of any [hl] of the caller),
    [mentions] and [data] are never sent, a query that is not empty is sent
    as [q] (in place of any [q] of the caller), and every other parameter
    goes through. *)
Theorem search_parameters (query : string) (params : gmap string pyval) :
  fst (search query params) = "documents/search/"
  /\ snd (search query params) !! "mentions" = None
  /\ snd (search query params) !! "data" = None
  /\ snd (search query params) !! "hl" = Some (default PNone (params !! "mentions"))
  /\ snd (search query params) !! "q"
     = (if String.eqb query EmptyString then params !! "q" else Some (PStr query))
  /\ (forall k : string,
        k <> "mentions" -> k <> "data" -> k <> "hl" -> k <> "q" ->
        snd (search query params) !! k = params !! k).
Proof.
  unfold search. cbn [fst snd].
  destruct (String.eqb query EmptyString); cbn [negb];
    repeat split; intros;
    repeat (rewrite lookup_insert_eq
            || rewrite lookup_delete_eq
            || (rewrite lookup_insert_ne by congruence)
            || (rewrite lookup_delete_ne by congruence));
    reflexivity.
Qed.

(** ** Related objects *)

Ltac distinct_names :=
  let E := fresh "E" in intros E; vm_compute in E; discriminate E.

Lemma nest_other (name : string) (resource : resource_kind)
    (dict_ : gmap string attr) (k : string) :
  k <> "_" ++ name -> k <> name ++ "_id" -> nest name resource dict_ !! k = dict_ !! k.
Proof.
  intros H1 H2. unfold nest.
  destruct (dict_ !! name) as [[[| | | |]| |]|]; try reflexivity;
    now rewrite !lookup_insert_ne by congruence.
Qed.

(** X19: what the constructor makes of a nested [user] (and, in the same
    way and independently, of a nested [organization]): from an embedded
    object, the related object under [_user] and its [id] under [user_id];
    from a bare number, [None] under [_user] and the number under
    [user_id]; from nothing or anything else, no change. No other key of
    the dictionary is touched. *)
Theorem init_nested_objects (dict_ : gmap string attr) :
  (forall value : gmap string pyval,
      dict_ !! "user" = Some (ADict value) ->
      Document__init__ dict_ !! "_user" = Some (AResource UserResource value)
      /\ Document__init__ dict_ !! "user_id"
         = Some (APlain (default PNone (value !! "id"))))
  /\ (forall z : Z,
        dict_ !! "user" = Some (APlain (PInt z)) ->
        Document__init__ dict_ !! "_user" = Some (APlain PNone)
        /\ Document__init__ dict_ !! "user_id" = Some (APlain (PInt z)))
  /\ (forall value : gmap string pyval,
        dict_ !! "organization" = Some (ADict value) ->
        Document__init__ dict_ !! "_organization"
        = Some (AResource OrganizationResource value)
        /\ Document__init__ dict_ !! "organization_id"
           = Some (APlain (default PNone (value !! "id"))))
  /\ (forall z : Z,
        dict_ !! "organization" = Some (APlain (PInt z)) ->
        Document__init__ dict_ !! "_organization" = Some (APlain PNone)
        /\ Document__init__ dict_ !! "organization_id" = Some (APlain (PInt z)))
  /\ (dict_ !! "user" = None \/ dict_ !! "user" = Some (APlain PNone) ->
      Document__init__ dict_ !! "_user" = dict_ !! "_user"
      /\ Document__init__ dict_ !! "user_id" = dict_ !! "user_id")
  /\ (forall k : string,
        k <> "_user" -> k <> "user_id" ->
        k <> "_organization" -> k <> "organization_id" ->
        Document__init__ dict_ !! k = dict_ !! k).
Proof.
  unfold Document__init__.
  split; [|split; [|split; [|split; [|split]]]].
  - intros value H. split.
    + rewrite nest_other by distinct_names. unfold nest. rewrite H.
      rewrite lookup_insert_ne by distinct_names. apply lookup_insert_eq.
    + rewrite nest_other by distinct_names. unfold nest. rewrite H.
      apply lookup_insert_eq.
  - intros z H. split.
    + rewrite nest_other by distinct_names. unfold nest. rewrite H.
      rewrite lookup_insert_ne by distinct_names. apply lookup_insert_eq.
    + rewrite nest_other by distinct_names. unfold nest. rewrite H.
      apply lookup_insert_eq.
  - intros value H.
    assert (H' : nest "user" UserResource dict_ !! "organization" = Some (ADict value))
      by (now rewrite nest_other by distinct_names).
    split; unfold nest at 1; rewrite H'.
    + rewrite lookup_insert_ne by distinct_names. apply lookup_insert_eq.
    + apply lookup_insert_eq.
  - intros z H.
    assert (H' : nest "user" UserResource dict_ !! "organization"
                 = Some (APlain (PInt z)))
      by (now rewrite nest_other by distinct_names).
    split; unfold nest at 1; rewrite H'.
    + rewrite lookup_insert_ne by distinct_names. apply lookup_insert_eq.
    + apply lookup_insert_eq.
  - intros H. split; rewrite nest_other by distinct_names;
      unfold nest; destruct H as [H|H]; now rewrite H.
  - intros k H1 H2 H3 H4. now rewrite !nest_other by assumption.
Qed.

Section RelatedProperties.

Variable fetch : resource_kind -> attr -> result (gmap string pyval).

Abbreviation user := (user fetch).
Abbreviation organization := (organization fetch).
Abbreviation contributor := (contributor fetch).
Abbreviation contributor_organization := (contributor_organization fetch).
Abbreviation contributor_organization_slug := (contributor_organization_slug fetch).

(** X20: the [user] property asks the service at most once. When the user
    came embedded, nothing is asked. When only its id is known, the first
    read asks for it and keeps the answer, and a second read returns the
    same object without asking; an exception of the service is raised and
    nothing is kept, so that the next read asks again. A document without
    [_user] raises [AttributeError]. *)
Theorem user_is_fetched_once (self : gmap string attr)
    (asked : list (resource_kind * attr)) :
  (forall (r : resource_kind) (value : gmap string pyval),
      self !! "_user" = Some (AResource r value) ->
      user (self, asked) = ((self, asked), Return (AResource r value)))
  /\ (forall (ident : attr) (value : gmap string pyval),
        self !! "_user" = Some (APlain PNone) ->
        self !! "user_id" = Some ident ->
        fetch UserResource ident = inr value ->
        let obj := AResource UserResource value in
        let st1 := (<[ "_user" := obj ]> self,
                    (asked ++ [(UserResource, ident)])%list) in
        user (self, asked) = (st1, Return obj)
        /\ user st1 = (st1, Return obj))
  /\ (forall (ident : attr) (e : exn),
        self !! "_user" = Some (APlain PNone) ->
        self !! "user_id" = Some ident ->
        fetch UserResource ident = inl e ->
        user (self, asked)
        = ((self, (asked ++ [(UserResource, ident)])%list),
           property_fallback "user" (Raise e)))
  /\ (self !! "_user" = None ->
      user (self, asked) = ((self, asked), Raise (no_attribute "user"))).
Proof.
  split; [|split; [|split]].
  - intros r value H. unfold user, related.
    change ("_" ++ "user") with "_user". now rewrite H.
  - intros ident value Hu Hid Hf obj st1. split.
    + unfold user, related.
      change ("_" ++ "user") with "_user". change ("user" ++ "_id") with "user_id".
      now rewrite Hu, Hid, Hf.
    + unfold st1, user, related.
      change ("_" ++ "user") with "_user".
      now rewrite lookup_insert_eq.
  - intros ident e Hu Hid Hf. unfold user, related.
    change ("_" ++ "user") with "_user". change ("user" ++ "_id") with "user_id".
    now rewrite Hu, Hid, Hf.
  - intros H. unfold user, related.
    change ("_" ++ "user") with "_user". now rewrite H.
Qed.

(** X21: how the constructor and the properties compose. A document built
    from JSON with an embedded user gives its contributor without asking
    the service; built with a bare user id, it asks once for that id. The
    two organization properties share one answer: after
    [contributor_organization] has asked, [contributor_organization_slug]
    does not ask again. *)
Theorem contributor_requests (dict_ : gmap string attr)
    (asked : list (resource_kind * attr)) :
  (forall (value : gmap string pyval) (name : pyval),
      dict_ !! "user" = Some (ADict value) ->
      value !! "name" = Some name ->
      contributor (Document__init__ dict_, asked)
      = ((Document__init__ dict_, asked), Return name))
  /\ (forall (z : Z) (value : gmap string pyval) (name : pyval),
        dict_ !! "user" = Some (APlain (PInt z)) ->
        fetch UserResource (APlain (PInt z)) = inr value ->
        value !! "name" = Some name ->
        contributor (Document__init__ dict_, asked)
        = ((<[ "_user" := AResource UserResource value ]> (Document__init__ dict_),
            (asked ++ [(UserResource, APlain (PInt z))])%list),
           Return name))
  /\ (forall (z : Z) (value : gmap string pyval) (name slug : pyval),
        dict_ !! "organization" = Some (APlain (PInt z)) ->
        fetch OrganizationResource (APlain (PInt z)) = inr value ->
        value !! "name" = Some name ->
        value !! "slug" = Some slug ->
        let st1 := (<[ "_organization" := AResource OrganizationResource value ]>
                      (Document__init__ dict_),
                    (asked ++ [(OrganizationResource, APlain (PInt z))])%list) in
        contributor_organization (Document__init__ dict_, asked) = (st1, Return name)
        /\ contributor_organization_slug st1 = (st1, Return slug)).
Proof.
  split; [|split].
  - intros value name Hu Hn.
    assert (H : Document__init__ dict_ !! "_user" = Some (AResource UserResource value)).
    { unfold Document__init__. rewrite nest_other by distinct_names.
      unfold nest. rewrite Hu.
      rewrite lookup_insert_ne by distinct_names. apply lookup_insert_eq. }
    unfold contributor, user, related.
    change ("_" ++ "user") with "_user". rewrite H. cbn. now rewrite Hn.
  - intros z value name Hu Hf Hn.
    assert (H : Document__init__ dict_ !! "_user" = Some (APlain PNone)
                /\ Document__init__ dict_ !! "user_id" = Some (APlain (PInt z))).
    { unfold Document__init__.
      split; rewrite nest_other by distinct_names; unfold nest; rewrite Hu.
      - rewrite lookup_insert_ne by distinct_names. apply lookup_insert_eq.
      - apply lookup_insert_eq. }
    destruct H as [H1 H2].
    unfold contributor, user, related.
    change ("_" ++ "user") with "_user". change ("user" ++ "_id") with "user_id".
    rewrite H1, H2, Hf. cbn. now rewrite Hn.
  - intros z value name slug Ho Hf Hn Hs st1.
    assert (H : Document__init__ dict_ !! "_organization" = Some (APlain PNone)
                /\ Document__init__ dict_ !! "organization_id"
                   = Some (APlain (PInt z))).
    { unfold Document__init__.
      assert (H' : nest "user" UserResource dict_ !! "organization"
                   = Some (APlain (PInt z)))
        by (now rewrite nest_other by distinct_names).
      split; unfold nest at 1; rewrite H'.
      - rewrite lookup_insert_ne by distinct_names. apply lookup_insert_eq.
      - apply lookup_insert_eq. }
    destruct H as [H1 H2]. split.
    + unfold contributor_organization, organization, related.
      change ("_" ++ "organization") with "_organization".
      change ("organization" ++ "_id") with "organization_id".
      rewrite H1, H2, Hf. cbn. now rewrite Hn.
    + unfold st1, contributor_organization_slug, organization, related.
      change ("_" ++ "organization") with "_organization".
      rewrite lookup_insert_eq. cbn. now rewrite Hs.
Qed.

End RelatedProperties.

(** ** The directory of names *)

Lemma insert_sorted_In (x y : string) (l : list string) :
  In y (insert_sorted x l) <-> y = x \/ In y l.
Proof.
  induction l as [|z l IH]; cbn; [intuition|].
  destruct (String.leb x z); cbn; [intuition|].
  rewrite IH. intuition.
Qed.

Lemma sorted_In (y : string) (l : list string) : In y (sorted l) <-> In y l.
Proof.
  induction l as [|x l IH]; cbn; [reflexivity|].
  rewrite insert_sorted_In, IH. intuition.
Qed.

Lemma insert_sorted_ordered (x : string) (l : list string) :
  Sorted.Sorted (fun a b => String.leb a b = true) l ->
  Sorted.Sorted (fun a b => String.leb a b = true) (insert_sorted x l).
Proof.
  induction 1 as [|z l Hs IH Hd]; cbn; [repeat constructor|].
  destruct (String.leb x z) eqn:E.
  - constructor; [now constructor|]. now constructor.
  - constructor; [exact IH|].
    destruct (String.leb_total x z) as [H|H]; [congruence|].
    destruct Hd as [|w l Hw]; cbn; [now constructor|].
    destruct (String.leb x w); now constructor.
Qed.

Lemma sorted_ordered (l : list string) :
  Sorted.Sorted (fun a b => String.leb a b = true) (sorted l).
Proof.
  induction l as [|x l IH]; cbn; [constructor|]. now apply insert_sorted_ordered.
Qed.

Lemma fold_sizes_In (y : string) (sizes : list string) :
  forall attrs : list string,
    In y (fold_left (fun attrs size => (attrs ++ image_accessor_names size)%list)
            sizes attrs)
    <-> In y attrs \/ exists size, In size sizes /\ In y (image_accessor_names size).
Proof.
  induction sizes as [|s sizes IH]; intros attrs; cbn [fold_left].
  - split; [now left|]. intros [H|[size [[] _]]]. exact H.
  - rewrite IH, in_app_iff. split.
    + intros [[H|H]|[size [Hs Hy]]].
      * now left.
      * right. exists s. split; [now left|exact H].
      * right. exists size. split; [now right|exact Hy].
    + intros [H|[size [[<-|Hs] Hy]]].
      * left. now left.
      * left. now right.
      * right. exists size. now split.
Qed.

Lemma dir_In (attrs : list string) (x : string) :
  In x (__dir__ attrs)
  <-> In x attrs
      \/ (exists g, In g attrs /\ Py.startswith g "get_" = true
                    /\ (x = Py.drop_chars 4 g
                        \/ Py.endswith g "url" = true
                           /\ (x = drop_url g \/ x = drop_get_url g)))
      \/ (exists size, In size image_sizes /\ In x (image_accessor_names size)).
Proof.
  unfold __dir__. rewrite sorted_In, fold_sizes_In, !in_app_iff.
  rewrite !in_map_iff. split.
  - intros [[[[H|(g & <- & Hg)]|(g & <- & Hg)]|(g & <- & Hg)]|H].
    all: try (now left).
    all: try (right; right; exact H).
    all: repeat (apply filter_In in Hg; destruct Hg as [Hg ?]);
      right; left; exists g; repeat split; auto.
  - intros [H|[(g & Hg & Hs & [->|[Hu [->| ->]]])|H]].
    + left. left. left. now left.
    + left. left. left. right. exists g. split; [reflexivity|].
      apply filter_In. now split.
    + left. left. right. exists g. split; [reflexivity|].
      apply filter_In. split; [|exact Hu]. apply filter_In. now split.
    + left. right. exists g. split; [reflexivity|].
      apply filter_In. split; [|exact Hu]. apply filter_In. now split.
    + now right.
Qed.

(** X22: the directory of a document is in ascending order and holds
    exactly: the names it was given; for each given name that starts with
    [get_], the name without that prefix and, when it ends with [url], the
    name without its last four characters and the name without both; and
    the six accessor names of each of the four sizes. *)
Theorem dir_names (attrs : list string) :
  Sorted.Sorted (fun a b => String.leb a b = true) (__dir__ attrs)
  /\ (forall x : string,
        In x (__dir__ attrs)
        <-> In x attrs
            \/ (exists g, In g attrs /\ Py.startswith g "get_" = true
                          /\ (x = Py.drop_chars 4 g
                              \/ Py.endswith g "url" = true
                                 /\ (x = drop_url g \/ x = drop_get_url g)))
            \/ (exists size, In size image_sizes /\ In x (image_accessor_names size))).
Proof.
  split; [apply sorted_ordered|]. intros x. apply dir_In.
Qed.

Section DirectoryAndLookup.

Variable base_uri : string.
Variable netloc : string -> string.
Variable client_get session_get : string -> remote_exn + bytes.
Variable decode_utf8 : bytes -> option string.
Variable parse_json : bytes -> option json.

Abbreviation getattr :=
  (getattr no_inherited base_uri netloc client_get session_get decode_utf8 parse_json).
Abbreviation _get_url := (_get_url base_uri netloc client_get session_get decode_utf8 parse_json).

Lemma _get_url_found (url : string) (fmt : option Fmt) :
  attribute_error (_get_url url fmt) = false.
Proof.
  unfold _get_url.
  destruct (_get_url_response base_uri netloc client_get session_get url) as [e|body];
    [reflexivity|].
  destruct fmt as [[|]|]; [| |reflexivity].
  - now destruct (decode_utf8 body).
  - now destruct (parse_json body).
Qed.

Lemma image_url_list_found (d : Document) (size : string) :
  attribute_error (let* l := get_image_url_list d size in Return (VStrList l)) = false.
Proof. rewrite get_image_url_list_total. reflexivity. Qed.

Ltac found :=
  first [ reflexivity
        | refine (_get_url_found _ _)
        | refine (image_url_list_found _ _) ].

Lemma getter_names_found (d : Document) (g : string) :
  In g url_method_names ->
  Py.startswith g "get_" = true
  /\ attribute_error (getattr d (Py.drop_chars 4 g)) = false
  /\ (Py.endswith g "url" = true ->
      attribute_error (getattr d (drop_url g)) = false
      /\ attribute_error (getattr d (drop_get_url g)) = false).
Proof.
  unfold url_method_names. cbn [In].
  intros H.
  repeat (destruct H as [<-|H];
          [split; [reflexivity|];
           split; [found|intros Hu; first [discriminate Hu|split; found]]|]).
  contradiction.
Qed.

Lemma image_accessor_names_found (d : Document) (size x : string) :
  In size image_sizes -> In x (image_accessor_names size) ->
  attribute_error (getattr d x) = false.
Proof.
  unfold image_sizes. cbn [In].
  intros Hs Hx.
  repeat (destruct Hs as [<-|Hs];
          [cbn [image_accessor_names In] in Hx;
           repeat (destruct Hx as [<-|Hx]; [found|]); contradiction|]).
  contradiction.
Qed.

(** X23: the directory and the lookup agree on the names that the
    directory adds. A name derived from one of the [get_] methods of the
    class body (without the prefix, without the last four characters of a
    name ending in [url], or without both), and an accessor name of one of
    the four sizes, is in the directory whatever the other attributes of
    the document are called, and reading it on a document without other
    attributes does not raise [AttributeError]. *)
Theorem dir_names_resolve (d : Document) (attrs : list string) (x : string) :
  (exists g, In g url_method_names
             /\ (x = Py.drop_chars 4 g
                 \/ Py.endswith g "url" = true
                    /\ (x = drop_url g \/ x = drop_get_url g)))
  \/ (exists size, In size image_sizes /\ In x (image_accessor_names size)) ->
  In x (__dir__ (url_method_names ++ attrs))
  /\ attribute_error (getattr d x) = false.
Proof.
  intros [(g & Hg & Hx)|(size & Hs & Hx)].
  - destruct (getter_names_found d g Hg) as (Hget & H1 & H2). split.
    + apply dir_In. right. left. exists g.
      split; [apply in_or_app; now left|]. split; [exact Hget|exact Hx].
    + destruct Hx as [->|[Hu [->| ->]]]; [exact H1| |]; now apply H2.
  - split.
    + apply dir_In. right. right. now exists size.
    + now apply (image_accessor_names_found d size).
Qed.

End DirectoryAndLookup.

(** ** Examples of the further properties *)

Lemma upload_parameters_only_allowed_witness :
  _format_upload_parameters "d/a.pdf" sample_kwargs !! "secure" = None
  /\ _format_upload_parameters "d/a.pdf" sample_kwargs !! "project" = None.
Proof.
  pose proof (upload_parameters_only_allowed "d/a.pdf" sample_kwargs) as (_ & _ & H).
  split; apply H; intros Hin; apply mem_string_In in Hin; discriminate Hin.
Defined.

Lemma upload_parameters_values_witness :
  _format_upload_parameters "d/a.pdf" sample_kwargs !! "access" = Some (PStr "public")
  /\ _format_upload_parameters "d/a.pdf" sample_kwargs !! "projects"
     = Some (PList [PInt 7]).
Proof.
  pose proof (upload_parameters_values "d/a.pdf" sample_kwargs) as (_ & Hp & H).
  split.
  - rewrite H; [reflexivity| |discriminate|discriminate].
    apply mem_string_In. reflexivity.
  - rewrite Hp. reflexivity.
Defined.

Lemma title_edge_cases_witness :
  _get_title ("home/ada" ++ "/." ++ "bashrc") = EmptyString.
Proof.
  pose proof title_edge_cases as (_ & _ & H).
  apply H; reflexivity.
Defined.

Lemma upload_url_single_request_witness :
  let url := "https://example.org/a.pdf" in
  let body := <[ "file_url" := PStr url ]> (_format_upload_parameters url ∅) in
  upload url_world rejecting_storage (PdfString url) ∅ []
  = ([mkEvent (PostDocument body)
        (inr (RespCreated (mkCreated "https://storage.example.org/target"
                             sample_document)))],
     Return sample_document).
Proof.
  pose proof (upload_url_single_request url_world rejecting_storage
                "https://example.org/a.pdf" ∅ [] eq_refl) as (H & _).
  exact H.
Defined.

(** The storage refuses the file, and the document is processed and
    returned all the same. *)
Lemma upload_file_sequence_witness :
  let params := _format_upload_parameters "d/a.pdf" ∅ in
  let c := mkCreated "https://storage.example.org/target" sample_document in
  _upload_file rejecting_storage "d/a.pdf" (list_byte_of_string "%PDF")
    (<[ "force_ocr" := PBool true ]> ∅) []
  = ([mkEvent (PostDocument params) (inr (RespCreated c));
      mkEvent (PutStorage "https://storage.example.org/target"
                 (list_byte_of_string "%PDF"))
              (inl (APIError 403 "Forbidden"));
      mkEvent (PostProcess 20071460 (PBool true)) (inr RespDone)],
     Return sample_document).
Proof.
  pose proof (upload_file_sequence rejecting_storage "d/a.pdf"
                (list_byte_of_string "%PDF") (<[ "force_ocr" := PBool true ]> ∅) [])
    as (_ & _ & H).
  pose proof (H (mkCreated "https://storage.example.org/target" sample_document)
                eq_refl) as (_ & Hstatus & _).
  exact (Hstatus 403 "Forbidden" eq_refl).
Defined.

Lemma dotless_paths_skipped_witness :
  Py.splitext "d/sub/README" = ("d/sub/README", EmptyString)
  /\ ~ In "d/sub/README" (path_list tree_world "d").
Proof.
  apply (dotless_paths_skipped tree_world "d" "d/sub/README"). reflexivity.
Defined.

Lemma upload_directory_nothing_to_upload_witness :
  upload_directory plain_world flaky_server 25 "d" false sample_kwargs []
  = ([], Return []).
Proof.
  pose proof (upload_directory_nothing_to_upload plain_world flaky_server 25 "d" false
                sample_kwargs [] eq_refl) as (H & _).
  exact H.
Defined.

Lemma returned_records_witness :
  exists returned : list Document,
    snd (upload_directory tree_world second_create_fails 3 "d" false ∅ [])
    = Return returned
    /\ returned
       = map Document_
           (created_in (fst (upload_directory tree_world second_create_fails 3 "d"
                               false ∅ [])))
    /\ length returned = 3%nat
    /\ clean (fst (upload_directory tree_world second_create_fails 3 "d" false ∅ [])).
Proof.
  destruct (snd (upload_directory tree_world second_create_fails 3 "d" false ∅ []))
    as [e|returned] eqn:E; [vm_compute in E; discriminate E|].
  exists returned. split; [reflexivity|].
  pose proof (returned_records tree_world second_create_fails 3 "d" false ∅ returned E)
    as (H1 & _ & H3).
  split; [exact H1|]. split; [|apply H3; reflexivity].
  vm_compute in E. injection E as <-. reflexivity.
Defined.

Lemma shared_parameters_witness :
  map (fun d : gmap string pyval => d !! "access")
      (documents_of tree_world (upload_params sample_kwargs) ["d/a.pdf"; "d/b.pdf"])
  = [Some (PStr "public"); Some (PStr "public")].
Proof.
  pose proof (shared_parameters tree_world ∅ sample_kwargs ["d/a.pdf"; "d/b.pdf"])
    as (_ & H & _).
  rewrite H; [reflexivity| |discriminate|discriminate|discriminate].
  apply mem_string_In. reflexivity.
Defined.

Lemma property_is_method_call_witness :
  sample_getattr sample_document "full_text_url"
  = Return (VStr "https://assets.example.org/documents/20071460/report.txt").
Proof.
  unfold sample_getattr.
  rewrite (property_is_method_call no_inherited "https://api.example.org/api/" sample_netloc
             sample_get sample_get (fun b => Some (string_of_list_byte b))
             (fun _ => None) sample_document "full_text_url"
             (VCallable (BoundMethod GetFullTextUrl)));
    reflexivity.
Defined.

Lemma image_accessors_witness :
  sample_getattr sample_document "large_image_url"
  = Return (VStr (image_url_string sample_document 1 "large"))
  /\ sample_getattr sample_document "large_image"
     = Return (VBytes (list_byte_of_string
                         ("body of " ++ image_url_string sample_document 1 "large"))).
Proof.
  pose proof (image_accessors "https://api.example.org/api/" sample_netloc
                sample_get sample_get (fun b => Some (string_of_list_byte b))
                (fun _ => None) sample_document "large") as H.
  destruct H as (H1 & _ & _ & H2 & _); [cbn; tauto|].
  split; [exact H1|]. etransitivity; [exact H2|reflexivity].
Defined.

Lemma no_pages_no_images_witness :
  get_image_url_list empty_document "small" = Return []
  /\ sample_getattr empty_document "small_image_url_list" = Return (VStrList []).
Proof.
  pose proof (no_pages_no_images "https://api.example.org/api/" sample_netloc
                sample_get sample_get (fun b => Some (string_of_list_byte b))
                (fun _ => None) empty_document "small") as H.
  destruct H as (H1 & H2); [cbn; lia|].
  split; [exact H1|]. apply H2. cbn. tauto.
Defined.

Lemma attribute_lookup_terminates_witness :
  getattr_fuel no_inherited "https://api.example.org/api/" sample_netloc sample_get
    sample_get (fun b => Some (string_of_list_byte b)) (fun _ => None) 7 sample_document
    "page_position_json"
  = sample_getattr sample_document "page_position_json".
Proof.
  pose proof (attribute_lookup_terminates no_inherited "https://api.example.org/api/"
                sample_netloc
                sample_get sample_get (fun b => Some (string_of_list_byte b))
                (fun _ => None) sample_document "page_position_json") as (H & _).
  apply H. lia.
Defined.

Lemma mentions_snippets_witness :
  Mention__init__ "cover" "a snippet" = mkMention "cover" "a snippet".
Proof.
  pose proof (mentions_snippets sample_inherited "https://api.example.org/api/"
                sample_netloc
                sample_get sample_get (fun b => Some (string_of_list_byte b))
                (fun _ => None) "https://assets.example.org/" 1 "report" 3 [])
    as (_ & H & _).
  apply H. reflexivity.
Defined.

Lemma search_parameters_witness :
  snd (search "report" (<[ "page" := PInt 2 ]> (<[ "mentions" := PBool true ]> ∅)))
    !! "page" = Some (PInt 2).
Proof.
  pose proof (search_parameters "report"
                (<[ "page" := PInt 2 ]> (<[ "mentions" := PBool true ]> ∅)))
    as (_ & _ & _ & _ & _ & H).
  rewrite H; [reflexivity|discriminate..].
Defined.

Lemma init_nested_objects_witness :
  (Document__init__ embedded_json !! "_user" = Some (AResource UserResource sample_user)
   /\ Document__init__ embedded_json !! "user_id" = Some (APlain (PInt 1020)))
  /\ (Document__init__ bare_json !! "_organization" = Some (APlain PNone)
      /\ Document__init__ bare_json !! "organization_id" = Some (APlain (PInt 7))).
Proof.
  pose proof (init_nested_objects embedded_json) as (He & _).
  pose proof (init_nested_objects bare_json) as (_ & _ & _ & Hb & _).
  split.
  - exact (He sample_user eq_refl).
  - exact (Hb 7 eq_refl).
Defined.

Lemma user_is_fetched_once_witness :
  let self : gmap string attr :=
    <[ "_user" := APlain PNone ]> (<[ "user_id" := APlain (PInt 1020) ]> ∅) in
  let obj := AResource UserResource sample_user in
  let st1 := (<[ "_user" := obj ]> self, [(UserResource, APlain (PInt 1020))]) in
  user sample_fetch (self, []) = (st1, Return obj)
  /\ user sample_fetch st1 = (st1, Return obj).
Proof.
  pose proof (user_is_fetched_once sample_fetch
                (<[ "_user" := APlain PNone ]> (<[ "user_id" := APlain (PInt 1020) ]> ∅))
                []) as (_ & H & _).
  exact (H (APlain (PInt 1020)) sample_user eq_refl eq_refl eq_refl).
Defined.

Lemma contributor_requests_witness :
  contributor sample_fetch (Document__init__ embedded_json, [])
  = ((Document__init__ embedded_json, []), Return (PStr "Ada"))
  /\ snd (contributor sample_fetch (Document__init__ bare_json, []))
     = Return (PStr "Ada")
  /\ snd (fst (contributor sample_fetch (Document__init__ bare_json, [])))
     = [(UserResource, APlain (PInt 1020))].
Proof.
  pose proof (contributor_requests sample_fetch embedded_json []) as (He & _).
  pose proof (contributor_requests sample_fetch bare_json []) as (_ & Hb & _).
  split; [exact (He sample_user (PStr "Ada") eq_refl eq_refl)|].
  rewrite (Hb 1020 sample_user (PStr "Ada") eq_refl eq_refl eq_refl).
  split; reflexivity.
Defined.

Lemma dir_names_witness :
  In "full_text" (__dir__ ["get_full_text_url"; "id"])
  /\ In "get_full_text" (__dir__ ["get_full_text_url"; "id"]).
Proof.
  pose proof (dir_names ["get_full_text_url"; "id"]) as (_ & H).
  split; apply H; right; left; exists "get_full_text_url";
    (split; [left; reflexivity|]); (split; [reflexivity|]); right;
    (split; [reflexivity|]); [right|left]; reflexivity.
Defined.

Lemma dir_names_resolve_witness :
  In "thumbnail_image" (__dir__ (url_method_names ++ ["title"; "id"]))
  /\ attribute_error (sample_getattr sample_document "thumbnail_image") = false.
Proof.
  apply (dir_names_resolve "https://api.example.org/api/" sample_netloc
           sample_get sample_get (fun b => Some (string_of_list_byte b))
           (fun _ => None) sample_document ["title"; "id"] "thumbnail_image").
  right. exists "thumbnail". split; cbn; tauto.
Defined.

(** The fields of the JSON do not touch the full-text accessor. *)
Lemma lookup_is_local_witness :
  getattr sample_inherited "https://api.example.org/api/" sample_netloc sample_get
    sample_get (fun b => Some (string_of_list_byte b)) (fun _ => None)
    sample_document "full_text"
  = sample_getattr sample_document "full_text".
Proof.
  apply (lookup_is_local sample_inherited no_inherited).
  intros y [<-|[<-|[<-|[<-|[]]]]]; reflexivity.
Defined.

(** ** The requests of a directory upload *)

Section DirectoryRequests.

Variable w : World.
Variable srv : Server.
Variable BULK_LIMIT : nat.

Abbreviation upload_directory := (upload_directory w srv BULK_LIMIT).
Abbreviation path_list := (path_list w).
Abbreviation put_request := (put_request w).
Abbreviation group_run := (group_run w).
Abbreviation runs_of := (runs_of w).

Abbreviation stored := (stored w).

Lemma puts_requests (puts : list event) (reqs : list (string * string)) :
  map ev_request puts = map put_request reqs ->
  process_calls puts = [] /\ created_lists puts = []
  /\ storage_requests puts = map stored reqs
  /\ Forall (fun ev => bulk_request (ev_request ev) = true) puts.
Proof.
  revert reqs. induction puts as [|ev puts IH]; intros [|r reqs] H; try discriminate.
  - repeat split. constructor.
  - cbn in H. injection H as Hev Hrest. destruct (IH _ Hrest) as (IH1 & IH2 & IH3 & IH4).
    unfold process_calls, created_lists, storage_requests in *. cbn [flat_map map].
    rewrite IH1, IH2, IH3.
    unfold process_ids_of, created_list_of, storage_of. rewrite Hev.
    repeat split. constructor; [rewrite Hev; reflexivity|exact IH4].
Qed.

Lemma group_run_requests (params : gmap string pyval) (fps : list string)
    (seg : list event) (recs : list created) :
  group_run params fps seg recs ->
  process_calls seg = map ids_of (created_lists seg)
  /\ Forall (fun ev => bulk_request (ev_request ev) = true) seg
  /\ storage_requests seg = map stored (combine (map presigned_url recs) fps).
Proof.
  intros [e|js puts pr Hputs].
  - repeat split. constructor; [reflexivity|constructor].
  - destruct (puts_requests _ _ Hputs) as (Hp & Hc & Hs & Hb).
    change (?x :: ?l ++ ?r)%list with ([x] ++ l ++ r)%list.
    unfold process_calls, created_lists, storage_requests in *.
    rewrite !flat_map_app, Hp, Hc, Hs. cbn. rewrite app_nil_r.
    repeat split.
    constructor; [reflexivity|]. apply Forall_app. split; [exact Hb|].
    constructor; [reflexivity|constructor].
Qed.

Lemma runs_requests (params : gmap string pyval) (groups : list (list (option string)))
    (runs : list (list event * list created)) :
  runs_of params groups runs ->
  process_calls (concat (map fst runs))
  = map ids_of (created_lists (concat (map fst runs)))
  /\ Forall (fun ev => bulk_request (ev_request ev) = true) (concat (map fst runs))
  /\ Forall (fun t => (exists p, In p (concat (map drop_none groups))
                                 /\ snd t = read_file w p)
                      /\ exists c, In c (concat (map snd runs))
                                   /\ fst t = presigned_url c)
            (storage_requests (concat (map fst runs)))
  /\ (length (storage_requests (concat (map fst runs)))
      <= length (concat (map drop_none groups)))%nat.
Proof.
  induction 1 as [|g r groups runs Hg _ (IH1 & IH2 & IH3 & IH4)].
  - repeat split; constructor.
  - destruct (group_run_requests _ _ _ _ Hg) as (H1 & H2 & H3).
    cbn [map concat].
    unfold process_calls, created_lists, storage_requests in *.
    rewrite !flat_map_app, map_app, H1, IH1, H3.
    split; [reflexivity|]. split; [apply Forall_app; now split|]. split.
    + apply Forall_app. split.
      * apply List.Forall_forall. intros t Ht. apply in_map_iff in Ht.
        destruct Ht as ([u p] & <- & Hin). cbn [stored fst snd]. split.
        -- exists p. split; [|reflexivity]. apply in_or_app. left.
           exact (in_combine_r _ _ _ _ Hin).
        -- apply in_combine_l in Hin. apply in_map_iff in Hin.
           destruct Hin as (c & <- & Hc). exists c. split; [|reflexivity].
           apply in_or_app. now left.
      * eapply List.Forall_impl; [|exact IH3]. intros t [(p & Hp & E1) (c & Hc & E2)].
        split; [exists p|exists c]; (split; [apply in_or_app; now right|assumption]).
    + rewrite !length_app, length_map, length_combine, length_map. lia.
Qed.

(** X24: the requests of a directory upload that returns. Each process
    call names exactly the ids of the records of one answered create call,
    call for call and in order, whether or not the files of those records
    reached the storage. Every request goes to the bulk interface or to the
    storage. Every storage request sends the content of a file that passed
    the filter to a target that a create call of the run gave, and there
    are never more of them than such files. *)
Theorem directory_requests (path : string) (he : bool) (kwargs : gmap string pyval)
    (returned : list Document) :
  snd (upload_directory path he kwargs []) = Return returned ->
  let tr := fst (upload_directory path he kwargs []) in
  process_calls tr = map ids_of (created_lists tr)
  /\ Forall (fun ev => bulk_request (ev_request ev) = true) tr
  /\ Forall (fun t => (exists p, In p (path_list path) /\ snd t = read_file w p)
                      /\ exists c, In c (created_in tr) /\ fst t = presigned_url c)
            (storage_requests tr)
  /\ (length (storage_requests tr) <= length (path_list path))%nat.
Proof.
  intros Hret.
  destruct (upload_directory_run w srv BULK_LIMIT path he kwargs)
    as [(runs & Hruns & _ & Hrun)|(seg & e & k & _ & _ & _ & Hrun)];
    rewrite Hrun in *; [|discriminate Hret].
  cbn [fst].
  destruct (runs_requests _ _ _ Hruns) as (H1 & H2 & H3 & H4).
  destruct (runs_of_trace w _ _ _ Hruns) as [_ Hc].
  fold (file_groups (path_list path) BULK_LIMIT) in H3, H4.
  split; [exact H1|]. split; [exact H2|].
  destruct BULK_LIMIT as [|n] eqn:En.
  - destruct runs as [|r runs]; [|inversion Hruns].
    split; [constructor|]. cbn. lia.
  - rewrite file_groups_concat in H3, H4 by lia. rewrite Hc. split; assumption.
Qed.

End DirectoryRequests.

(** The first storage request of the run fails, and the id of its record
    is in the process call all the same. *)
Lemma directory_requests_witness :
  let tr := fst (upload_directory tree_world flaky_server 1 "d" true ∅ []) in
  process_calls tr = map ids_of (created_lists tr)
  /\ nth_error tr 1
     = Some (mkEvent (PutStorage "https://storage.example.org/target"
                        (list_byte_of_string "d/a.pdf"))
                     (inl (RequestException "connection reset")))
  /\ nth_error (process_calls tr) 0 = Some [0]
  /\ (length (storage_requests tr) <= 3)%nat.
Proof.
  destruct (snd (upload_directory tree_world flaky_server 1 "d" true ∅ []))
    as [e|returned] eqn:E; [vm_compute in E; discriminate E|].
  pose proof (directory_requests tree_world flaky_server 1 "d" true ∅ returned E)
    as (H1 & _ & _ & H4).
  split; [exact H1|]. split; [reflexivity|]. split; [reflexivity|exact H4].
Defined.
